(** * Materna analytics aggregation engine

    A shallow embedding of [dashboard_methods.py]: the time-range resolver,
    the record normalisers ([_latest_by_patient], the bucketing functions)
    and the twelve [fetch_*] aggregations, followed by the properties the
    specification states about them, and by further properties of the
    helpers, of the aggregations and of the endpoint of [main.py] that
    calls them.

    Python values are modelled as the code has them:
    - a [float] is an element of a type [F] carrying the operations of the
      class [PyFloat]; the instance [binary64] is IEEE-754 double precision
      (Rocq's primitive floats), the arithmetic CPython runs, with the C
      library's [pow], which [**] calls, as a parameter of the platform;
    - an exception is a value of [exn], and a computation that may raise
      returns a [result];
    - a JSON object is a [gmap] from strings; a dictionary whose iteration
      order the code relies on is an insertion-ordered association list;
    - a table of the store is the list of its rows, in the order a query
      returns them. *)

From Stdlib Require Import ZArith NArith List Bool Ascii String Floats Lia.
From Stdlib Require Import Sorted Permutation.
From stdpp Require Import base option list gmap strings pretty.

Open Scope string_scope.
Open Scope list_scope.
Open Scope Z_scope.

(* ===================================================================== *)
(** * Python runtime: exceptions and results                              *)
(* ===================================================================== *)

Inductive exn : Type :=
| TypeError
| ValueError
| OverflowError
| ZeroDivisionError.

Inductive result (A : Type) : Type :=
| Ok (a : A)
| Raise (e : exn).

Arguments Ok {A} a.
Arguments Raise {A} e.

Definition bind {A B : Type} (m : result A) (k : A -> result B) : result B :=
  match m with
  | Ok a => k a
  | Raise e => Raise e
  end.

Notation "'do' x <- m ; k" := (bind m (fun x => k))
  (at level 10, x name, m at level 100, k at level 200).
Notation "'do' ' p <- m ; k" := (bind m (fun x => let 'p := x in k))
  (at level 10, p strict pattern, m at level 100, k at level 200).

(** A [for] loop whose body may raise: the state is threaded from left to
    right and the first exception ends the loop. *)
Fixpoint for_each {S X : Type} (body : S -> X -> result S) (xs : list X)
    (s : S) : result S :=
  match xs with
  | [] => Ok s
  | x :: xs' => do s' <- body s x; for_each body xs' s'
  end.

(** A comprehension whose element expression may raise. *)
Fixpoint map_r {X Y : Type} (f : X -> result Y) (xs : list X)
    : result (list Y) :=
  match xs with
  | [] => Ok []
  | x :: xs' => do y <- f x; do ys <- map_r f xs'; Ok (y :: ys)
  end.

(** A function applied to the value a computation returns. *)
Definition result_map {A B : Type} (f : A -> B) (r : result A) : result B :=
  match r with
  | Ok a => Ok (f a)
  | Raise e => Raise e
  end.

(* ===================================================================== *)
(** * Python floats                                                       *)
(* ===================================================================== *)

(** The primitive operations on [float] the module uses.  [fdiv] is the
    quotient where the divisor is not zero; CPython tests the divisor first
    (see [py_truediv]).  [fsq] is the value of [x ** 2] where the power
    does not raise (see [py_sq]), and [fsqrt] the value of [x ** 0.5] for
    the sums of squares the module takes it of; both are what
    [float.__pow__] returns, which need not be the rounded product or the
    rounded square root.  [ftrunc] is truncation towards zero, meaningful
    on finite values; CPython tests for NaN and infinities first (see
    [py_int]). *)
Class PyFloat (F : Type) : Type := {
  fz : Z -> F;                  (* float(n) for an int n *)
  fadd : F -> F -> F;
  fsub : F -> F -> F;
  fmul : F -> F -> F;
  fdiv : F -> F -> F;
  fsq : F -> F;                 (* x ** 2 *)
  fsqrt : F -> F;               (* x ** 0.5 for x >= 0 *)
  fabs : F -> F;                (* abs(x) *)
  fltb : F -> F -> bool;        (* x < y *)
  fis_zero : F -> bool;         (* x == 0.0, i.e. not bool(x) *)
  fis_nan : F -> bool;
  fis_inf : F -> bool;
  ftrunc : F -> Z;
  fround3 : F -> F;             (* round(x, 3) *)
}.

Section PyOps.
Context {F : Type} `{PyFloat F}.

(** [x / y] on two floats. *)
Definition py_truediv (x y : F) : result F :=
  if fis_zero y then Raise ZeroDivisionError else Ok (fdiv x y).

(** [x / n] for a float [x] and an int [n] (a [len] or a counter). *)
Definition py_truediv_int (x : F) (n : Z) : result F :=
  if n =? 0 then Raise ZeroDivisionError else Ok (fdiv x (fz n)).

(** [x ** 2]: [float.__pow__] raises [OverflowError] when the power of a
    finite number comes back infinite. *)
Definition py_sq (x : F) : result F :=
  let y := fsq x in
  if fis_inf y && negb (fis_inf x) then Raise OverflowError else Ok y.

(** [int(x)] for a float [x]. *)
Definition py_int (x : F) : result Z :=
  if fis_nan x then Raise ValueError
  else if fis_inf x then Raise OverflowError
  else Ok (ftrunc x).

(** [sum(xs)]: the running total starts at [0] and adds from the left, as
    the loops that accumulate with [+=] do.  (CPython 3.12 and later
    compensate the rounding errors of the additions; the two agree
    whenever the additions are exact.) *)
Definition py_sum (xs : list F) : F := fold_left fadd xs (fz 0).

(** [len(xs)] as an int. *)
Definition py_len {X : Type} (xs : list X) : Z := Z.of_nat (length xs).

(** [sum(xs)/len(xs) if xs else 0.0], the guarded mean every grouped
    average ends with. *)
Definition mean_or_zero (xs : list F) : result F :=
  match xs with
  | [] => Ok (fz 0)
  | _ :: _ => py_truediv_int (py_sum xs) (py_len xs)
  end.
End PyOps.

(* --------------------------------------------------------------------- *)
(** ** IEEE-754 double precision                                          *)
(* --------------------------------------------------------------------- *)

Module Binary64.

(** [float(n)]: the double nearest to the integer [n]. *)
Definition of_Z (n : Z) : float :=
  SF2Prim (binary_normalize prec emax n 0 false).

(** [num / den] rounded to the nearest integer, ties to even. *)
Definition round_half_even (num den : Z) : Z :=
  let q := num / den in
  let r := num mod den in
  match 2 * r ?= den with
  | Lt => q
  | Gt => q + 1
  | Eq => if Z.even q then q else q + 1
  end.

(** [round(x, 3)]: CPython writes the exact binary value of [x] with three
    correctly rounded decimals and reads the decimal back, which gives the
    double nearest to [n / 1000] for the integer [n] nearest to
    [1000 * x]. *)
Definition round3 (x : float) : float :=
  match Prim2SF x with
  | S754_finite s m e =>
      if 0 <=? e then x
      else
        match round_half_even (Z.pos m * 1000) (2 ^ (- e)) with
        | Z.pos n =>
            SF2Prim (SFdiv prec emax (S754_finite s n 0)
                                     (S754_finite false 1000 0))
        | _ => SF2Prim (S754_zero s)
        end
  | _ => x
  end.

(** Truncation towards zero of a finite double. *)
Definition trunc (x : float) : Z :=
  match Prim2SF x with
  | S754_finite s m e =>
      let a := if 0 <=? e then Z.pos m * 2 ^ e else Z.pos m / 2 ^ (- e) in
      if s then - a else a
  | _ => 0
  end.


(** The C library's [pow].  Its values are the platform's: glibc's lie
    within one unit in the last place of the exact power and are not
    always the nearest double, so that [pow x 2] can differ from the
    rounded product [x * x], and [pow x 0.5] from the rounded square
    root. *)
Class Libm : Type := {
  pow : float -> float -> float;
}.

(** The value of [x ** y] in [float.__pow__], for an exponent [y] that is
    positive, finite and not an odd integer ([2] and [0.5] here):
    CPython settles a NaN, an infinity, a zero and a base of absolute
    value 1 itself, and passes the absolute value of any other base to
    [pow].  (With the exponent [0.5] a negative base gives a complex
    number in Python; the module takes that root of sums of squares
    only.) *)
Definition float_pow {L : Libm} (x y : float) : float :=
  if PrimFloat.is_nan x then x
  else if PrimFloat.is_infinity x then PrimFloat.abs x
  else if PrimFloat.eqb x 0%float then 0%float
  else if PrimFloat.eqb (PrimFloat.abs x) 1%float then 1%float
  else pow (PrimFloat.abs x) y.

#[global] Instance binary64 {L : Libm} : PyFloat float := {|
  fz := of_Z;
  fadd := PrimFloat.add;
  fsub := PrimFloat.sub;
  fmul := PrimFloat.mul;
  fdiv := PrimFloat.div;
  fsq := fun x => float_pow x 2%float;
  fsqrt := fun x => float_pow x 0.5%float;
  fabs := PrimFloat.abs;
  fltb := PrimFloat.ltb;
  fis_zero := fun x => PrimFloat.eqb x 0%float;
  fis_nan := PrimFloat.is_nan;
  fis_inf := PrimFloat.is_infinity;
  ftrunc := trunc;
  fround3 := round3;
|}.

End Binary64.

(* ===================================================================== *)
(** * Strings and dictionaries                                            *)
(* ===================================================================== *)

(** [str.upper] and [str.lower] on ASCII text (contaminant names, risk
    labels); other bytes are left as they are. *)
Definition upper_ascii (c : ascii) : ascii :=
  let n := N_of_ascii c in
  if ((97 <=? n) && (n <=? 122))%N then ascii_of_N (n - 32) else c.

Definition lower_ascii (c : ascii) : ascii :=
  let n := N_of_ascii c in
  if ((65 <=? n) && (n <=? 90))%N then ascii_of_N (n + 32) else c.

Fixpoint upper (s : string) : string :=
  match s with
  | EmptyString => EmptyString
  | String c s' => String (upper_ascii c) (upper s')
  end.

Fixpoint lower (s : string) : string :=
  match s with
  | EmptyString => EmptyString
  | String c s' => String (lower_ascii c) (lower s')
  end.

(** A [dict] keyed by patient id.  Python keeps the keys in insertion
    order, and assigning to a key that is present keeps its place. *)
Definition odict (V : Type) : Type := list (Z * V).

Fixpoint od_get {V : Type} (d : odict V) (k : Z) : option V :=
  match d with
  | [] => None
  | (k', v) :: d' => if k' =? k then Some v else od_get d' k
  end.

Fixpoint od_set {V : Type} (d : odict V) (k : Z) (v : V) : odict V :=
  match d with
  | [] => [(k, v)]
  | (k', v') :: d' =>
      if k' =? k then (k, v) :: d' else (k', v') :: od_set d' k v
  end.

Definition od_keys {V : Type} (d : odict V) : list Z := map fst d.
Definition od_values {V : Type} (d : odict V) : list V := map snd d.
Definition od_mem {V : Type} (d : odict V) (k : Z) : bool :=
  match od_get d k with Some _ => true | None => false end.

(** [sorted(ids)] on ints. *)
Fixpoint insert_sorted (x : Z) (l : list Z) : list Z :=
  match l with
  | [] => [x]
  | y :: l' => if x <=? y then x :: l else y :: insert_sorted x l'
  end.

Definition sorted (l : list Z) : list Z := fold_right insert_sorted [] l.

(** [d or {}] for an optional JSON object. *)
Definition or_empty {V : Type} (o : option (gmap string V)) : gmap string V :=
  match o with Some d => d | None => empty end.

(** [l or []] for an optional JSON array. *)
Definition or_nil {X : Type} (o : option (list X)) : list X :=
  match o with Some l => l | None => [] end.

(** [f"P{i+1}"] for [i] in [range(n)]. *)
Definition point_labels (n : nat) : list string :=
  map (fun i : nat => "P" +:+ pretty (Z.of_nat i + 1)) (seq 0 n).

(* ===================================================================== *)
(** * Data model (models.py)                                              *)
(* ===================================================================== *)

(** A [datetime] is its number of microseconds since 1970-01-01 00:00:00; a
    plain [date] is its number of days since 1970-01-01. *)
Inductive pydate : Type :=
| PDate (days : Z)
| PDateTime (us : Z).

Definition day_us : Z := 86400000000.

(** [datetime.combine(d, datetime.min.time())]. *)
Definition midnight (days : Z) : Z := days * day_us.

(** [datetime(2000, 1, 1)]. *)
Definition datetime_2000_1_1 : Z := 10957 * day_us.

Section Model.
Context {F : Type} `{PyFloat F}.

(** A JSON number as Python reads it: an [int] or a [float]. *)
Inductive pynum : Type :=
| PInt (z : Z)
| PFloat (x : F).

(** A value of a feature map, of a prediction map or of a result row: a
    number or [None]. *)
Inductive jval : Type :=
| JNull
| JNum (v : pynum).

(** [float(v)]. *)
Definition py_float (v : pynum) : F :=
  match v with PInt z => fz z | PFloat x => x end.

(** [bool(v)]. *)
Definition py_truthy (v : pynum) : bool :=
  match v with PInt z => negb (z =? 0) | PFloat x => negb (fis_zero x) end.

(** [float(v or 0.0)]. *)
Definition float_or_zero (v : pynum) : F :=
  if py_truthy v then py_float v else fz 0.

(** [int(v)]. *)
Definition py_int_num (v : pynum) : result Z :=
  match v with PInt z => Ok z | PFloat x => py_int x end.

(** One entry of [LabTest.pcb_results]: [{"name": ..., "level": ...}].
    [row_name] is [None] when the key is absent; [row_level] is [JNull]
    when the key is absent or holds [None]. *)
Record pcb_row : Type := {
  row_name : option string;
  row_level : jval;
}.

(** A row of the table of feature snapshots.  Both maps are JSON columns:
    the output map, when present, sends a contaminant name to a predicted
    concentration or to [None]; the input map holds numbers and [None]
    (the registration form stores [None] under "Gender" and
    "maternal_PCB"). *)
Record ModelFeatures : Type := {
  mf_id : Z;
  mf_patient_id : Z;
  date : Z;
  input_features : option (gmap string jval);
  output_predictions : option (gmap string jval);
}.

Record LabTest : Type := {
  lt_id : Z;
  lt_patient_id : Z;
  status : option string;
  collection_date : option pydate;
  result_date : option pydate;
  pcb_results : option (list pcb_row);
}.

Record Patient : Type := {
  id : Z;
  age : option Z;
  risk : option string;
}.

(** The three tables the aggregations read. *)
Record Store : Type := {
  model_features : list ModelFeatures;
  lab_tests : list LabTest;
  patients : list Patient;
}.

(* =================================================================== *)
(** * Helpers (dashboard_methods.py)                                    *)
(* =================================================================== *)

Definition PCB_KEYS : list string :=
  ["PCB_118"; "PCB_138"; "PCB_153"; "PCB_180"; "PCB_74";
   "PCB_99"; "PCB_156"; "PCB_170"; "PCB_183"; "PCB_187"].

(** [get_range_bounds], with the clock reading [now] made explicit. *)
Definition get_range_bounds (now : Z) (range_str : string) : Z * Z :=
  if String.eqb range_str "week" then (now - 7 * day_us, now)
  else if String.eqb range_str "month" then (now - 30 * day_us, now)
  else if String.eqb range_str "threemonths" then (now - 90 * day_us, now)
  else (datetime_2000_1_1, now).

(** [start <= x <= end], the comparison every date filter is written
    with. *)
Definition in_window (start end_ x : Z) : bool :=
  (start <=? x) && (x <=? end_).

(** [t.result_date or t.collection_date]. *)
Definition result_or_collection (t : LabTest) : option pydate :=
  match result_date t with
  | Some d => Some d
  | None => collection_date t
  end.

Definition _test_date (t : LabTest) : Z :=
  match result_or_collection t with
  | Some (PDateTime us) => us
  | Some (PDate days) => midnight days
  | None => datetime_2000_1_1
  end.

(** [select(ModelFeatures).where(ModelFeatures.date >= start,
    ModelFeatures.date <= end)]. *)
Definition select_features (st : Store) (start end_ : Z)
    : list ModelFeatures :=
  List.filter (fun mf => (start <=? date mf) && (date mf <=? end_))
    (model_features st).

(** [select(LabTest).where(LabTest.status.in_(["ready", "released"]))]. *)
Definition status_ready_or_released (t : LabTest) : bool :=
  match status t with
  | Some s => String.eqb s "ready" || String.eqb s "released"
  | None => false
  end.

Definition select_ready_tests (st : Store) : list LabTest :=
  List.filter status_ready_or_released (lab_tests st).

(** [select(Patient).where(Patient.id.in_(pids))] followed by
    [{p.id: p for p in rows}]. *)
Definition select_patients (st : Store) (pids : list Z) : odict Patient :=
  fold_left (fun d p => od_set d (id p) p)
    (List.filter (fun p => existsb (Z.eqb (id p)) pids) (patients st)) [].

Definition _latest_by_patient (features : list ModelFeatures)
    : odict ModelFeatures :=
  fold_left
    (fun by_ mf =>
       match od_get by_ (mf_patient_id mf) with
       | None => od_set by_ (mf_patient_id mf) mf
       | Some cur =>
           if date cur <? date mf then od_set by_ (mf_patient_id mf) mf
           else by_
       end)
    features [].

Definition _bmi3 (bmi : option F) : option string :=
  match bmi with
  | None => None
  | Some b =>
      if fltb b (fdiv (fz 37) (fz 2)) then Some "Underweight"
      else if fltb b (fz 25) then Some "Normal"
      else Some "Overweight"
  end.

Definition _risk_from_value (v : F) : string :=
  if fltb v (fz 2) then "low"
  else if fltb v (fz 4) then "medium"
  else "high".

(** [mf.output_predictions or {}]. *)
Definition preds_of (mf : ModelFeatures) : gmap string jval :=
  or_empty (output_predictions mf).

(** [mf.input_features or {}]. *)
Definition feats_of (mf : ModelFeatures) : gmap string jval :=
  or_empty (input_features mf).

(** [float(preds.get(k, 0.0))]: the default stands in for an absent key
    only, and [float(None)] is a [TypeError]. *)
Definition pred_or_zero (mf : ModelFeatures) (k : string) : result F :=
  match preds_of mf !! k with
  | Some (JNum v) => Ok (py_float v)
  | Some JNull => Raise TypeError
  | None => Ok (fz 0)
  end.

(** [sum(float((mf.output_predictions or {}).get(k, 0.0)) for k in
    PCB_KEYS)], the total predicted load of a snapshot. *)
Definition total_load (mf : ModelFeatures) : result F :=
  do vs <- map_r (pred_or_zero mf) PCB_KEYS;
  Ok (py_sum vs).

(** [float(feats.get(k, 0.0) or 0.0)] (the default may also be the int
    [0]). *)
Definition jval_or_zero (o : option jval) : F :=
  match o with
  | Some (JNum v) => float_or_zero v
  | Some JNull => fz 0
  | None => fz 0
  end.

Definition feat_or_zero (mf : ModelFeatures) (k : string) : F :=
  jval_or_zero (feats_of mf !! k).

(** [float(feats.get("Daily dairy doses",
                     feats.get("Sum of dairy products", 0.0)) or 0.0)]. *)
Definition dairy_of (mf : ModelFeatures) : F :=
  match feats_of mf !! "Daily dairy doses" with
  | Some v => jval_or_zero (Some v)
  | None => feat_or_zero mf "Sum of dairy products"
  end.

(** The pair of dictionaries [{k: 0.0 for k in PCB_KEYS}],
    [{k: 0 for k in PCB_KEYS}] that the per-substance averages
    accumulate into. *)
Record accum : Type := {
  acc_sum : gmap string F;
  acc_cnt : gmap string Z;
}.

Definition accum_init : accum := {|
  acc_sum := list_to_map (map (fun k => (k, fz 0)) PCB_KEYS);
  acc_cnt := list_to_map (map (fun k => (k, 0)) PCB_KEYS);
|}.

(** [s[k]] and [c[k]] for a key the dictionaries hold. *)
Definition sum_at (a : accum) (k : string) : F :=
  match acc_sum a !! k with Some x => x | None => fz 0 end.

Definition cnt_at (a : accum) (k : string) : Z :=
  match acc_cnt a !! k with Some n => n | None => 0 end.

(** [s[k] += x; c[k] += 1]. *)
Definition accum_add (a : accum) (k : string) (x : F) : accum := {|
  acc_sum := <[k := fadd (sum_at a k) x]> (acc_sum a);
  acc_cnt := <[k := cnt_at a k + 1]> (acc_cnt a);
|}.

(** [(s[k]/c[k] if c[k] else 0.0)]. *)
Definition accum_avg (a : accum) (k : string) : result F :=
  if cnt_at a k =? 0 then Ok (fz 0)
  else py_truediv_int (sum_at a k) (cnt_at a k).

(** The nested helper [corr(a, b)] of [fetch_correlation_heatmap] and
    [fetch_exposure_contribution]. *)
Definition corr (a b : list F) : result F :=
  let n := py_len a in
  if (n =? 0) || negb (n =? py_len b) then Ok (fz 0)
  else
    do mx <- py_truediv_int (py_sum a) n;
    do my <- py_truediv_int (py_sum b) n;
    let num :=
      py_sum (map (fun xy => fmul (fsub (fst xy) mx) (fsub (snd xy) my))
                  (combine a b)) in
    do sqx <- map_r (fun x => py_sq (fsub x mx)) a;
    let denx := fsqrt (py_sum sqx) in
    do sqy <- map_r (fun y => py_sq (fsub y my)) b;
    let deny := fsqrt (py_sum sqy) in
    if negb (fis_zero denx) && negb (fis_zero deny)
    then py_truediv num (fmul denx deny)
    else Ok (fz 0).

(* =================================================================== *)
(** * Result shapes                                                     *)
(* =================================================================== *)

(** [{"labels": ..., "values": ...}]. *)
Record Chart : Type := {
  labels : list string;
  values : list pynum;
}.

(** [{"x": ..., "y": ...}]. *)
Record Point : Type := {
  pt_x : F;
  pt_y : F;
}.

Record Summary : Type := {
  total_patients : Z;
  high_risk : Z;
  top_pcb : string;
  top_pcb_avg : F;
  avg_fetal_pcb : F;
  correlation : F;
}.

Record AvgLevels : Type := {
  avg_labels : list string;
  maternal : list F;
  fetal : list F;
}.

Record RiskDistribution : Type := {
  risk_labels : list string;
  risk_low : list Z;
  risk_med : list Z;
  risk_high : list Z;
}.

Record ConcentrationSeries : Type := {
  series_labels : list string;
  maternal_series : list F;
  fetal_series : list F;
}.

Record Heatmap : Type := {
  heat_labels : list string;
  matrix : list (list F);
}.

(* =================================================================== *)
(** * Summary metrics                                                   *)
(* =================================================================== *)

(** [str(p.risk).lower() == "high"]. *)
Definition risk_is_high (p : Patient) : bool :=
  String.eqb (lower (match risk p with Some s => s | None => "None" end))
             "high".

(** The inner loop of [fetch_summary] over [PCB_KEYS] for one snapshot:
    the accumulators and the running [total]. *)
Definition summary_key_step (mf : ModelFeatures) (st : accum * F)
    (k : string) : accum * F :=
  match preds_of mf !! k with
  | Some (JNum v) =>
      let fv := py_float v in
      (accum_add (fst st) k fv, fadd (snd st) fv)
  | Some JNull => st
  | None => st
  end.

(** The outer loop: accumulators and [fetal_totals]. *)
Definition summary_mf_step (st : accum * list F) (mf : ModelFeatures)
    : accum * list F :=
  let r := fold_left (summary_key_step mf) PCB_KEYS (fst st, fz 0) in
  (fst r, snd st ++ [snd r]).

(** [max(items, key=lambda x: x[1])]: the first item whose value no
    later item exceeds. *)
Fixpoint max_item (cur : string * F) (rest : list (string * F))
    : string * F :=
  match rest with
  | [] => cur
  | it :: rest' =>
      if fltb (snd cur) (snd it) then max_item it rest'
      else max_item cur rest'
  end.

(** [d.get(k, 0.0)] on the dictionary [avgs], kept as its item list. *)
Definition items_get (d : list (string * F)) (k : string) : F :=
  match List.find (fun it => String.eqb (fst it) k) d with
  | Some it => snd it
  | None => fz 0
  end.

(** The second loop of [fetch_summary]: the paired series [xs], [ys]. *)
Definition summary_pair_step (st : list F * list F) (mf : ModelFeatures)
    : result (list F * list F) :=
  match feats_of mf !! "maternal_PCB" with
  | Some (JNum mpcb) =>
      do ft <- total_load mf;
      Ok (fst st ++ [py_float mpcb], snd st ++ [ft])
  | Some JNull => Ok st
  | None => Ok st
  end.

Definition fetch_summary (st : Store) (start end_ : Z) : result Summary :=
  let mfs := select_features st start end_ in
  let latest := _latest_by_patient mfs in
  let pids := od_keys latest in
  let pats := match pids with
              | [] => []
              | _ :: _ => select_patients st pids
              end in
  let high := py_len (List.filter
                (fun pid => match od_get pats pid with
                            | Some p => risk_is_high p
                            | None => false
                            end) pids) in
  let '(acc, fetal_totals) :=
    fold_left summary_mf_step (od_values latest) (accum_init, []) in
  do avg_list <- map_r (accum_avg acc) PCB_KEYS;
  let avgs := combine PCB_KEYS avg_list in
  let top := match avgs with
             | [] => "-"
             | it :: rest => fst (max_item it rest)
             end in
  let top_avg := items_get avgs top in
  do avg_fetal <- mean_or_zero fetal_totals;
  do '(xs, ys) <- for_each summary_pair_step (od_values latest) ([], []);
  do c <-
    match xs, ys with
    | _ :: _, _ :: _ =>
        do mx <- py_truediv_int (py_sum xs) (py_len xs);
        do my <- py_truediv_int (py_sum ys) (py_len ys);
        let num :=
          py_sum (map (fun xy => fmul (fsub (fst xy) mx) (fsub (snd xy) my))
                      (combine xs ys)) in
        do sqx <- map_r (fun x => py_sq (fsub x mx)) xs;
        let denx := fsqrt (py_sum sqx) in
        do sqy <- map_r (fun y => py_sq (fsub y my)) ys;
        let deny := fsqrt (py_sum sqy) in
        do raw <- (if negb (fis_zero denx) && negb (fis_zero deny)
                   then py_truediv num (fmul denx deny)
                   else Ok (fz 0));
        Ok (fround3 raw)
    | _, _ => Ok (fz 0)
    end;
  Ok {| total_patients := py_len latest;
        high_risk := high;
        top_pcb := top;
        top_pcb_avg := fround3 top_avg;
        avg_fetal_pcb := fround3 avg_fetal;
        correlation := c |}.

(* =================================================================== *)
(** * 1) Exposure and risk patterns                                     *)
(* =================================================================== *)

(** The date test of [fetch_avg_pcb_levels]: [dt] is the result date or
    else the collection date, a plain date is taken at midnight, and a
    missing date counts as [start]. *)
Definition avg_test_datetime (start : Z) (t : LabTest) : Z :=
  match result_or_collection t with
  | Some (PDate days) => midnight days
  | Some (PDateTime us) => us
  | None => start
  end.

(** [str(row.get("name", "")).upper()]. *)
Definition row_key (row : pcb_row) : string :=
  upper (match row_name row with Some s => s | None => "" end).

(** [name in ms]. *)
Definition accum_has (a : accum) (k : string) : bool :=
  match acc_sum a !! k with Some _ => true | None => false end.

Definition avg_row_step (a : accum) (row : pcb_row) : accum :=
  let name := row_key row in
  match row_level row with
  | JNum v => if accum_has a name then accum_add a name (py_float v) else a
  | JNull => a
  end.

Definition avg_test_step (start end_ : Z) (a : accum) (t : LabTest)
    : accum :=
  if negb (in_window start end_ (avg_test_datetime start t)) then a
  else fold_left avg_row_step (or_nil (pcb_results t)) a.

Definition avg_mf_step (a : accum) (mf : ModelFeatures) : accum :=
  fold_left
    (fun a k => match preds_of mf !! k with
                | Some (JNum v) => accum_add a k (py_float v)
                | Some JNull => a
                | None => a
                end)
    PCB_KEYS a.

Definition fetch_avg_pcb_levels (st : Store) (start end_ : Z)
    : result AvgLevels :=
  let m := fold_left (avg_test_step start end_) (select_ready_tests st)
             accum_init in
  do maternal_ <- map_r (accum_avg m) PCB_KEYS;
  let f := fold_left avg_mf_step (select_features st start end_)
             accum_init in
  do fetal_ <- map_r (accum_avg f) PCB_KEYS;
  Ok {| avg_labels := PCB_KEYS; maternal := maternal_; fetal := fetal_ |}.

(** The three counter lists [lows], [meds], [highs]. *)
Record risk_counts : Type := {
  lows : list Z;
  meds : list Z;
  highs : list Z;
}.

(** [l[i] += 1]. *)
Definition incr_at (l : list Z) (i : nat) : list Z :=
  match l !! i with
  | Some n => <[i := n + 1]> l
  | None => l
  end.

Definition risk_key_step (mf : ModelFeatures) (c : risk_counts)
    (ik : nat * string) : result risk_counts :=
  do v <- pred_or_zero mf (snd ik);
  let r := _risk_from_value v in
  if String.eqb r "low" then
    Ok {| lows := incr_at (lows c) (fst ik);
          meds := meds c; highs := highs c |}
  else if String.eqb r "medium" then
    Ok {| lows := lows c;
          meds := incr_at (meds c) (fst ik); highs := highs c |}
  else
    Ok {| lows := lows c; meds := meds c;
          highs := incr_at (highs c) (fst ik) |}.

(** [enumerate(xs)]. *)
Definition enumerate {X : Type} (xs : list X) : list (nat * X) :=
  combine (seq 0 (length xs)) xs.

Definition risk_mf_step (c : risk_counts) (mf : ModelFeatures)
    : result risk_counts :=
  for_each (risk_key_step mf) (enumerate PCB_KEYS) c.

Definition fetch_risk_distribution_by_pcb (st : Store) (start end_ : Z)
    : result RiskDistribution :=
  let zeros := repeat 0 (length PCB_KEYS) in
  do c <- for_each risk_mf_step (select_features st start end_)
            {| lows := zeros; meds := zeros; highs := zeros |};
  Ok {| risk_labels := PCB_KEYS;
        risk_low := lows c; risk_med := meds c; risk_high := highs c |}.

(** [[float(r.get("level") or 0.0) for r in (t.pcb_results or [])
      if r.get("level") is not None]]. *)
Definition test_levels (t : LabTest) : list F :=
  flat_map (fun r => match row_level r with
                     | JNum v => [float_or_zero v]
                     | JNull => []
                     end)
           (or_nil (pcb_results t)).

(** Step 1 of [fetch_concentration_series]: one pass over the ready or
    released tests, writing [mat_avgs[t.patient_id]]. *)
Definition series_test_step (start end_ : Z) (m : odict F) (t : LabTest)
    : result (odict F) :=
  if negb (in_window start end_ (_test_date t)) || (lt_patient_id t =? 0)
  then Ok m
  else
    match test_levels t with
    | [] => Ok m
    | levels =>
        do avg <- py_truediv_int (py_sum levels) (py_len levels);
        Ok (od_set m (lt_patient_id t) avg)
    end.

(** [[v for v in [float(preds.get(k, 0) or 0.0) for k in PCB_KEYS]
      if v > 0]]. *)
Definition positive_preds (mf : ModelFeatures) : list F :=
  List.filter (fun v => fltb (fz 0) v)
    (map (fun k => match preds_of mf !! k with
                   | Some (JNum v) => float_or_zero v
                   | Some JNull => fz 0
                   | None => fz 0
                   end)
         PCB_KEYS).

(** Step 2: one pass over [latest.items()], writing [fet_avgs[pid]]. *)
Definition series_mf_step (m : odict F) (it : Z * ModelFeatures)
    : result (odict F) :=
  match positive_preds (snd it) with
  | [] => Ok m
  | nonzero =>
      do avg <- py_truediv_int (py_sum nonzero) (py_len nonzero);
      Ok (od_set m (fst it) avg)
  end.

(** [sorted(set(mat_avgs) & set(fet_avgs))]. *)
Definition common_ids (mat_avgs fet_avgs : odict F) : list Z :=
  sorted (List.filter (od_mem fet_avgs) (od_keys mat_avgs)).

(** [d[k]] for a key the dictionary holds. *)
Definition od_at (d : odict F) (k : Z) : F :=
  match od_get d k with Some v => v | None => fz 0 end.

Definition fetch_concentration_series (st : Store) (start end_ : Z)
    : result ConcentrationSeries :=
  do mat_avgs <-
    for_each (series_test_step start end_) (select_ready_tests st) [];
  let latest := _latest_by_patient (select_features st start end_) in
  do fet_avgs <- for_each series_mf_step latest [];
  let ids := common_ids mat_avgs fet_avgs in
  Ok {| series_labels := point_labels (length ids);
        maternal_series := map (od_at mat_avgs) ids;
        fetal_series := map (od_at fet_avgs) ids |}.

(* =================================================================== *)
(** * 2) Demographic correlations                                       *)
(* =================================================================== *)

(** A dictionary of lists keyed by a bucket label; [bucket_append] is
    [buckets[label].append(total)] and [bucket_at] is [buckets[label]]
    (for [fetch_pcb_by_bmi], a [defaultdict(list)], an absent label
    reads as the empty list). *)
Definition bucket_at (b : gmap string (list F)) (l : string) : list F :=
  match b !! l with Some xs => xs | None => [] end.

Definition bucket_append (b : gmap string (list F)) (l : string) (x : F)
    : gmap string (list F) :=
  <[l := bucket_at b l ++ [x]]> b.

Definition bucket_init (ls : list string) : gmap string (list F) :=
  list_to_map (map (fun l => (l, [])) ls).

Definition AGE_LABELS : list string :=
  ["<25"; "25-30"; "31-35"; "36-40"; "41+"].

Definition age_bucket (a : Z) : string :=
  if a <? 25 then "<25"
  else if a <=? 30 then "25-30"
  else if a <=? 35 then "31-35"
  else if a <=? 40 then "36-40"
  else "41+".

Definition age_mf_step (pats : odict Patient)
    (b : gmap string (list F)) (it : Z * ModelFeatures)
    : result (gmap string (list F)) :=
  match od_get pats (fst it) with
  | Some p =>
      match age p with
      | Some a =>
          do total <- total_load (snd it);
          Ok (bucket_append b (age_bucket a) total)
      | None => Ok b
      end
  | None => Ok b
  end.

Definition fetch_age_groups_avg (st : Store) (start end_ : Z)
    : result Chart :=
  let mfs := _latest_by_patient (select_features st start end_) in
  match mfs with
  | [] => Ok {| labels := AGE_LABELS;
                values := [PInt 0; PInt 0; PInt 0; PInt 0; PInt 0] |}
  | _ :: _ =>
      let pats := select_patients st (od_keys mfs) in
      do buckets <- for_each (age_mf_step pats) mfs
                      (bucket_init AGE_LABELS);
      do vals <- map_r (fun l => mean_or_zero (bucket_at buckets l))
                   AGE_LABELS;
      Ok {| labels := AGE_LABELS; values := map PFloat vals |}
  end.

Definition scatter_mf_step (pats : odict Patient) (pts : list Point)
    (it : Z * ModelFeatures) : result (list Point) :=
  match od_get pats (fst it) with
  | Some p =>
      match age p with
      | Some a =>
          do total <- total_load (snd it);
          Ok (pts ++ [{| pt_x := fz a; pt_y := fround3 total |}])
      | None => Ok pts
      end
  | None => Ok pts
  end.

Definition fetch_scatter_total_vs_age (st : Store) (start end_ : Z)
    : result (list Point) :=
  let mfs := _latest_by_patient (select_features st start end_) in
  match mfs with
  | [] => Ok []
  | _ :: _ =>
      let pats := select_patients st (od_keys mfs) in
      for_each (scatter_mf_step pats) mfs []
  end.

Definition BMI_LABELS : list string :=
  ["Underweight"; "Normal"; "Overweight"].

Definition bmi_mf_step (b : gmap string (list F)) (mf : ModelFeatures)
    : result (gmap string (list F)) :=
  let bmi := match feats_of mf !! "BMI" with
             | Some (JNum v) => Some (py_float v)
             | Some JNull => None
             | None => None
             end in
  match _bmi3 bmi with
  | Some label =>
      do total <- total_load mf;
      Ok (bucket_append b label total)
  | None => Ok b
  end.

Definition fetch_pcb_by_bmi (st : Store) (start end_ : Z) : result Chart :=
  do buckets <- for_each bmi_mf_step (select_features st start end_) empty;
  do vals <- map_r (fun l => mean_or_zero (bucket_at buckets l)) BMI_LABELS;
  Ok {| labels := BMI_LABELS; values := map PFloat vals |}.

(** [int(feats.get("Smoking", 0)) == 1]. *)
Definition smoking_is_one (mf : ModelFeatures) : result bool :=
  match feats_of mf !! "Smoking" with
  | Some (JNum v) => do n <- py_int_num v; Ok (n =? 1)
  | Some JNull => Raise TypeError
  | None => Ok false
  end.

Definition smoking_mf_step (st : list F * list F) (mf : ModelFeatures)
    : result (list F * list F) :=
  do total <- total_load mf;
  do s <- smoking_is_one mf;
  if s then Ok (fst st ++ [total], snd st)
  else Ok (fst st, snd st ++ [total]).

Definition fetch_smoking_comparison (st : Store) (start end_ : Z)
    : result Chart :=
  do '(smokers, nons) <-
    for_each smoking_mf_step (select_features st start end_) ([], []);
  do avg_s <- mean_or_zero smokers;
  do avg_n <- mean_or_zero nons;
  Ok {| labels := ["Non-smokers"; "Smokers"];
        values := [PFloat avg_n; PFloat avg_s] |}.

Definition HEATMAP_VARS : list string :=
  ["Diet"; "Smoking"; "BMI"; "Age"; "mPCB"].

(** The list [series[var]] after the loop over the snapshots. *)
Definition heatmap_series (mfs : list ModelFeatures) (var : string)
    : list F :=
  if String.eqb var "Diet" then map dairy_of mfs
  else if String.eqb var "Smoking" then
    map (fun mf => feat_or_zero mf "Smoking") mfs
  else if String.eqb var "BMI" then map (fun mf => feat_or_zero mf "BMI") mfs
  else if String.eqb var "Age" then map (fun mf => feat_or_zero mf "Age") mfs
  else map (fun mf => feat_or_zero mf "maternal_PCB") mfs.

Definition fetch_correlation_heatmap (st : Store) (start end_ : Z)
    : result Heatmap :=
  let mfs := select_features st start end_ in
  do mat <-
    map_r (fun r =>
             map_r (fun c =>
                      do x <- corr (heatmap_series mfs r)
                                   (heatmap_series mfs c);
                      Ok (fround3 x))
                   HEATMAP_VARS)
          HEATMAP_VARS;
  Ok {| heat_labels := HEATMAP_VARS; matrix := mat |}.

(* =================================================================== *)
(** * 3) Environment and lifestyle                                      *)
(* =================================================================== *)

(** The categories of [fetch_exposure_contribution], each with the
    input feature it reads. *)
Definition EXPOSURE_CATS : list (string * string) :=
  [("Chemical exposure", "Chemical exposure");
   ("Coffee", "Cups of coffee");
   ("Tea", "Cups of tea");
   ("BMI", "BMI");
   ("Smoking", "Smoking");
   ("Maternal Education", "Maternal Education")].

Definition fetch_exposure_contribution (st : Store) (start end_ : Z)
    : result Chart :=
  let mfs := select_features st start end_ in
  do totals <- map_r total_load mfs;
  do vals <-
    map_r (fun cat =>
             do x <- corr (map (fun mf => feat_or_zero mf (snd cat)) mfs)
                          totals;
             Ok (fround3 (fabs x)))
          EXPOSURE_CATS;
  Ok {| labels := map fst EXPOSURE_CATS; values := map PFloat vals |}.

Definition DAIRY_LABELS : list string :=
  ["Low dairy"; "Medium dairy"; "High dairy"].

Definition dairy_bucket (dairy : F) : string :=
  if fltb dairy (fz 1) then "Low dairy"
  else if fltb dairy (fz 2) then "Medium dairy"
  else "High dairy".

Definition dietary_mf_step (b : gmap string (list F)) (mf : ModelFeatures)
    : result (gmap string (list F)) :=
  let dairy := dairy_of mf in
  do total <- total_load mf;
  Ok (bucket_append b (dairy_bucket dairy) total).

Definition fetch_dietary_patterns (st : Store) (start end_ : Z)
    : result Chart :=
  do bins <- for_each dietary_mf_step (select_features st start end_)
               (bucket_init DAIRY_LABELS);
  do vals <- map_r (fun l => mean_or_zero (bucket_at bins l)) DAIRY_LABELS;
  Ok {| labels := DAIRY_LABELS;
        values := map (fun v => PFloat (fround3 v)) vals |}.

Definition lifestyle_mf_step (pts : list Point) (mf : ModelFeatures)
    : result (list Point) :=
  match feats_of mf !! "Age" with
  | Some (JNum a) =>
      do total <- total_load mf;
      Ok (pts ++ [{| pt_x := py_float a; pt_y := fround3 total |}])
  | Some JNull => Ok pts
  | None => Ok pts
  end.

Definition fetch_lifestyle_clusters (st : Store) (start end_ : Z)
    : result (list Point) :=
  for_each lifestyle_mf_step (select_features st start end_) [].

End Model.

Arguments pynum F : clear implicits.
Arguments jval F : clear implicits.
Arguments pcb_row F : clear implicits.
Arguments ModelFeatures F : clear implicits.
Arguments LabTest F : clear implicits.
Arguments Store F : clear implicits.
Arguments accum F : clear implicits.
Arguments Chart F : clear implicits.
Arguments Point F : clear implicits.
Arguments Summary F : clear implicits.
Arguments AvgLevels F : clear implicits.
Arguments ConcentrationSeries F : clear implicits.
Arguments Heatmap F : clear implicits.

(* ===================================================================== *)
(** * Further helpers (dashboard_methods.py)                              *)
(* ===================================================================== *)

Section OtherHelpers.
Context {F : Type} `{PyFloat F}.

Definition _risk_label (val : F) : string :=
  if fltb val (fz 1) then "low"
  else if fltb val (fz 2) then "medium"
  else "high".

Definition _bmi_bucket (bmi : option F) : string :=
  match bmi with
  | None => "Unknown"
  | Some b =>
      if fltb b (fdiv (fz 37) (fz 2)) then "Underweight"
      else if fltb b (fz 25) then "Normal"
      else if fltb b (fz 30) then "Overweight"
      else "Obese"
  end.

(** [float(feats.get("BMI")) if feats.get("BMI") is not None else None],
    the argument [fetch_pcb_by_bmi] passes to [_bmi3]. *)
Definition bmi_of (mf : ModelFeatures F) : option F :=
  match feats_of mf !! "BMI" with
  | Some (JNum v) => Some (py_float v)
  | Some JNull => None
  | None => None
  end.

(** The correlation block of [fetch_summary] ([corr = 0.0; if xs and ys:
    ...]), as a function of the two series [xs] and [ys] the loop before
    it has collected. *)
Definition summary_correlation (xs ys : list F) : result F :=
  match xs, ys with
  | _ :: _, _ :: _ =>
      do mx <- py_truediv_int (py_sum xs) (py_len xs);
      do my <- py_truediv_int (py_sum ys) (py_len ys);
      let num :=
        py_sum (map (fun xy => fmul (fsub (fst xy) mx) (fsub (snd xy) my))
                    (combine xs ys)) in
      do sqx <- map_r (fun x => py_sq (fsub x mx)) xs;
      let denx := fsqrt (py_sum sqx) in
      do sqy <- map_r (fun y => py_sq (fsub y my)) ys;
      let deny := fsqrt (py_sum sqy) in
      do raw <- (if negb (fis_zero denx) && negb (fis_zero deny)
                 then py_truediv num (fmul denx deny)
                 else Ok (fz 0));
      Ok (fround3 raw)
  | _, _ => Ok (fz 0)
  end.

End OtherHelpers.

(* ===================================================================== *)
(** * The dashboard endpoint (main.py)                                    *)
(* ===================================================================== *)

Section Endpoint.
Context {F : Type} `{PyFloat F}.

(** The object [get_dashboard_data] returns.  [R] is the type of the
    value of [fetch_related_research(session, limit=8)], which reads the
    table of studies only. *)
Record Dashboard (R : Type) : Type := {
  dash_summary : Summary F;
  dash_avg_pcb_levels : AvgLevels F;
  dash_risk_distribution : RiskDistribution;
  dash_concentration_series : ConcentrationSeries F;
  dash_pcb_by_age : Chart F;
  dash_scatter_total_vs_age : list (Point F);
  dash_pcb_by_bmi : Chart F;
  dash_smoking_comparison : Chart F;
  dash_correlation_heatmap : Heatmap F;
  dash_exposure_contribution : Chart F;
  dash_dietary_patterns : Chart F;
  dash_lifestyle_clusters : list (Point F);
  dash_research : R;
}.

(** [get_dashboard_data(range, session)], with the clock reading [now]
    and the value [research] of the research query made explicit.  The
    entries of the dictionary are evaluated in the order they are
    written, and the first exception ends the call. *)
Definition get_dashboard_data {R : Type} (now : Z) (research : R)
    (range : string) (st : Store F) : result (Dashboard R) :=
  let '(start, end_) := get_range_bounds now range in
  do summary <- fetch_summary st start end_;
  do avg_pcb_levels <- fetch_avg_pcb_levels st start end_;
  do risk_distribution <- fetch_risk_distribution_by_pcb st start end_;
  do concentration_series <- fetch_concentration_series st start end_;
  do pcb_by_age <- fetch_age_groups_avg st start end_;
  do scatter_total_vs_age <- fetch_scatter_total_vs_age st start end_;
  do pcb_by_bmi <- fetch_pcb_by_bmi st start end_;
  do smoking_comparison <- fetch_smoking_comparison st start end_;
  do correlation_heatmap <- fetch_correlation_heatmap st start end_;
  do exposure_contribution <- fetch_exposure_contribution st start end_;
  do dietary_patterns <- fetch_dietary_patterns st start end_;
  do lifestyle_clusters <- fetch_lifestyle_clusters st start end_;
  Ok {| dash_summary := summary;
        dash_avg_pcb_levels := avg_pcb_levels;
        dash_risk_distribution := risk_distribution;
        dash_concentration_series := concentration_series;
        dash_pcb_by_age := pcb_by_age;
        dash_scatter_total_vs_age := scatter_total_vs_age;
        dash_pcb_by_bmi := pcb_by_bmi;
        dash_smoking_comparison := smoking_comparison;
        dash_correlation_heatmap := correlation_heatmap;
        dash_exposure_contribution := exposure_contribution;
        dash_dietary_patterns := dietary_patterns;
        dash_lifestyle_clusters := lifestyle_clusters;
        dash_research := research |}.

End Endpoint.

Arguments Dashboard F R : clear implicits.

(* ===================================================================== *)
(** * Reference definitions for the statements                            *)
(* ===================================================================== *)

Section Reference.
Context {F : Type} `{PyFloat F}.

(** The snapshot of patient [p] that a left-to-right scan retains: the
    running choice [cur] is replaced by a strictly later snapshot only. *)
Definition latest_from (p : Z) (cur : option (ModelFeatures F))
    (l : list (ModelFeatures F)) : option (ModelFeatures F) :=
  fold_left
    (fun cur mf =>
       if mf_patient_id mf =? p then
         match cur with
         | None => Some mf
         | Some c => if date c <? date mf then Some mf else cur
         end
       else cur)
    l cur.

(** Snapshot [mf] stores [None] under substance [k], or under one of the
    ten substances. *)
Definition null_prediction (mf : ModelFeatures F) (k : string) : bool :=
  match preds_of mf !! k with
  | Some JNull => true
  | Some (JNum _) => false
  | None => false
  end.

Definition has_null_prediction (mf : ModelFeatures F) : bool :=
  existsb (null_prediction mf) PCB_KEYS.

(** The prediction snapshot [mf] holds for substance [k] as a float, with
    [0.0] where it holds none. *)
Definition prediction (mf : ModelFeatures F) (k : string) : F :=
  match preds_of mf !! k with
  | Some (JNum v) => py_float v
  | Some JNull => fz 0
  | None => fz 0
  end.

(** The sum, from [0], of the ten predictions of a snapshot in the order
    of [PCB_KEYS], absent ones counting [0.0]. *)
Definition load (mf : ModelFeatures F) : F :=
  py_sum (map (prediction mf) PCB_KEYS).

(** The risk class of snapshot [mf] for substance [k], and the number of
    snapshots of a list that fall in class [cls] for [k]. *)
Definition risk_class (mf : ModelFeatures F) (k : string) : string :=
  _risk_from_value (prediction mf k).

Definition risk_class_count (cls k : string) (mfs : list (ModelFeatures F))
    : Z :=
  py_len (List.filter (fun mf => String.eqb (risk_class mf k) cls) mfs).


(** The step of the risk loop at a key that holds no [None]: the counter
    of the class of the prediction is incremented at the index of the
    key. *)
Definition risk_key_counted (mf : ModelFeatures F) (c : risk_counts)
    (ik : nat * string) : risk_counts :=
  if String.eqb (risk_class mf (snd ik)) "low" then
    {| lows := incr_at (lows c) (fst ik); meds := meds c; highs := highs c |}
  else if String.eqb (risk_class mf (snd ik)) "medium" then
    {| lows := lows c; meds := incr_at (meds c) (fst ik); highs := highs c |}
  else
    {| lows := lows c; meds := meds c; highs := incr_at (highs c) (fst ik) |}.

Definition risk_mf_counted (c : risk_counts) (mf : ModelFeatures F)
    : risk_counts :=
  fold_left (risk_key_counted mf) (enumerate PCB_KEYS) c.

(** The counts the risk loop leaves when no key holds [None]. *)
Definition risk_counted (mfs : list (ModelFeatures F)) : RiskDistribution :=
  let zeros := repeat 0 (length PCB_KEYS) in
  let c := fold_left risk_mf_counted mfs
             {| lows := zeros; meds := zeros; highs := zeros |} in
  {| risk_labels := PCB_KEYS;
     risk_low := lows c; risk_med := meds c; risk_high := highs c |}.



(** The predicted values of substance [k] over a list of snapshots, in
    order; a snapshot without a prediction for [k] adds nothing. *)
Definition fetal_values (mfs : list (ModelFeatures F)) (k : string)
    : list F :=
  flat_map (fun mf => match preds_of mf !! k with
                      | Some (JNum v) => [py_float v]
                      | Some JNull => []
                      | None => []
                      end) mfs.

(** The guarded mean of the values listed for each of the ten substances,
    in the order of [PCB_KEYS]. *)
Definition mean_per_substance (vals : string -> list F) : result (list F) :=
  map_r (fun k => mean_or_zero (vals k)) PCB_KEYS.

(** The snapshots a latest-per-patient reduction of the in-range snapshots
    keeps. *)
Definition latest_in_range (st : Store F) (start end_ : Z)
    : list (ModelFeatures F) :=
  od_values (_latest_by_patient (select_features st start end_)).








(** The arithmetic [ops] with [round(x, 3)] replaced by the identity: what
    a function computes when every rounding in it is left out. *)
Definition without_rounding (ops : PyFloat F) : PyFloat F := {|
  fz := @fz F ops;
  fadd := @fadd F ops;
  fsub := @fsub F ops;
  fmul := @fmul F ops;
  fdiv := @fdiv F ops;
  fsq := @fsq F ops;
  fsqrt := @fsqrt F ops;
  fabs := @fabs F ops;
  fltb := @fltb F ops;
  fis_zero := @fis_zero F ops;
  fis_nan := @fis_nan F ops;
  fis_inf := @fis_inf F ops;
  ftrunc := @ftrunc F ops;
  fround3 := fun x => x;
|}.

(** [round(v, 3)] on an output value: a float is rounded, an int is
    returned as it is. *)
Definition round_value (v : pynum F) : pynum F :=
  match v with
  | PInt z => PInt z
  | PFloat x => PFloat (fround3 x)
  end.

Definition round_chart (c : Chart F) : Chart F :=
  {| labels := labels c; values := map round_value (values c) |}.

Definition round_heatmap (h : Heatmap F) : Heatmap F :=
  {| heat_labels := heat_labels h; matrix := map (map fround3) (matrix h) |}.

(** Rounding of the [y] coordinate of a point. *)
Definition round_point (pt : Point F) : Point F :=
  {| pt_x := pt_x pt; pt_y := fround3 (pt_y pt) |}.

(** The summary [r] is the summary [r0] with its two averages rounded, and
    its correlation either rounded or the literal [0.0] that stands where
    no patient declares a maternal value. *)
Definition summary_rounds (r r0 : Summary F) : Prop :=
  total_patients r = total_patients r0
  /\ high_risk r = high_risk r0
  /\ top_pcb r = top_pcb r0
  /\ top_pcb_avg r = fround3 (top_pcb_avg r0)
  /\ avg_fetal_pcb r = fround3 (avg_fetal_pcb r0)
  /\ (correlation r = fround3 (correlation r0)
      \/ (correlation r = fz 0 /\ correlation r0 = fz 0)).



(** The accumulators hold, for each substance, the running sum and the
    count of the values [contrib] lists for it, and no other key. *)
Definition accum_holds (a : accum F) (contrib : string -> list F) : Prop :=
  forall k : string,
    (In k PCB_KEYS ->
     acc_sum a !! k = Some (py_sum (contrib k))
     /\ acc_cnt a !! k = Some (py_len (contrib k)))
    /\ (~ In k PCB_KEYS -> acc_sum a !! k = None).

End Reference.

(** One pass of the risk loop over the enumerated keys, seen from one of
    the three counter lists: index [i] is incremented when the key at [i]
    is in the class [g]. *)
Definition bump (g : string -> bool) (l : list Z) (iks : list (nat * string))
    : list Z :=
  fold_left (fun l ik => if g (snd ik) then incr_at l (fst ik) else l) iks l.

(* ===================================================================== *)
(** * Reference definitions for the further properties                    *)
(* ===================================================================== *)

(** The ids of a list in the order of their first occurrence. *)
Definition first_seen (ids : list Z) : list Z :=
  fold_left
    (fun seen p => if existsb (Z.eqb p) seen then seen else seen ++ [p])
    ids [].

Section FurtherReference.
Context {F : Type} `{PyFloat F}.

(** The members of the group labelled [l] among [xs], where [key] gives
    the label of an element, if it has one. *)
Definition group_members {X : Type} (key : X -> option string) (l : string)
    (xs : list X) : list X :=
  List.filter
    (fun x => match key x with
              | Some l' => String.eqb l' l
              | None => false
              end) xs.

(** An element that is in a group and whose snapshot stores [None] under
    one of the ten substances: a grouping loop reads the predictions of
    the elements that are in a group, and of no other. *)
Definition null_in_group {X K : Type} (key : X -> option K)
    (mf_of : X -> ModelFeatures F) (x : X) : bool :=
  match key x with
  | Some _ => has_null_prediction (mf_of x)
  | None => false
  end.

(** The BMI label of a snapshot, and its dairy label. *)
Definition bmi_group (mf : ModelFeatures F) : option string :=
  _bmi3 (bmi_of mf).

Definition dairy_group (mf : ModelFeatures F) : option string :=
  Some (dairy_bucket (dairy_of mf)).

(** The age the patients dictionary records for a patient id. *)
Definition patient_age (pats : odict Patient) (pid : Z) : option Z :=
  match od_get pats pid with
  | Some p => age p
  | None => None
  end.

(** The age label of an item of the latest-per-patient dictionary. *)
Definition age_group (pats : odict Patient) (it : Z * ModelFeatures F)
    : option string :=
  match patient_age pats (fst it) with
  | Some a => Some (age_bucket a)
  | None => None
  end.


(** The maternal value a snapshot declares, if it declares one. *)
Definition declared_maternal (mf : ModelFeatures F) : option F :=
  match feats_of mf !! "maternal_PCB" with
  | Some (JNum v) => Some (py_float v)
  | Some JNull => None
  | None => None
  end.

(** The total the summary forms for a snapshot: the sum, from [0.0], of
    the predictions it holds, in the order of [PCB_KEYS]. *)
Definition present_load (mf : ModelFeatures F) : F :=
  py_sum (flat_map (fun k => match preds_of mf !! k with
                             | Some (JNum v) => [py_float v]
                             | Some JNull => []
                             | None => []
                             end) PCB_KEYS).

(** The pairs (declared maternal value, total predicted load) of the
    snapshots that declare a maternal value, in order. *)
Definition maternal_pairs (mfs : list (ModelFeatures F)) : list (F * F) :=
  flat_map (fun mf => match feats_of mf !! "maternal_PCB" with
                      | Some (JNum mpcb) => [(py_float mpcb, load mf)]
                      | Some JNull => []
                      | None => []
                      end) mfs.

End FurtherReference.

(* ===================================================================== *)
(** * Example inputs                                                      *)
(* ===================================================================== *)

Module Examples.
Import Binary64.

(** A C library whose [pow] returns the nearest double at the exponents
    [2] and [0.5].  The examples that go through [**] are evaluated with
    it; at the arguments they pass to [pow], glibc returns the same
    doubles. *)
#[global] Instance rounded_pow : Libm := {|
  pow := fun x y =>
    if PrimFloat.eqb y 2%float then PrimFloat.mul x x
    else if PrimFloat.eqb y 0.5%float then PrimFloat.sqrt x
    else PrimFloat.nan;
|}.

(** A snapshot with the given row id, patient, timestamp and predictions,
    and an empty input map. *)
Definition snapshot (i p d : Z) (preds : list (string * pynum float))
    : ModelFeatures float :=
  {| mf_id := i; mf_patient_id := p; date := d;
     input_features := Some empty;
     output_predictions :=
       Some (list_to_map (map (fun kv => (fst kv, JNum (snd kv))) preds)) |}.

(** A released lab test of patient [p] whose result is dated [d]. *)
Definition released_test (i p : Z) (d : pydate) (rows : list (pcb_row float))
    : LabTest float :=
  {| lt_id := i; lt_patient_id := p; status := Some "released";
     collection_date := Some d; result_date := Some d;
     pcb_results := Some rows |}.

Definition level_row (name : string) (x : float) : pcb_row float :=
  {| row_name := Some name; row_level := JNum (PFloat x) |}.

Definition empty_store : Store float :=
  {| model_features := []; lab_tests := []; patients := [] |}.

(** Two snapshots of patient 1 with the same timestamp. *)
Definition tie_first : ModelFeatures float :=
  snapshot 1 1 5 [("PCB_118", PFloat 1%float)].
Definition tie_second : ModelFeatures float :=
  snapshot 2 1 5 [("PCB_118", PFloat 3%float)].

(** Two snapshots of patient 1, the second one later. *)
Definition early_snapshot : ModelFeatures float :=
  snapshot 1 1 5 [("PCB_118", PFloat 1%float)].
Definition late_snapshot : ModelFeatures float :=
  snapshot 2 1 7 [("PCB_118", PFloat 3%float)].

(** A store whose only snapshot and only lab test are dated exactly at the
    end of the window [0, 10]. *)
Definition boundary_snapshot : ModelFeatures float :=
  snapshot 1 1 10 [("PCB_118", PFloat 3%float)].
Definition boundary_test : LabTest float :=
  released_test 1 1 (PDateTime 10) [level_row "PCB_118" 2%float].
Definition boundary_store : Store float :=
  {| model_features := [boundary_snapshot];
     lab_tests := [boundary_test];
     patients := [] |}.

(** Patient 1 has a prediction of 3.0 for PCB_118 only; patient 2 has no
    output map at all. *)
Definition sparse_store : Store float :=
  {| model_features :=
       [snapshot 1 1 5 [("PCB_118", PFloat 3%float)];
        {| mf_id := 2; mf_patient_id := 2; date := 6;
           input_features := None; output_predictions := None |}];
     lab_tests := [];
     patients := [] |}.


(** Two released lab tests in the window: levels 2.0 and 4.0 for PCB_118,
    the second spelled in lower case, next to a row of another substance
    name and a row without a level. *)
Definition two_test_store : Store float :=
  {| model_features := [];
     lab_tests :=
       [released_test 1 1 (PDate 0)
          [level_row "PCB_118" 2%float; level_row "lead" 9%float];
        released_test 2 2 (PDate 0)
          [level_row "pcb_118" 4%float;
           {| row_name := Some "PCB_118"; row_level := JNull |}]];
     patients := [] |}.



(** Three patients aged 30, none of them a smoker, each with one in-range
    snapshot and one released lab test; the predictions and the levels of
    PCB_118 are 1.0, 0.0 and 0.0, so that every mean over them is one
    third. *)
Definition thirds_store : Store float :=
  {| model_features :=
       [snapshot 1 1 5 [("PCB_118", PFloat 1%float)];
        snapshot 2 2 5 [("PCB_118", PFloat 0%float)];
        snapshot 3 3 5 [("PCB_118", PFloat 0%float)]];
     lab_tests :=
       [released_test 1 1 (PDate 0) [level_row "PCB_118" 1%float];
        released_test 2 2 (PDate 0) [level_row "PCB_118" 0%float];
        released_test 3 3 (PDate 0) [level_row "PCB_118" 0%float]];
     patients :=
       [{| id := 1; age := Some 30; risk := Some "low" |};
        {| id := 2; age := Some 30; risk := Some "low" |};
        {| id := 3; age := Some 30; risk := Some "high" |}] |}.

(** The double nearest to one third, and the double nearest to 0.333. *)
Definition one_third : float := 0x1.5555555555555p-2%float.
Definition dec_0_333 : float := 0x1.54fdf3b645a1dp-2%float.



(** A snapshot with the given row id and patient, dated 5, that declares
    the value [v] under the input feature [k] and has no output map. *)
Definition declaring (i p : Z) (k : string) (v : pynum float)
    : ModelFeatures float :=
  {| mf_id := i; mf_patient_id := p; date := 5;
     input_features := Some (list_to_map [(k, JNum v)]);
     output_predictions := None |}.


(** Two snapshots whose declared BMI values are 0 and 1e200. *)
Definition huge_bmi_store : Store float :=
  {| model_features :=
       [declaring 1 1 "BMI" (PInt 0);
        declaring 2 2 "BMI" (PFloat 0x1.4e718d7d7625ap+664%float)];
     lab_tests := [];
     patients := [] |}.

(** Two snapshots whose declared ages are 0 and 2. *)
Definition two_ages_store : Store float :=
  {| model_features :=
       [{| mf_id := 1; mf_patient_id := 1; date := 5;
           input_features := Some (list_to_map [("Age", JNum (PInt 0))]);
           output_predictions := None |};
        {| mf_id := 2; mf_patient_id := 2; date := 5;
           input_features := Some (list_to_map [("Age", JNum (PInt 2))]);
           output_predictions := None |}];
     lab_tests := [];
     patients := [] |}.

(** The heatmap of [two_ages_store] over the window [0, 10]. *)
Definition two_ages_heatmap : Heatmap float :=
  {| heat_labels := HEATMAP_VARS;
     matrix :=
       [[0%float; 0%float; 0%float; 0%float; 0%float];
        [0%float; 0%float; 0%float; 0%float; 0%float];
        [0%float; 0%float; 0%float; 0%float; 0%float];
        [0%float; 0%float; 0%float; 1%float; 0%float];
        [0%float; 0%float; 0%float; 0%float; 0%float]] |}.

(** Patient 1, aged 30, has one in-range snapshot, which declares the
    age 30 and the BMI 22, and stores [None] under PCB_118. *)
Definition null_prediction_snapshot : ModelFeatures float :=
  {| mf_id := 1; mf_patient_id := 1; date := 5;
     input_features :=
       Some (list_to_map [("Age", JNum (PInt 30)); ("BMI", JNum (PInt 22))]);
     output_predictions := Some (list_to_map [("PCB_118", JNull)]) |}.

Definition null_prediction_store : Store float :=
  {| model_features := [null_prediction_snapshot];
     lab_tests := [];
     patients := [{| id := 1; age := Some 30; risk := Some "low" |}] |}.

(** Patient 1 has two released lab tests in the window, with levels 1.0
    and 3.0, and a snapshot predicting 2.0. *)
Definition retest_store : Store float :=
  {| model_features := [snapshot 1 1 5 [("PCB_118", PFloat 2%float)]];
     lab_tests :=
       [released_test 1 1 (PDate 0) [level_row "PCB_118" 1%float];
        released_test 2 1 (PDate 1) [level_row "PCB_118" 3%float]];
     patients := [] |}.

End Examples.

(* ===================================================================== *)
(** * Further example inputs                                              *)
(* ===================================================================== *)

Module Cases.
Import Binary64.

(** The summary of [Examples.thirds_store] over the window [0, 10]. *)
Definition thirds_summary : Summary float :=
  {| total_patients := 3; high_risk := 1; top_pcb := "PCB_118";
     top_pcb_avg := Examples.dec_0_333;
     avg_fetal_pcb := Examples.dec_0_333;
     correlation := 0%float |}.

(** The double nearest to 0.327. *)
Definition dec_0_327 : float := 0x1.4ed916872b021p-2%float.

(** A snapshot with the given input map and a single prediction for
    PCB_118. *)
Definition declared_snapshot (i p d : Z) (feats : list (string * jval float))
    (x : float) : ModelFeatures float :=
  {| mf_id := i; mf_patient_id := p; date := d;
     input_features := Some (list_to_map feats);
     output_predictions :=
       Some (list_to_map [("PCB_118", JNum (PFloat x))]) |}.

(** Patients 1, 2 and 3 declare the maternal values 1.0, 2.0 and 4.0;
    their snapshots predict 1.0, 3.0 and 2.0 for PCB_118. *)
Definition declared_store : Store float :=
  {| model_features :=
       [declared_snapshot 1 1 5 [("maternal_PCB", JNum (PFloat 1%float))]
          1%float;
        declared_snapshot 2 2 5 [("maternal_PCB", JNum (PFloat 2%float))]
          3%float;
        declared_snapshot 3 3 5 [("maternal_PCB", JNum (PFloat 4%float))]
          2%float];
     lab_tests := [];
     patients := [] |}.

(** The summary of [declared_store] over the window [0, 10]. *)
Definition declared_summary : Summary float :=
  {| total_patients := 3; high_risk := 0; top_pcb := "PCB_118";
     top_pcb_avg := 2%float; avg_fetal_pcb := 2%float;
     correlation := dec_0_327 |}.


(** Patient 1 is a smoker, patient 2 stores [None] under "Smoking". *)
Definition smoker_snapshot : ModelFeatures float :=
  declared_snapshot 1 1 5 [("Smoking", JNum (PInt 1))] 1%float.
Definition null_smoking_snapshot : ModelFeatures float :=
  declared_snapshot 2 2 5 [("Smoking", JNull)] 3%float.
Definition null_smoking_store : Store float :=
  {| model_features := [smoker_snapshot; null_smoking_snapshot];
     lab_tests := [];
     patients := [] |}.


End Cases.

(* ===================================================================== *)
(** * Properties                                                          *)
(* ===================================================================== *)

(** ** Insertion-ordered dictionaries *)

Lemma od_get_set_eq {V : Type} (d : odict V) (k : Z) (v : V) :
  od_get (od_set d k v) k = Some v.
Proof.
  induction d as [|[k' v'] d IH]; simpl.
  - now rewrite Z.eqb_refl.
  - destruct (k' =? k) eqn:E; simpl.
    + now rewrite Z.eqb_refl.
    + now rewrite E.
Qed.

Lemma od_get_set_ne {V : Type} (d : odict V) (k k' : Z) (v : V) :
  k <> k' -> od_get (od_set d k v) k' = od_get d k'.
Proof.
  intros Hne. induction d as [|[k0 v0] d IH]; simpl.
  - destruct (k =? k') eqn:E; [apply Z.eqb_eq in E; contradiction | reflexivity].
  - destruct (k0 =? k) eqn:E; simpl.
    + apply Z.eqb_eq in E; subst k0.
      destruct (k =? k') eqn:E'; [apply Z.eqb_eq in E'; contradiction | reflexivity].
    + destruct (k0 =? k'); [reflexivity | exact IH].
Qed.

(** ** Latest-per-patient reduction *)

Section LatestByPatient.
Context {F : Type}.
Implicit Types (l : list (ModelFeatures F)) (m : ModelFeatures F).

(** Reading patient [p] out of the dictionary after the loop is the scan
    [latest_from] for that patient alone. *)
Lemma latest_fold_get l (by_ : odict (ModelFeatures F)) (p : Z) :
  od_get
    (fold_left
       (fun by_ mf =>
          match od_get by_ (mf_patient_id mf) with
          | None => od_set by_ (mf_patient_id mf) mf
          | Some cur =>
              if date cur <? date mf then od_set by_ (mf_patient_id mf) mf
              else by_
          end) l by_) p
  = latest_from p (od_get by_ p) l.
Proof.
  revert by_. induction l as [|mf l IH]; intros by_; simpl; [reflexivity|].
  rewrite IH. f_equal.
  destruct (mf_patient_id mf =? p) eqn:E.
  - apply Z.eqb_eq in E. subst p.
    destruct (od_get by_ (mf_patient_id mf)) as [cur|] eqn:G.
    + destruct (date cur <? date mf).
      * apply od_get_set_eq.
      * exact G.
    + apply od_get_set_eq.
  - apply Z.eqb_neq in E.
    destruct (od_get by_ (mf_patient_id mf)) as [cur|].
    + destruct (date cur <? date mf); [now apply od_get_set_ne | reflexivity].
    + now apply od_get_set_ne.
Qed.

Lemma latest_get l (p : Z) :
  od_get (_latest_by_patient l) p = latest_from p None l.
Proof. unfold _latest_by_patient. now rewrite latest_fold_get. Qed.

(** A scan that starts from a choice keeps a choice. *)
Lemma latest_from_some l (p : Z) (c : ModelFeatures F) :
  exists m, latest_from p (Some c) l = Some m.
Proof.
  revert c. induction l as [|mf l IH]; intros c; simpl; [now exists c|].
  destruct (mf_patient_id mf =? p); [|apply IH].
  destruct (date c <? date mf); apply IH.
Qed.

(** What the scan returns is the starting choice or a snapshot of [p] from
    the list, and nothing of [p] is dated later. *)
Lemma latest_from_max l (p : Z) (cur : option (ModelFeatures F)) m :
  latest_from p cur l = Some m ->
  (cur = Some m \/ (In m l /\ mf_patient_id m = p))
  /\ (forall c, cur = Some c -> date c <= date m)
  /\ (forall x, In x l -> mf_patient_id x = p -> date x <= date m).
Proof.
  revert cur. induction l as [|mf l IH]; intros cur Hm; simpl in *.
  - subst cur. repeat split; [now left | | tauto].
    intros c [= ->]; lia.
  - destruct (mf_patient_id mf =? p) eqn:E.
    + apply Z.eqb_eq in E.
      destruct cur as [c|].
      * destruct (date c <? date mf) eqn:D.
        -- apply Z.ltb_lt in D.
           destruct (IH _ Hm) as (Hin & Hc & Hx).
           repeat split.
           ++ right. destruct Hin as [[= <-]|[Hin Hp]]; auto.
           ++ intros c' [= <-]. specialize (Hc mf eq_refl). lia.
           ++ intros x [<-|Hx'] Hp; [now apply Hc | now apply Hx].
        -- apply Z.ltb_ge in D.
           destruct (IH _ Hm) as (Hin & Hc & Hx).
           repeat split.
           ++ destruct Hin as [Hin|[Hin Hp]]; [now left | right; auto].
           ++ exact Hc.
           ++ intros x [<-|Hx'] Hp; [|now apply Hx].
              specialize (Hc c eq_refl). lia.
      * destruct (IH _ Hm) as (Hin & Hc & Hx).
        repeat split.
        -- right. destruct Hin as [[= <-]|[Hin Hp]]; auto.
        -- intros c [=].
        -- intros x [<-|Hx'] Hp; [now apply Hc | now apply Hx].
    + apply Z.eqb_neq in E.
      destruct (IH _ Hm) as (Hin & Hc & Hx).
      repeat split.
      * destruct Hin as [Hin|[Hin Hp]]; [now left | right; auto].
      * exact Hc.
      * intros x [<-|Hx'] Hp; [contradiction | now apply Hx].
Qed.

(** A patient with a snapshot in the list has a choice after the scan. *)
Lemma latest_from_exists l (p : Z) (cur : option (ModelFeatures F)) m' :
  In m' l -> mf_patient_id m' = p -> exists m, latest_from p cur l = Some m.
Proof.
  revert cur. induction l as [|mf l IH]; intros cur Hin Hp; [contradiction|].
  simpl. destruct Hin as [->|Hin].
  - apply Z.eqb_eq in Hp. rewrite Hp.
    destruct cur as [c|]; [destruct (date c <? date m')|]; apply latest_from_some.
  - now apply IH.
Qed.

(** A choice that nothing later in the list exceeds is kept. *)
Lemma latest_from_keep l (p : Z) m :
  (forall x, In x l -> mf_patient_id x = p -> date x <= date m) ->
  latest_from p (Some m) l = Some m.
Proof.
  induction l as [|mf l IH]; intros Hle; simpl; [reflexivity|].
  destruct (mf_patient_id mf =? p) eqn:E.
  - apply Z.eqb_eq in E.
    assert (date mf <= date m) as D by (apply Hle; [now left | exact E]).
    apply Z.ltb_ge in D. rewrite D. apply IH.
    intros x Hx. apply Hle. now right.
  - apply IH. intros x Hx. apply Hle. now right.
Qed.

(** C6. Latest-per-patient selects a maximum-date row: every patient with a
    snapshot in the input is mapped to one of their own input snapshots,
    and no snapshot of that patient carries a later timestamp.  So of two
    snapshots with timestamps t1 < t2 the one dated t1 is never the one
    retained, and when t2 is the patient's latest timestamp the retained
    row is dated t2. *)
Theorem latest_by_patient_selects_max l m' :
  In m' l ->
  exists m,
    od_get (_latest_by_patient l) (mf_patient_id m') = Some m
    /\ In m l
    /\ mf_patient_id m = mf_patient_id m'
    /\ (forall x, In x l -> mf_patient_id x = mf_patient_id m' ->
                  date x <= date m).
Proof.
  intros Hin. rewrite latest_get.
  destruct (latest_from_exists l (mf_patient_id m') None m' Hin eq_refl)
    as [m Hm].
  exists m. split; [exact Hm|].
  destruct (latest_from_max _ _ _ _ Hm) as ([Hn|[Hi Hp]] & _ & Hx);
    [discriminate|].
  auto.
Qed.

(** C4 (amended). Among the snapshots of a patient that carry the
    patient's maximum timestamp, the one retained is the first in input
    order: a snapshot preceded only by strictly earlier snapshots of its
    patient and followed by none that is later is the one the patient is
    mapped to. *)
Theorem latest_by_patient_keeps_first_of_ties l1 l2 m :
  (forall x, In x l1 -> mf_patient_id x = mf_patient_id m ->
             date x < date m) ->
  (forall x, In x l2 -> mf_patient_id x = mf_patient_id m ->
             date x <= date m) ->
  od_get (_latest_by_patient (l1 ++ m :: l2)) (mf_patient_id m) = Some m.
Proof.
  intros Hbefore Hafter. rewrite latest_get.
  unfold latest_from. rewrite fold_left_app. simpl.
  rewrite Z.eqb_refl.
  fold (latest_from (mf_patient_id m) None l1).
  destruct (latest_from (mf_patient_id m) None l1) as [c|] eqn:E.
  - destruct (latest_from_max _ _ _ _ E) as ([Hn|[Hi Hp]] & _ & _);
      [discriminate|].
    pose proof (Hbefore c Hi Hp) as D. apply Z.ltb_lt in D. rewrite D.
    now apply latest_from_keep.
  - now apply latest_from_keep.
Qed.

End LatestByPatient.

(** C6, at an input: of the two snapshots of patient 1, dated 5 and 7, the
    one dated 7 is retained. *)
Lemma latest_by_patient_selects_max_witness :
  In Examples.early_snapshot [Examples.early_snapshot; Examples.late_snapshot]
  /\ exists m,
       od_get (_latest_by_patient
                 [Examples.early_snapshot; Examples.late_snapshot])
              (mf_patient_id Examples.early_snapshot) = Some m
       /\ In m [Examples.early_snapshot; Examples.late_snapshot]
       /\ mf_patient_id m = mf_patient_id Examples.early_snapshot
       /\ (forall x,
             In x [Examples.early_snapshot; Examples.late_snapshot] ->
             mf_patient_id x = mf_patient_id Examples.early_snapshot ->
             date x <= date m).
Proof.
  split; [now left|].
  apply (latest_by_patient_selects_max
           [Examples.early_snapshot; Examples.late_snapshot]
           Examples.early_snapshot).
  now left.
Defined.

(** In either input order the snapshot dated 7 is the one retained. *)
Example latest_by_patient_of_two_snapshots :
  od_get (_latest_by_patient
            [Examples.early_snapshot; Examples.late_snapshot]) 1
  = Some Examples.late_snapshot
  /\ od_get (_latest_by_patient
               [Examples.late_snapshot; Examples.early_snapshot]) 1
     = Some Examples.late_snapshot.
Proof. split; reflexivity. Qed.

(** C4, as stated, fails: of two snapshots of patient 1 with the same
    timestamp, the one retained is the first in input order, not the
    last. *)
Lemma latest_by_patient_tie_keeps_first_seen :
  mf_patient_id Examples.tie_first = mf_patient_id Examples.tie_second
  /\ date Examples.tie_first = date Examples.tie_second
  /\ od_get (_latest_by_patient [Examples.tie_first; Examples.tie_second]) 1
     = Some Examples.tie_first
  /\ Examples.tie_first <> Examples.tie_second.
Proof.
  repeat split.
  intros E. apply (f_equal mf_id) in E. discriminate E.
Qed.

(** C4 (amended), at an input: the first of the two tied snapshots is
    retained. *)
Lemma latest_by_patient_keeps_first_of_ties_witness :
  od_get (_latest_by_patient ([] ++ Examples.tie_first :: [Examples.tie_second]))
         (mf_patient_id Examples.tie_first)
  = Some Examples.tie_first.
Proof.
  apply (latest_by_patient_keeps_first_of_ties
           [] [Examples.tie_second] Examples.tie_first).
  - intros x [].
  - intros x [<-|[]] _. simpl. lia.
Defined.

(** ** Date windows *)

Section Windows.
Context {F : Type} `{PyFloat F}.

Lemma in_window_spec (start end_ x : Z) :
  in_window start end_ x = true <-> start <= x <= end_.
Proof. unfold in_window. rewrite andb_true_iff, !Z.leb_le. tauto. Qed.

(** C5 (amended). The window is closed at both ends: a record is in range
    exactly when [start <= t <= end].  (1) The snapshot query returns the
    snapshots of the table dated within the closed window.  (2) The
    average-levels loop folds the rows of a lab test whose date lies in the
    closed window and skips any other test.  (3) The concentration-series
    loop skips a lab test dated outside the closed window and, for a test
    inside it with a patient id, records the mean of its levels. *)
Theorem window_is_closed (st : Store F) (start end_ : Z) :
  (forall mf : ModelFeatures F,
     In mf (select_features st start end_)
     <-> In mf (model_features st) /\ start <= date mf <= end_)
  /\ (forall (a : accum F) (t : LabTest F),
        (start <= avg_test_datetime start t <= end_ ->
         avg_test_step start end_ a t
         = fold_left avg_row_step (or_nil (pcb_results t)) a)
        /\ (~ start <= avg_test_datetime start t <= end_ ->
            avg_test_step start end_ a t = a))
  /\ (forall (m : odict F) (t : LabTest F),
        (start <= _test_date t <= end_ -> lt_patient_id t <> 0 ->
         series_test_step start end_ m t
         = match test_levels t with
           | [] => Ok m
           | levels =>
               do avg <- py_truediv_int (py_sum levels) (py_len levels);
               Ok (od_set m (lt_patient_id t) avg)
           end)
        /\ (~ start <= _test_date t <= end_ ->
            series_test_step start end_ m t = Ok m)).
Proof.
  split; [|split].
  - intros mf. unfold select_features. rewrite filter_In. cbv beta.
    pose proof (in_window_spec start end_ (date mf)) as Hw.
    unfold in_window in Hw. tauto.
  - intros a t. unfold avg_test_step. split; intros Hw.
    + apply in_window_spec in Hw. now rewrite Hw.
    + destruct (in_window start end_ (avg_test_datetime start t)) eqn:E;
        [apply in_window_spec in E; contradiction | reflexivity].
  - intros m t. unfold series_test_step. split.
    + intros Hw Hp. apply in_window_spec in Hw. rewrite Hw.
      apply Z.eqb_neq in Hp. now rewrite Hp.
    + intros Hw.
      destruct (in_window start end_ (_test_date t)) eqn:E;
        [apply in_window_spec in E; contradiction | reflexivity].
Qed.

End Windows.

(** C5, as stated, fails: with the window [0, 10], the snapshot and the
    released lab test dated exactly 10 are both in range, although
    [10 < 10] does not hold: the snapshot is returned by the query, and
    the averages are those of the test's level 2.0 and of the snapshot's
    prediction 3.0. *)
Lemma window_includes_its_end :
  select_features Examples.boundary_store 0 10 = [Examples.boundary_snapshot]
  /\ date Examples.boundary_snapshot = 10
  /\ _test_date Examples.boundary_test = 10
  /\ fetch_avg_pcb_levels Examples.boundary_store 0 10
     = Ok {| avg_labels := PCB_KEYS;
             maternal := 2%float :: repeat 0%float 9;
             fetal := 3%float :: repeat 0%float 9 |}
  /\ ~ (0 <= 10 < 10).
Proof.
  split; [reflexivity|].
  split; [reflexivity|].
  split; [reflexivity|].
  split; [vm_compute; reflexivity | lia].
Qed.

(** ** Loops and comprehensions that may raise *)

(** A loop whose body raises [e] exactly on the elements [bad] marks, and
    otherwise steps by [f], raises [e] when the list holds a marked
    element and otherwise folds [f]. *)
Lemma for_each_guarded {S X : Type} (body : S -> X -> result S)
    (bad : X -> bool) (e : exn) (f : S -> X -> S) :
  (forall s x, body s x = if bad x then Raise e else Ok (f s x)) ->
  forall (xs : list X) (s : S),
    for_each body xs s
    = if existsb bad xs then Raise e else Ok (fold_left f xs s).
Proof.
  intros Hb xs. induction xs as [|x xs IH]; intros s; [reflexivity|].
  cbn [for_each existsb fold_left]. rewrite Hb.
  destruct (bad x); [reflexivity|]. cbn [bind orb]. apply IH.
Qed.

Lemma map_r_guarded {X Y : Type} (g : X -> result Y) (bad : X -> bool)
    (e : exn) (f : X -> Y) :
  (forall x, g x = if bad x then Raise e else Ok (f x)) ->
  forall xs : list X,
    map_r g xs = if existsb bad xs then Raise e else Ok (map f xs).
Proof.
  intros Hg xs. induction xs as [|x xs IH]; [reflexivity|].
  cbn [map_r existsb map]. rewrite Hg.
  destruct (bad x); [reflexivity|]. cbn [bind orb]. rewrite IH.
  now destruct (existsb bad xs).
Qed.

Lemma existsb_enumerate {X : Type} (g : X -> bool) (xs : list X) :
  existsb (fun ik : nat * X => g (snd ik)) (enumerate xs) = existsb g xs.
Proof.
  unfold enumerate. generalize 0%nat.
  induction xs as [|x xs IH]; intros j; [reflexivity|].
  cbn [length seq combine existsb snd]. now rewrite IH.
Qed.

Section TotalLoad.
Context {F : Type} `{PyFloat F}.
Implicit Types (mf : ModelFeatures F).

(** [float(preds.get(k, 0.0))] raises on a [None] and otherwise reads the
    prediction, [0.0] for an absent key. *)
Lemma pred_or_zero_guard mf (k : string) :
  pred_or_zero mf k
  = if null_prediction mf k then Raise TypeError else Ok (prediction mf k).
Proof.
  unfold pred_or_zero, null_prediction, prediction.
  now destruct (preds_of mf !! k) as [[|v]|].
Qed.

Lemma total_load_guard mf :
  total_load mf
  = if has_null_prediction mf then Raise TypeError else Ok (load mf).
Proof.
  unfold total_load, has_null_prediction, load.
  rewrite (map_r_guarded _ _ _ _ (pred_or_zero_guard mf)).
  now destruct (existsb (null_prediction mf) PCB_KEYS).
Qed.

Lemma total_load_cases mf :
  (has_null_prediction mf = true /\ total_load mf = Raise TypeError)
  \/ (has_null_prediction mf = false /\ total_load mf = Ok (load mf)).
Proof.
  rewrite total_load_guard. destruct (has_null_prediction mf); auto.
Qed.

End TotalLoad.

(** ** Risk distribution per substance *)

Section RiskDistribution.
Context {F : Type} `{PyFloat F}.
Implicit Types (mf : ModelFeatures F) (c : risk_counts) (l : list Z).

Lemma risk_key_step_guard mf c (ik : nat * string) :
  risk_key_step mf c ik
  = if null_prediction mf (snd ik) then Raise TypeError
    else Ok (risk_key_counted mf c ik).
Proof.
  unfold risk_key_step, risk_key_counted, risk_class.
  rewrite pred_or_zero_guard.
  destruct (null_prediction mf (snd ik)); [reflexivity|]. cbn [bind].
  destruct (String.eqb (_risk_from_value (prediction mf (snd ik))) "low");
    [reflexivity|].
  now destruct (String.eqb (_risk_from_value (prediction mf (snd ik)))
                           "medium").
Qed.

Lemma risk_mf_step_guard c mf :
  risk_mf_step c mf
  = if has_null_prediction mf then Raise TypeError
    else Ok (risk_mf_counted c mf).
Proof.
  unfold risk_mf_step, has_null_prediction, risk_mf_counted.
  rewrite (for_each_guarded _ (fun ik => null_prediction mf (snd ik))
             TypeError (risk_key_counted mf))
    by (intros; apply risk_key_step_guard).
  now rewrite existsb_enumerate.
Qed.

Lemma risk_loop_guard (mfs : list (ModelFeatures F)) c :
  for_each risk_mf_step mfs c
  = if existsb has_null_prediction mfs then Raise TypeError
    else Ok (fold_left risk_mf_counted mfs c).
Proof.
  apply for_each_guarded. intros; apply risk_mf_step_guard.
Qed.

Lemma risk_from_value_cases (v : F) :
  _risk_from_value v = "low" \/ _risk_from_value v = "medium"
  \/ _risk_from_value v = "high".
Proof.
  unfold _risk_from_value.
  destruct (fltb v (fz 2)); [now left|].
  destruct (fltb v (fz 4)); [right; now left | right; now right].
Qed.


Lemma incr_at_lookup l (i i' : nat) :
  incr_at l i !! i'
  = (fun n => if decide (i = i') then n + 1 else n) <$> (l !! i').
Proof.
  unfold incr_at. destruct (l !! i) as [n|] eqn:E.
  - destruct (decide (i = i')) as [->|Hne].
    + rewrite list_lookup_insert_eq by (eapply lookup_lt_Some; eauto).
      now rewrite E.
    + rewrite list_lookup_insert_ne by exact Hne.
      now destruct (l !! i').
  - destruct (decide (i = i')) as [->|Hne].
    + now rewrite E.
    + now destruct (l !! i').
Qed.

Lemma bump_cons g l (ik : nat * string) (iks : list (nat * string)) :
  bump g l (ik :: iks)
  = bump g (if g (snd ik) then incr_at l (fst ik) else l) iks.
Proof. reflexivity. Qed.


(** Keys enumerated from [j'] on leave an index below [j'] alone. *)
Lemma bump_lookup_before g (ks : list string) (j' : nat) l (j : nat) :
  (j < j')%nat ->
  bump g l (combine (seq j' (length ks)) ks) !! j = l !! j.
Proof.
  revert j' l. induction ks as [|k1 ks IH]; intros j' l Hj; [reflexivity|].
  cbn [length seq combine]. rewrite bump_cons, IH by lia.
  cbn [fst snd]. destruct (g k1); [|reflexivity].
  rewrite incr_at_lookup. destruct (decide (j' = j)); [lia|].
  now destruct (l !! j).
Qed.

Lemma bump_lookup g (ks : list string) (j : nat) l (i : nat) (k : string) :
  (j <= i)%nat -> ks !! (i - j)%nat = Some k ->
  bump g l (combine (seq j (length ks)) ks) !! i
  = (fun n => if g k then n + 1 else n) <$> (l !! i).
Proof.
  revert j l. induction ks as [|k0 ks IH]; intros j l Hji Hk; [discriminate|].
  cbn [length seq combine]. rewrite bump_cons. cbn [fst snd].
  destruct (decide (i = j)) as [->|Hne].
  - replace (j - j)%nat with 0%nat in Hk by lia. simpl in Hk.
    injection Hk as ->.
    rewrite bump_lookup_before by lia.
    destruct (g k); [|now destruct (l !! j)].
    rewrite incr_at_lookup. destruct (decide (j = j)); [reflexivity|lia].
  - replace (i - j)%nat with (S (i - S j))%nat in Hk by lia. simpl in Hk.
    rewrite (IH (S j)) by (lia || exact Hk).
    destruct (g k0); [|reflexivity].
    rewrite incr_at_lookup. destruct (decide (j = i)); [lia|].
    now destruct (l !! i).
Qed.

(** The three lists after the keys of one snapshot. *)
Lemma risk_key_fold mf (iks : list (nat * string)) c :
  let c' := fold_left (risk_key_counted mf) iks c in
  lows c' = bump (fun k => String.eqb (risk_class mf k) "low") (lows c) iks
  /\ meds c' = bump (fun k => String.eqb (risk_class mf k) "medium") (meds c) iks
  /\ highs c' = bump (fun k => String.eqb (risk_class mf k) "high") (highs c) iks.
Proof.
  revert c. induction iks as [|[i k] iks IH]; intros c; simpl; [auto|].
  specialize (IH (risk_key_counted mf c (i, k))). simpl in IH.
  destruct IH as (-> & -> & ->).
  unfold risk_key_counted, risk_class. simpl.
  destruct (risk_from_value_cases (prediction mf k)) as [E|[E|E]];
    rewrite E; simpl; auto.
Qed.

Lemma risk_class_count_cons (cls k : string) mf (mfs : list (ModelFeatures F)) :
  risk_class_count cls k (mf :: mfs)
  = (if String.eqb (risk_class mf k) cls then 1 else 0)
    + risk_class_count cls k mfs.
Proof.
  unfold risk_class_count, py_len. cbn [List.filter].
  destruct (String.eqb (risk_class mf k) cls); cbn [length]; lia.
Qed.

Lemma risk_mf_lookup mf c (ks : list string) (i : nat) (k : string) :
  ks !! i = Some k ->
  let c' := fold_left (risk_key_counted mf) (enumerate ks) c in
  lows c' !! i
  = (fun n => if String.eqb (risk_class mf k) "low" then n + 1 else n)
    <$> (lows c !! i)
  /\ meds c' !! i
     = (fun n => if String.eqb (risk_class mf k) "medium" then n + 1 else n)
       <$> (meds c !! i)
  /\ highs c' !! i
     = (fun n => if String.eqb (risk_class mf k) "high" then n + 1 else n)
       <$> (highs c !! i).
Proof.
  intros Hk. unfold enumerate.
  destruct (risk_key_fold mf (combine (seq 0 (length ks)) ks) c)
    as (-> & -> & ->).
  assert (ks !! (i - 0)%nat = Some k) as Hk0 by (now rewrite Nat.sub_0_r).
  rewrite !(bump_lookup _ ks 0 _ i k) by (lia || exact Hk0).
  auto.
Qed.

Lemma risk_mf_step_lookup mf c (i : nat) (k : string) :
  PCB_KEYS !! i = Some k ->
  lows (risk_mf_counted c mf) !! i
  = (fun n => if String.eqb (risk_class mf k) "low" then n + 1 else n)
    <$> (lows c !! i)
  /\ meds (risk_mf_counted c mf) !! i
     = (fun n => if String.eqb (risk_class mf k) "medium" then n + 1 else n)
       <$> (meds c !! i)
  /\ highs (risk_mf_counted c mf) !! i
     = (fun n => if String.eqb (risk_class mf k) "high" then n + 1 else n)
       <$> (highs c !! i).
Proof. intros Hk. exact (risk_mf_lookup mf c PCB_KEYS i k Hk). Qed.

Lemma fold_left_step {A B : Type} (f : A -> B -> A) (x : B) (xs : list B)
    (a : A) :
  fold_left f (x :: xs) a = fold_left f xs (f a x).
Proof. reflexivity. Qed.

Lemma risk_fold_lookup (mfs : list (ModelFeatures F)) c (i : nat) (k : string) :
  PCB_KEYS !! i = Some k ->
  lows (fold_left risk_mf_counted mfs c) !! i
  = (fun n => n + risk_class_count "low" k mfs) <$> (lows c !! i)
  /\ meds (fold_left risk_mf_counted mfs c) !! i
     = (fun n => n + risk_class_count "medium" k mfs) <$> (meds c !! i)
  /\ highs (fold_left risk_mf_counted mfs c) !! i
     = (fun n => n + risk_class_count "high" k mfs) <$> (highs c !! i).
Proof.
  intros Hk. revert c. induction mfs as [|mf mfs IH]; intros c.
  - unfold risk_class_count, py_len. cbn [fold_left List.filter length].
    repeat split;
      match goal with
      | |- ?o = _ <$> ?o => destruct o as [n|]; cbn; [f_equal; lia | reflexivity]
      end.
  - rewrite fold_left_step.
    destruct (IH (risk_mf_counted c mf)) as (-> & -> & ->).
    destruct (risk_mf_step_lookup mf c i k Hk) as (-> & -> & ->).
    rewrite !risk_class_count_cons.
    repeat split;
      match goal with
      | |- _ <$> (_ <$> ?o) = _ <$> ?o =>
          destruct o as [n|]; cbn [fmap option_fmap option_map]; [|reflexivity];
          match goal with
          | |- context [String.eqb ?a ?b] => destruct (String.eqb a b)
          end; f_equal; lia
      end.
Qed.




End RiskDistribution.

Section RiskDistributionInDoubles.
Context {L : Binary64.Libm}.


End RiskDistributionInDoubles.



(** The scenario of the specification: predicted values 1.0, 3.0 and 5.0
    for PCB_74 give one low, one medium and one high. *)
Example risk_distribution_of_three_patients :
  fetch_risk_distribution_by_pcb
    {| model_features :=
         [Examples.snapshot 1 1 5 [("PCB_74", PFloat 1%float)];
          Examples.snapshot 2 2 5 [("PCB_74", PFloat 3%float)];
          Examples.snapshot 3 3 5 [("PCB_74", PFloat 5%float)]];
       lab_tests := [];
       patients := [] |} 0 10
  = Ok {| risk_labels := PCB_KEYS;
          risk_low := [3; 3; 3; 3; 1; 3; 3; 3; 3; 3];
          risk_med := [0; 0; 0; 0; 1; 0; 0; 0; 0; 0];
          risk_high := [0; 0; 0; 0; 1; 0; 0; 0; 0; 0] |}.
Proof. vm_compute. reflexivity. Qed.

(** ** Per-substance averages *)

Section Averages.
Context {F : Type} `{PyFloat F}.
Implicit Types (a : accum F) (c : string -> list F) (k : string).

Lemma py_sum_snoc (l : list F) (x : F) : py_sum (l ++ [x]) = fadd (py_sum l) x.
Proof. unfold py_sum. now rewrite fold_left_app. Qed.

Lemma py_len_snoc {X : Type} (l : list X) (x : X) :
  py_len (l ++ [x]) = py_len l + 1.
Proof. unfold py_len. rewrite length_app. cbn [length]. lia. Qed.

Lemma PCB_KEYS_NoDup : List.NoDup PCB_KEYS.
Proof.
  unfold PCB_KEYS.
  repeat (constructor; [cbn [In]; intuition discriminate|]).
  constructor.
Qed.

Lemma accum_holds_ext a c c' :
  (forall k, In k PCB_KEYS -> c k = c' k) ->
  accum_holds a c -> accum_holds a c'.
Proof.
  intros Hext Ha k. destruct (Ha k) as [Hin Hout]. split; [|exact Hout].
  intros Hk. rewrite <- (Hext k Hk). now apply Hin.
Qed.

Lemma accum_init_holds : accum_holds accum_init (fun _ => []).
Proof.
  intros k. split.
  - intros Hk. unfold PCB_KEYS in Hk. cbn [In] in Hk.
    repeat (destruct Hk as [<-|Hk]; [split; reflexivity|]).
    contradiction.
  - intros Hk. unfold accum_init. cbn [acc_sum].
    apply not_elem_of_list_to_map_1.
    rewrite <- list_fmap_compose. cbn [compose fst].
    rewrite list_fmap_id. now rewrite list_elem_of_In.
Qed.

(** [s[k] += x; c[k] += 1] for a tracked substance appends [x] to its
    values and to no other's. *)
Lemma accum_add_holds a c k (x : F) :
  In k PCB_KEYS -> accum_holds a c ->
  accum_holds (accum_add a k x)
    (fun k' => c k' ++ (if String.eqb k k' then [x] else [])).
Proof.
  intros Hk Ha k'. unfold accum_add. cbn [acc_sum acc_cnt].
  destruct (String.eqb_spec k k') as [<-|Hne].
  - destruct (Ha k) as [Hin _]. destruct (Hin Hk) as [Hs Hc].
    split; [|contradiction]. intros _.
    rewrite !lookup_insert_eq. unfold sum_at, cnt_at. rewrite Hs, Hc.
    now rewrite py_sum_snoc, py_len_snoc.
  - destruct (Ha k') as [Hin Hout].
    rewrite !lookup_insert_ne by exact Hne. rewrite app_nil_r.
    split; assumption.
Qed.

(** A loop whose every step appends a contribution leaves the
    accumulators holding the contributions in order. *)
Lemma fold_holds {X : Type} (step : accum F -> X -> accum F)
    (g : X -> string -> list F) (l : list X) :
  (forall a c x, In x l -> accum_holds a c ->
                 accum_holds (step a x) (fun k => c k ++ g x k)) ->
  forall a c, accum_holds a c ->
    accum_holds (fold_left step l a)
                (fun k => c k ++ flat_map (fun x => g x k) l).
Proof.
  induction l as [|x l IH]; intros Hstep a c Ha.
  - cbn [fold_left flat_map].
    apply (accum_holds_ext a c); [|exact Ha].
    intros k _. now rewrite app_nil_r.
  - cbn [fold_left flat_map].
    apply (accum_holds_ext _ (fun k => (c k ++ g x k)
                                        ++ flat_map (fun x => g x k) l)).
    + intros k _. now rewrite app_assoc.
    + apply IH.
      * intros a' c' x' Hx'. apply Hstep. now right.
      * apply Hstep; [now left | exact Ha].
Qed.





(** A one-hot scan of a duplicate-free key list picks the entry of [k]. *)
Lemma flat_map_one_hot {Y : Type} (ks : list string) (g : string -> list Y) k :
  List.NoDup ks -> In k ks ->
  flat_map (fun k' => if String.eqb k' k then g k' else []) ks = g k.
Proof.
  induction ks as [|k0 ks IH]; intros Hnd Hk; [contradiction|].
  inversion Hnd as [|? ? Hnotin Hnd']; subst.
  cbn [flat_map]. destruct (String.eqb_spec k0 k) as [->|Hne].
  - assert (flat_map (fun k' => if String.eqb k' k then g k' else []) ks = [])
      as ->; [|apply app_nil_r].
    clear IH Hk Hnd Hnd'. induction ks as [|k1 ks IH]; [reflexivity|].
    cbn [flat_map]. destruct (String.eqb_spec k1 k) as [->|_].
    + exfalso. apply Hnotin. now left.
    + apply IH. intros Hin. apply Hnotin. now right.
  - destruct Hk as [Hk|Hk]; [contradiction|]. now apply IH.
Qed.

Lemma avg_mf_step_holds a c (mf : ModelFeatures F) :
  accum_holds a c ->
  accum_holds (avg_mf_step a mf) (fun k => c k ++ fetal_values [mf] k).
Proof.
  intros Ha. unfold avg_mf_step.
  pose (g := fun k' : string =>
               match preds_of mf !! k' with
               | Some (JNum v) => [py_float v]
               | Some JNull => []
               | None => []
               end).
  apply (accum_holds_ext _
           (fun k => c k ++ flat_map
                       (fun k' => if String.eqb k' k then g k' else [])
                       PCB_KEYS)).
  - intros k Hk. rewrite (flat_map_one_hot _ g k PCB_KEYS_NoDup Hk).
    unfold fetal_values, g. cbn [flat_map]. now rewrite app_nil_r.
  - apply (fold_holds _ (fun k' k => if String.eqb k' k then g k' else []));
      [|exact Ha].
    intros a' c' k' Hk' Ha'. unfold g.
    destruct (preds_of mf !! k') as [[|v]|].
    + apply (accum_holds_ext a' c'); [|exact Ha'].
      intros k _. destruct (String.eqb k' k); now rewrite app_nil_r.
    + now apply accum_add_holds.
    + apply (accum_holds_ext a' c'); [|exact Ha'].
      intros k _. destruct (String.eqb k' k); now rewrite app_nil_r.
Qed.

Lemma accum_avg_holds a c k :
  In k PCB_KEYS -> accum_holds a c -> accum_avg a k = mean_or_zero (c k).
Proof.
  intros Hk Ha. destruct (Ha k) as [Hin _]. destruct (Hin Hk) as [Hs Hc].
  unfold accum_avg, sum_at, cnt_at. rewrite Hs, Hc.
  destruct (c k) as [|x l]; [reflexivity|].
  unfold mean_or_zero, py_len. cbn [length].
  destruct (Z.of_nat (S (length l)) =? 0) eqn:E; [|reflexivity].
  apply Z.eqb_eq in E. lia.
Qed.

Lemma mean_or_zero_ok (l : list F) : exists x, mean_or_zero l = Ok x.
Proof.
  destruct l as [|x l]; [now eexists|].
  unfold mean_or_zero, py_truediv_int, py_len. cbn [length].
  destruct (Z.of_nat (S (length l)) =? 0) eqn:E; [|now eexists].
  apply Z.eqb_eq in E. lia.
Qed.

Lemma map_r_ext_in {X Y : Type} (f g : X -> result Y) (l : list X) :
  (forall x, In x l -> f x = g x) -> map_r f l = map_r g l.
Proof.
  induction l as [|x l IH]; intros Hfg; [reflexivity|].
  cbn [map_r]. rewrite (Hfg x) by now left.
  rewrite IH; [reflexivity|]. intros y Hy. apply Hfg. now right.
Qed.

Lemma map_r_ok {X Y : Type} (f : X -> result Y) (l : list X) :
  (forall x, In x l -> exists y, f x = Ok y) -> exists ys, map_r f l = Ok ys.
Proof.
  induction l as [|x l IH]; intros Hf; [now eexists|].
  destruct (Hf x) as [y Hy]; [now left|].
  destruct IH as [ys Hys]; [intros z Hz; apply Hf; now right|].
  exists (y :: ys). cbn [map_r]. rewrite Hy. cbn [bind]. now rewrite Hys.
Qed.

(** The averages read from accumulators are the guarded means of the
    values they hold. *)
Lemma accum_avgs_holds a c :
  accum_holds a c ->
  map_r (accum_avg a) PCB_KEYS
  = map_r (fun k => mean_or_zero (c k)) PCB_KEYS
  /\ exists xs, map_r (accum_avg a) PCB_KEYS = Ok xs.
Proof.
  intros Ha.
  assert (map_r (accum_avg a) PCB_KEYS
          = map_r (fun k => mean_or_zero (c k)) PCB_KEYS) as E.
  { apply map_r_ext_in. intros k Hk. now apply (accum_avg_holds a c). }
  split; [exact E|]. rewrite E.
  apply map_r_ok. intros k _. apply mean_or_zero_ok.
Qed.


Lemma fetal_accum_holds (mfs : list (ModelFeatures F)) :
  accum_holds (fold_left avg_mf_step mfs accum_init) (fetal_values mfs).
Proof.
  apply (accum_holds_ext _
           (fun k => [] ++ flat_map (fun mf => fetal_values [mf] k) mfs)).
  - intros k _. cbn [app].
    induction mfs as [|mf mfs IH]; [reflexivity|].
    cbn [flat_map]. rewrite IH. unfold fetal_values. cbn [flat_map].
    now rewrite app_nil_r.
  - apply (fold_holds avg_mf_step (fun mf k => fetal_values [mf] k)).
    + intros a c mf _. apply avg_mf_step_holds.
    + apply accum_init_holds.
Qed.




End Averages.


(** The lab-test scenario of the specification: two released tests with
    PCB_118 levels 2.0 and 4.0, the second spelled "pcb_118", give the
    maternal average 3.0; the row named "lead" and the row without a level
    add nothing. *)
Example maternal_average_of_two_tests :
  fetch_avg_pcb_levels Examples.two_test_store 0 10
  = Ok {| avg_labels := PCB_KEYS;
          maternal := 3%float :: repeat 0%float 9;
          fetal := repeat 0%float 10 |}.
Proof. vm_compute. reflexivity. Qed.

(** ** Concentration series *)

Section OrderedDict.
Context {V : Type}.
Implicit Types (d : odict V) (k : Z) (v : V).

Lemma od_keys_set d k v k' :
  In k' (od_keys (od_set d k v)) <-> k' = k \/ In k' (od_keys d).
Proof.
  unfold od_keys. induction d as [|[k0 v0] d IH]; cbn [od_set map fst In].
  - intuition.
  - destruct (k0 =? k) eqn:E; cbn [map fst In].
    + apply Z.eqb_eq in E. subst k0. intuition.
    + rewrite IH. intuition.
Qed.

Lemma od_keys_set_NoDup d k v :
  List.NoDup (od_keys d) -> List.NoDup (od_keys (od_set d k v)).
Proof.
  unfold od_keys. induction d as [|[k0 v0] d IH]; cbn [od_set map fst];
    intros Hnd.
  - constructor; [intros [] | constructor].
  - inversion Hnd as [|? ? Hnotin Hnd']; subst.
    destruct (k0 =? k) eqn:E; cbn [map fst].
    + apply Z.eqb_eq in E. subst k0. now constructor.
    + apply Z.eqb_neq in E. constructor; [|now apply IH].
      intros Hin. apply (od_keys_set d k v k0) in Hin.
      destruct Hin as [Heq|Hin]; [congruence | contradiction].
Qed.

Lemma od_mem_keys d k : od_mem d k = true <-> In k (od_keys d).
Proof.
  unfold od_mem, od_keys. induction d as [|[k0 v0] d IH]; cbn [od_get map fst In].
  - split; [discriminate | contradiction].
  - destruct (k0 =? k) eqn:E.
    + apply Z.eqb_eq in E. intuition.
    + apply Z.eqb_neq in E. rewrite IH. intuition.
Qed.

Lemma od_get_keys d k : od_get d k <> None <-> In k (od_keys d).
Proof.
  rewrite <- od_mem_keys. unfold od_mem.
  destruct (od_get d k); split; congruence.
Qed.

End OrderedDict.

Lemma latest_keys_NoDup {F : Type} (l : list (ModelFeatures F)) :
  List.NoDup (od_keys (_latest_by_patient l)).
Proof.
  unfold _latest_by_patient.
  assert (forall by_ : odict (ModelFeatures F),
            List.NoDup (od_keys by_) ->
            List.NoDup
              (od_keys
                 (fold_left
                    (fun by_ mf =>
                       match od_get by_ (mf_patient_id mf) with
                       | None => od_set by_ (mf_patient_id mf) mf
                       | Some cur =>
                           if date cur <? date mf
                           then od_set by_ (mf_patient_id mf) mf
                           else by_
                       end) l by_))) as Hgen.
  { induction l as [|mf l IH]; intros by_ Hnd; [exact Hnd|].
    cbn [fold_left]. apply IH.
    destruct (od_get by_ (mf_patient_id mf)) as [cur|];
      [destruct (date cur <? date mf)|];
      try exact Hnd; now apply od_keys_set_NoDup. }
  apply Hgen. constructor.
Qed.

(** *** [sorted] *)



Lemma sorted_length (l : list Z) : length (sorted l) = length l.
Proof.
  unfold sorted. induction l as [|x l IH]; cbn [fold_right length];
    [reflexivity|].
  rewrite <- IH. generalize (fold_right insert_sorted [] l). intros s.
  induction s as [|z s IHs]; cbn [insert_sorted length]; [reflexivity|].
  destruct (x <=? z); cbn [length]; [reflexivity | now rewrite IHs].
Qed.



Section ConcentrationSeries.
Context {F : Type} `{PyFloat F}.














End ConcentrationSeries.


(** A patient with two counting lab tests: the maternal value is the mean
    of the levels of the test read last, 3.0, not the mean 2.0 of all the
    levels measured for the patient. *)
Example concentration_series_of_a_retested_patient :
  fetch_concentration_series Examples.retest_store 0 (2 * day_us)
  = Ok {| series_labels := ["P1"];
          maternal_series := [3%float];
          fetal_series := [2%float] |}.
Proof. vm_compute. reflexivity. Qed.

(** ** Rounding *)

Section RoundingErasure.
Context {F : Type} {H : PyFloat F}.

(** Leaving the rounding out changes no other operation. *)
Lemma raw_fz : @fz F (without_rounding H) = @fz F H.
Proof. reflexivity. Qed.
Lemma raw_fadd : @fadd F (without_rounding H) = @fadd F H.
Proof. reflexivity. Qed.
Lemma raw_fsub : @fsub F (without_rounding H) = @fsub F H.
Proof. reflexivity. Qed.
Lemma raw_fmul : @fmul F (without_rounding H) = @fmul F H.
Proof. reflexivity. Qed.
Lemma raw_fdiv : @fdiv F (without_rounding H) = @fdiv F H.
Proof. reflexivity. Qed.
Lemma raw_fsq : @fsq F (without_rounding H) = @fsq F H.
Proof. reflexivity. Qed.
Lemma raw_fsqrt : @fsqrt F (without_rounding H) = @fsqrt F H.
Proof. reflexivity. Qed.
Lemma raw_fabs : @fabs F (without_rounding H) = @fabs F H.
Proof. reflexivity. Qed.
Lemma raw_fltb : @fltb F (without_rounding H) = @fltb F H.
Proof. reflexivity. Qed.
Lemma raw_fis_zero : @fis_zero F (without_rounding H) = @fis_zero F H.
Proof. reflexivity. Qed.
Lemma raw_fis_nan : @fis_nan F (without_rounding H) = @fis_nan F H.
Proof. reflexivity. Qed.
Lemma raw_fis_inf : @fis_inf F (without_rounding H) = @fis_inf F H.
Proof. reflexivity. Qed.
Lemma raw_ftrunc : @ftrunc F (without_rounding H) = @ftrunc F H.
Proof. reflexivity. Qed.
Lemma raw_fround3 (x : F) : @fround3 F (without_rounding H) x = x.
Proof. reflexivity. Qed.

Lemma raw_py_truediv : @py_truediv F (without_rounding H) = @py_truediv F H.
Proof. reflexivity. Qed.
Lemma raw_py_truediv_int :
  @py_truediv_int F (without_rounding H) = @py_truediv_int F H.
Proof. reflexivity. Qed.
Lemma raw_py_sq : @py_sq F (without_rounding H) = @py_sq F H.
Proof. reflexivity. Qed.
Lemma raw_py_int : @py_int F (without_rounding H) = @py_int F H.
Proof. reflexivity. Qed.
Lemma raw_py_sum : @py_sum F (without_rounding H) = @py_sum F H.
Proof. reflexivity. Qed.
Lemma raw_mean_or_zero :
  @mean_or_zero F (without_rounding H) = @mean_or_zero F H.
Proof. reflexivity. Qed.
Lemma raw_py_float : @py_float F (without_rounding H) = @py_float F H.
Proof. reflexivity. Qed.
Lemma raw_py_truthy : @py_truthy F (without_rounding H) = @py_truthy F H.
Proof. reflexivity. Qed.
Lemma raw_float_or_zero :
  @float_or_zero F (without_rounding H) = @float_or_zero F H.
Proof. reflexivity. Qed.
Lemma raw_py_int_num : @py_int_num F (without_rounding H) = @py_int_num F H.
Proof. reflexivity. Qed.
Lemma raw_pred_or_zero :
  @pred_or_zero F (without_rounding H) = @pred_or_zero F H.
Proof. reflexivity. Qed.
Lemma raw_jval_or_zero :
  @jval_or_zero F (without_rounding H) = @jval_or_zero F H.
Proof. reflexivity. Qed.
Lemma raw_accum_init : @accum_init F (without_rounding H) = @accum_init F H.
Proof. reflexivity. Qed.
Lemma raw_sum_at : @sum_at F (without_rounding H) = @sum_at F H.
Proof. reflexivity. Qed.
Lemma raw_accum_add : @accum_add F (without_rounding H) = @accum_add F H.
Proof. reflexivity. Qed.
Lemma raw_accum_avg : @accum_avg F (without_rounding H) = @accum_avg F H.
Proof. reflexivity. Qed.
Lemma raw_bmi3 : @_bmi3 F (without_rounding H) = @_bmi3 F H.
Proof. reflexivity. Qed.
Lemma raw_dairy_bucket :
  @dairy_bucket F (without_rounding H) = @dairy_bucket F H.
Proof. reflexivity. Qed.
Lemma raw_od_at : @od_at F (without_rounding H) = @od_at F H.
Proof. reflexivity. Qed.

Create Rewrite HintDb raw.
#[local] Hint Rewrite raw_fz raw_fadd raw_fsub raw_fmul raw_fdiv raw_fsq
  raw_fsqrt raw_fabs raw_fltb raw_fis_zero raw_fis_nan raw_fis_inf raw_ftrunc
  raw_py_truediv raw_py_truediv_int raw_py_sq raw_py_int raw_py_sum
  raw_mean_or_zero raw_py_float raw_py_truthy raw_float_or_zero
  raw_py_int_num raw_pred_or_zero raw_jval_or_zero raw_accum_init
  raw_sum_at raw_accum_add raw_accum_avg raw_bmi3 raw_dairy_bucket
  raw_od_at : raw.

(** Unfold one definition on both sides, move every operation to the
    rounding arithmetic, and compare. *)
Ltac same_without_rounding f :=
  unfold f; autorewrite with raw; reflexivity.

Lemma raw_total_load : @total_load F (without_rounding H) = @total_load F H.
Proof. same_without_rounding @total_load. Qed.
#[local] Hint Rewrite raw_total_load : raw.

Lemma raw_feat_or_zero :
  @feat_or_zero F (without_rounding H) = @feat_or_zero F H.
Proof. same_without_rounding @feat_or_zero. Qed.
#[local] Hint Rewrite raw_feat_or_zero : raw.

Lemma raw_dairy_of : @dairy_of F (without_rounding H) = @dairy_of F H.
Proof. same_without_rounding @dairy_of. Qed.
#[local] Hint Rewrite raw_dairy_of : raw.

Lemma raw_corr : @corr F (without_rounding H) = @corr F H.
Proof. same_without_rounding @corr. Qed.
#[local] Hint Rewrite raw_corr : raw.

Lemma raw_avg_row_step :
  @avg_row_step F (without_rounding H) = @avg_row_step F H.
Proof. same_without_rounding @avg_row_step. Qed.
#[local] Hint Rewrite raw_avg_row_step : raw.

Lemma raw_avg_test_step :
  @avg_test_step F (without_rounding H) = @avg_test_step F H.
Proof. same_without_rounding @avg_test_step. Qed.
#[local] Hint Rewrite raw_avg_test_step : raw.

Lemma raw_avg_mf_step : @avg_mf_step F (without_rounding H) = @avg_mf_step F H.
Proof. same_without_rounding @avg_mf_step. Qed.
#[local] Hint Rewrite raw_avg_mf_step : raw.

Lemma raw_test_levels : @test_levels F (without_rounding H) = @test_levels F H.
Proof. same_without_rounding @test_levels. Qed.
#[local] Hint Rewrite raw_test_levels : raw.

Lemma raw_series_test_step :
  @series_test_step F (without_rounding H) = @series_test_step F H.
Proof. same_without_rounding @series_test_step. Qed.
#[local] Hint Rewrite raw_series_test_step : raw.

Lemma raw_positive_preds :
  @positive_preds F (without_rounding H) = @positive_preds F H.
Proof. same_without_rounding @positive_preds. Qed.
#[local] Hint Rewrite raw_positive_preds : raw.

Lemma raw_series_mf_step :
  @series_mf_step F (without_rounding H) = @series_mf_step F H.
Proof. same_without_rounding @series_mf_step. Qed.
#[local] Hint Rewrite raw_series_mf_step : raw.

Lemma raw_age_mf_step : @age_mf_step F (without_rounding H) = @age_mf_step F H.
Proof. same_without_rounding @age_mf_step. Qed.
#[local] Hint Rewrite raw_age_mf_step : raw.

Lemma raw_bmi_mf_step : @bmi_mf_step F (without_rounding H) = @bmi_mf_step F H.
Proof. same_without_rounding @bmi_mf_step. Qed.
#[local] Hint Rewrite raw_bmi_mf_step : raw.

Lemma raw_smoking_is_one :
  @smoking_is_one F (without_rounding H) = @smoking_is_one F H.
Proof. same_without_rounding @smoking_is_one. Qed.
#[local] Hint Rewrite raw_smoking_is_one : raw.

Lemma raw_smoking_mf_step :
  @smoking_mf_step F (without_rounding H) = @smoking_mf_step F H.
Proof. same_without_rounding @smoking_mf_step. Qed.
#[local] Hint Rewrite raw_smoking_mf_step : raw.

Lemma raw_heatmap_series :
  @heatmap_series F (without_rounding H) = @heatmap_series F H.
Proof. same_without_rounding @heatmap_series. Qed.
#[local] Hint Rewrite raw_heatmap_series : raw.

Lemma raw_dietary_mf_step :
  @dietary_mf_step F (without_rounding H) = @dietary_mf_step F H.
Proof. same_without_rounding @dietary_mf_step. Qed.
#[local] Hint Rewrite raw_dietary_mf_step : raw.

Lemma raw_summary_key_step :
  @summary_key_step F (without_rounding H) = @summary_key_step F H.
Proof. same_without_rounding @summary_key_step. Qed.
#[local] Hint Rewrite raw_summary_key_step : raw.

Lemma raw_summary_mf_step :
  @summary_mf_step F (without_rounding H) = @summary_mf_step F H.
Proof. same_without_rounding @summary_mf_step. Qed.
#[local] Hint Rewrite raw_summary_mf_step : raw.

Lemma raw_summary_pair_step :
  @summary_pair_step F (without_rounding H) = @summary_pair_step F H.
Proof. same_without_rounding @summary_pair_step. Qed.
#[local] Hint Rewrite raw_summary_pair_step : raw.

Lemma raw_max_item : @max_item F (without_rounding H) = @max_item F H.
Proof. reflexivity. Qed.
Lemma raw_items_get : @items_get F (without_rounding H) = @items_get F H.
Proof. reflexivity. Qed.
#[local] Hint Rewrite raw_max_item raw_items_get : raw.

Lemma raw_risk_from_value :
  @_risk_from_value F (without_rounding H) = @_risk_from_value F H.
Proof. reflexivity. Qed.
#[local] Hint Rewrite raw_risk_from_value : raw.

Lemma raw_risk_key_step :
  @risk_key_step F (without_rounding H) = @risk_key_step F H.
Proof. same_without_rounding @risk_key_step. Qed.
#[local] Hint Rewrite raw_risk_key_step : raw.

Lemma raw_risk_mf_step :
  @risk_mf_step F (without_rounding H) = @risk_mf_step F H.
Proof. same_without_rounding @risk_mf_step. Qed.
#[local] Hint Rewrite raw_risk_mf_step : raw.

Lemma raw_fetch_risk_distribution_by_pcb (st : Store F) (s e : Z) :
  @fetch_risk_distribution_by_pcb F (without_rounding H) st s e
  = @fetch_risk_distribution_by_pcb F H st s e.
Proof. same_without_rounding @fetch_risk_distribution_by_pcb. Qed.

Lemma raw_fetch_avg_pcb_levels (st : Store F) (s e : Z) :
  @fetch_avg_pcb_levels F (without_rounding H) st s e
  = @fetch_avg_pcb_levels F H st s e.
Proof. same_without_rounding @fetch_avg_pcb_levels. Qed.

Lemma raw_fetch_concentration_series (st : Store F) (s e : Z) :
  @fetch_concentration_series F (without_rounding H) st s e
  = @fetch_concentration_series F H st s e.
Proof. same_without_rounding @fetch_concentration_series. Qed.

Lemma raw_fetch_age_groups_avg (st : Store F) (s e : Z) :
  @fetch_age_groups_avg F (without_rounding H) st s e
  = @fetch_age_groups_avg F H st s e.
Proof. same_without_rounding @fetch_age_groups_avg. Qed.

Lemma raw_fetch_pcb_by_bmi (st : Store F) (s e : Z) :
  @fetch_pcb_by_bmi F (without_rounding H) st s e
  = @fetch_pcb_by_bmi F H st s e.
Proof. same_without_rounding @fetch_pcb_by_bmi. Qed.

Lemma raw_fetch_smoking_comparison (st : Store F) (s e : Z) :
  @fetch_smoking_comparison F (without_rounding H) st s e
  = @fetch_smoking_comparison F H st s e.
Proof. same_without_rounding @fetch_smoking_comparison. Qed.

Lemma bind_ok_map {A B : Type} (f : A -> B) (m : result A) :
  (do y <- m; Ok (f y)) = result_map f m.
Proof. now destruct m. Qed.

Lemma map_r_result_map {X Y Z : Type} (g : X -> result Y) (f : Y -> Z)
    (l : list X) :
  map_r (fun x => result_map f (g x)) l = result_map (map f) (map_r g l).
Proof.
  induction l as [|x l IH]; [reflexivity|].
  cbn [map_r]. rewrite IH.
  destruct (g x) as [y|e]; [|reflexivity].
  cbn [result_map bind]. now destruct (map_r g l).
Qed.

Lemma rounded_fetch_dietary_patterns (st : Store F) (s e : Z) :
  @fetch_dietary_patterns F H st s e
  = result_map round_chart
      (@fetch_dietary_patterns F (without_rounding H) st s e).
Proof.
  unfold fetch_dietary_patterns. autorewrite with raw.
  destruct (for_each dietary_mf_step _ _) as [bins|err]; [|reflexivity].
  cbn [bind].
  destruct (map_r _ DAIRY_LABELS) as [vals|err]; [|reflexivity].
  cbn [bind result_map]. unfold round_chart. cbn [labels values].
  now rewrite map_map.
Qed.

Lemma rounded_fetch_exposure_contribution (st : Store F) (s e : Z) :
  @fetch_exposure_contribution F H st s e
  = result_map round_chart
      (@fetch_exposure_contribution F (without_rounding H) st s e).
Proof.
  unfold fetch_exposure_contribution. autorewrite with raw.
  set (mfs := select_features st s e).
  destruct (map_r total_load mfs) as [totals|err]; [|reflexivity].
  cbn [bind].
  set (g := fun cat : string * string =>
              do x <- corr (map (fun mf => feat_or_zero mf (snd cat)) mfs)
                           totals;
              Ok (fabs x)).
  change (map_r _ EXPOSURE_CATS) with
    (map_r (fun cat => do x <- corr (map (fun mf => feat_or_zero mf (snd cat)) mfs)
                                    totals;
                       Ok (fround3 (fabs x))) EXPOSURE_CATS) at 1.
  change (map_r (fun cat => do x <- _; Ok (@fround3 F (without_rounding H) _))
            EXPOSURE_CATS) with (map_r g EXPOSURE_CATS).
  rewrite (map_r_ext_in _ (fun cat => result_map fround3 (g cat))).
  2:{ intros cat _. unfold g. now destruct (corr _ _). }
  rewrite map_r_result_map.
  destruct (map_r g EXPOSURE_CATS) as [vals|err]; [|reflexivity].
  cbn [bind result_map]. unfold round_chart. cbn [labels values].
  now rewrite !map_map.
Qed.

Lemma rounded_fetch_correlation_heatmap (st : Store F) (s e : Z) :
  @fetch_correlation_heatmap F H st s e
  = result_map round_heatmap
      (@fetch_correlation_heatmap F (without_rounding H) st s e).
Proof.
  unfold fetch_correlation_heatmap. autorewrite with raw.
  set (mfs := select_features st s e).
  set (g := fun r c : string =>
              corr (heatmap_series mfs r) (heatmap_series mfs c)).
  change (map_r _ HEATMAP_VARS) with
    (map_r (fun r => map_r (fun c => do x <- g r c; Ok (fround3 x))
                           HEATMAP_VARS) HEATMAP_VARS) at 1.
  change (map_r (fun r => map_r (fun c => do x <- _;
                                          Ok (@fround3 F (without_rounding H) _))
                                HEATMAP_VARS) HEATMAP_VARS)
    with (map_r (fun r => map_r (fun c => do x <- g r c; Ok x) HEATMAP_VARS)
                HEATMAP_VARS).
  rewrite (map_r_ext_in _
             (fun r => result_map (map fround3)
                         (map_r (fun c => do x <- g r c; Ok x) HEATMAP_VARS))).
  2:{ intros r _. rewrite <- map_r_result_map. apply map_r_ext_in.
      intros c _. now destruct (g r c). }
  rewrite map_r_result_map.
  destruct (map_r _ HEATMAP_VARS) as [mat|err]; reflexivity.
Qed.

(** A loop that appends one point per step, with the rounding and
    without it. *)
Lemma rounded_points_loop {X : Type}
    (step step0 : list (Point F) -> X -> result (list (Point F)))
    (xs : list X) :
  (forall pts x, step (map round_point pts) x
                 = result_map (map round_point) (step0 pts x)) ->
  forall pts, for_each step xs (map round_point pts)
              = result_map (map round_point) (for_each step0 xs pts).
Proof.
  intros Hstep. induction xs as [|x xs IH]; intros pts; [reflexivity|].
  cbn [for_each]. rewrite Hstep.
  destruct (step0 pts x) as [pts'|err]; [|reflexivity].
  cbn [result_map bind]. apply IH.
Qed.

Lemma rounded_fetch_lifestyle_clusters (st : Store F) (s e : Z) :
  @fetch_lifestyle_clusters F H st s e
  = result_map (map round_point)
      (@fetch_lifestyle_clusters F (without_rounding H) st s e).
Proof.
  unfold fetch_lifestyle_clusters.
  apply (rounded_points_loop _ _ _) with (pts := []).
  intros pts mf. unfold lifestyle_mf_step. autorewrite with raw.
  destruct (feats_of mf !! "Age") as [[|a]|]; try reflexivity.
  destruct (total_load mf) as [total|err]; [|reflexivity].
  cbn [bind result_map]. now rewrite map_app.
Qed.

Lemma rounded_fetch_scatter_total_vs_age (st : Store F) (s e : Z) :
  @fetch_scatter_total_vs_age F H st s e
  = result_map (map round_point)
      (@fetch_scatter_total_vs_age F (without_rounding H) st s e).
Proof.
  unfold fetch_scatter_total_vs_age.
  destruct (_latest_by_patient (select_features st s e)) as [|it its];
    [reflexivity|].
  apply (rounded_points_loop _ _ _) with (pts := []).
  intros pts it'. unfold scatter_mf_step. autorewrite with raw.
  destruct (od_get _ (fst it')) as [p|]; [|reflexivity].
  destruct (age p) as [a|]; [|reflexivity].
  destruct (total_load (snd it')) as [total|err]; [|reflexivity].
  cbn [bind result_map]. now rewrite map_app.
Qed.

Lemma rounded_fetch_summary (st : Store F) (s e : Z) :
  match @fetch_summary F H st s e,
        @fetch_summary F (without_rounding H) st s e with
  | Ok r, Ok r0 => summary_rounds r r0
  | Raise err, Raise err0 => err = err0
  | _, _ => False
  end.
Proof.
  unfold fetch_summary. autorewrite with raw.
  destruct (fold_left summary_mf_step _ _) as [acc fetal_totals].
  destruct (map_r (accum_avg acc) PCB_KEYS) as [avg_list|err];
    [|reflexivity].
  cbn [bind].
  destruct (mean_or_zero fetal_totals) as [avg_fetal|err]; [|reflexivity].
  cbn [bind].
  destruct (for_each summary_pair_step _ _) as [[xs ys]|err]; [|reflexivity].
  cbn [bind].
  unfold summary_rounds.
  destruct xs as [|x xs], ys as [|y ys]; cbn [bind];
    try (cbn [total_patients high_risk top_pcb top_pcb_avg avg_fetal_pcb
              correlation];
         rewrite ?raw_fround3; now auto 10).
  destruct (py_truediv_int _ _) as [mx|err]; [|reflexivity]. cbn [bind].
  destruct (py_truediv_int _ _) as [my|err]; [|reflexivity]. cbn [bind].
  destruct (map_r _ (x :: xs)) as [sqx|err]; [|reflexivity]. cbn [bind].
  destruct (map_r _ (y :: ys)) as [sqy|err]; [|reflexivity]. cbn [bind].
  match goal with
  | |- context [bind ?m _] => destruct m as [raw|err]; [|reflexivity]
  end.
  cbn [bind total_patients high_risk top_pcb top_pcb_avg avg_fetal_pcb
       correlation].
  rewrite ?raw_fround3. now auto 10.
Qed.

(** C2 (amended). Rounding to three decimals is applied where the code
    writes it, at the last step and nowhere before.  Six aggregations do
    not round at all: the maternal and fetal average lists, the risk
    counts, the concentration series, the age-group averages, the
    BMI-bucket averages and the smoking-comparison averages are what the
    same code computes in the arithmetic [without_rounding].  Six
    aggregations round their finished values only: the dietary-pattern
    averages, the exposure-contribution correlations, the heatmap
    correlations, the [y] of the scatter and cluster points, and in the
    summary the two averages and the correlation, are the rounding of what
    the code computes without it. *)
Theorem rounding_only_where_written (st : Store F) (start end_ : Z) :
  @fetch_avg_pcb_levels F H st start end_
  = @fetch_avg_pcb_levels F (without_rounding H) st start end_
  /\ @fetch_risk_distribution_by_pcb F H st start end_
     = @fetch_risk_distribution_by_pcb F (without_rounding H) st start end_
  /\ @fetch_concentration_series F H st start end_
     = @fetch_concentration_series F (without_rounding H) st start end_
  /\ @fetch_age_groups_avg F H st start end_
     = @fetch_age_groups_avg F (without_rounding H) st start end_
  /\ @fetch_pcb_by_bmi F H st start end_
     = @fetch_pcb_by_bmi F (without_rounding H) st start end_
  /\ @fetch_smoking_comparison F H st start end_
     = @fetch_smoking_comparison F (without_rounding H) st start end_
  /\ @fetch_dietary_patterns F H st start end_
     = result_map round_chart
         (@fetch_dietary_patterns F (without_rounding H) st start end_)
  /\ @fetch_exposure_contribution F H st start end_
     = result_map round_chart
         (@fetch_exposure_contribution F (without_rounding H) st start end_)
  /\ @fetch_correlation_heatmap F H st start end_
     = result_map round_heatmap
         (@fetch_correlation_heatmap F (without_rounding H) st start end_)
  /\ @fetch_scatter_total_vs_age F H st start end_
     = result_map (map round_point)
         (@fetch_scatter_total_vs_age F (without_rounding H) st start end_)
  /\ @fetch_lifestyle_clusters F H st start end_
     = result_map (map round_point)
         (@fetch_lifestyle_clusters F (without_rounding H) st start end_)
  /\ match @fetch_summary F H st start end_,
           @fetch_summary F (without_rounding H) st start end_ with
     | Ok r, Ok r0 => summary_rounds r r0
     | Raise err, Raise err0 => err = err0
     | _, _ => False
     end.
Proof.
  split; [symmetry; apply raw_fetch_avg_pcb_levels|].
  split; [symmetry; apply raw_fetch_risk_distribution_by_pcb|].
  split; [symmetry; apply raw_fetch_concentration_series|].
  split; [symmetry; apply raw_fetch_age_groups_avg|].
  split; [symmetry; apply raw_fetch_pcb_by_bmi|].
  split; [symmetry; apply raw_fetch_smoking_comparison|].
  split; [apply rounded_fetch_dietary_patterns|].
  split; [apply rounded_fetch_exposure_contribution|].
  split; [apply rounded_fetch_correlation_heatmap|].
  split; [apply rounded_fetch_scatter_total_vs_age|].
  split; [apply rounded_fetch_lifestyle_clusters|].
  apply rounded_fetch_summary.
Qed.

End RoundingErasure.

(** C2, as stated, fails: over three patients whose PCB_118 levels and
    predictions are 1.0, 0.0 and 0.0, the maternal and fetal averages of
    PCB_118, the average of the age group 25-30 and the average of the
    non-smokers are all returned as the double nearest to one third,
    0.3333333333333333, which is not its own rounding to three decimals,
    0.333. *)
Lemma averages_returned_unrounded :
  fetch_avg_pcb_levels Examples.thirds_store 0 10
  = Ok {| avg_labels := PCB_KEYS;
          maternal := Examples.one_third :: repeat 0%float 9;
          fetal := Examples.one_third :: repeat 0%float 9 |}
  /\ fetch_age_groups_avg Examples.thirds_store 0 10
     = Ok {| labels := AGE_LABELS;
             values := [PFloat 0%float; PFloat Examples.one_third;
                        PFloat 0%float; PFloat 0%float; PFloat 0%float] |}
  /\ fetch_smoking_comparison Examples.thirds_store 0 10
     = Ok {| labels := ["Non-smokers"; "Smokers"];
             values := [PFloat Examples.one_third; PFloat 0%float] |}
  /\ fround3 Examples.one_third = Examples.dec_0_333
  /\ PrimFloat.eqb Examples.one_third Examples.dec_0_333 = false.
Proof. repeat split; vm_compute; reflexivity. Qed.

(** On the same input the aggregations that do round return 0.333. *)
Example rounded_outputs_of_thirds :
  fetch_summary Examples.thirds_store 0 10
  = Ok {| total_patients := 3; high_risk := 1; top_pcb := "PCB_118";
          top_pcb_avg := Examples.dec_0_333;
          avg_fetal_pcb := Examples.dec_0_333;
          correlation := 0%float |}
  /\ fetch_dietary_patterns Examples.thirds_store 0 10
     = Ok {| labels := DAIRY_LABELS;
             values := [PFloat Examples.dec_0_333; PFloat 0%float;
                        PFloat 0%float] |}.
Proof. split; vm_compute; reflexivity. Qed.

(** ** Empty inputs *)

Section EmptyInputs.
Context {L : Binary64.Libm}.

(** C7. With the three tables empty, every aggregation returns, for any
    window, its default shape: the fixed label lists in full with every
    number 0.0 or 0, and an empty list where the output has one entry per
    patient or snapshot; none raises. *)
Theorem empty_store_gives_zero_defaults (start end_ : Z) :
  fetch_summary Examples.empty_store start end_
  = Ok {| total_patients := 0; high_risk := 0; top_pcb := "PCB_118";
          top_pcb_avg := 0%float; avg_fetal_pcb := 0%float;
          correlation := 0%float |}
  /\ fetch_avg_pcb_levels Examples.empty_store start end_
     = Ok {| avg_labels := PCB_KEYS;
             maternal := repeat 0%float 10;
             fetal := repeat 0%float 10 |}
  /\ fetch_risk_distribution_by_pcb Examples.empty_store start end_
     = Ok {| risk_labels := PCB_KEYS;
             risk_low := repeat 0 10;
             risk_med := repeat 0 10;
             risk_high := repeat 0 10 |}
  /\ fetch_concentration_series Examples.empty_store start end_
     = Ok {| series_labels := []; maternal_series := [];
             fetal_series := [] |}
  /\ fetch_age_groups_avg Examples.empty_store start end_
     = Ok {| labels := AGE_LABELS; values := repeat (PInt 0) 5 |}
  /\ fetch_scatter_total_vs_age Examples.empty_store start end_ = Ok []
  /\ fetch_pcb_by_bmi Examples.empty_store start end_
     = Ok {| labels := BMI_LABELS; values := repeat (PFloat 0%float) 3 |}
  /\ fetch_smoking_comparison Examples.empty_store start end_
     = Ok {| labels := ["Non-smokers"; "Smokers"];
             values := repeat (PFloat 0%float) 2 |}
  /\ fetch_correlation_heatmap Examples.empty_store start end_
     = Ok {| heat_labels := HEATMAP_VARS;
             matrix := repeat (repeat 0%float 5) 5 |}
  /\ fetch_exposure_contribution Examples.empty_store start end_
     = Ok {| labels := map fst EXPOSURE_CATS;
             values := repeat (PFloat 0%float) 6 |}
  /\ fetch_dietary_patterns Examples.empty_store start end_
     = Ok {| labels := DAIRY_LABELS; values := repeat (PFloat 0%float) 3 |}
  /\ fetch_lifestyle_clusters Examples.empty_store start end_ = Ok [].
Proof. repeat split; vm_compute; reflexivity. Qed.

End EmptyInputs.

(** ** Correlation *)

Section SelfCorrelation.
Context {F : Type} `{PyFloat F}.


Lemma map_r_lookup {X Y : Type} (f : X -> result Y) (l : list X)
    (ys : list Y) (i : nat) (x : X) :
  map_r f l = Ok ys -> l !! i = Some x ->
  exists y, ys !! i = Some y /\ f x = Ok y.
Proof.
  revert ys i. induction l as [|x0 l IH]; intros ys i Hm Hi; [discriminate|].
  cbn [map_r] in Hm. destruct (f x0) as [y0|] eqn:E0; [|discriminate].
  cbn [bind] in Hm. destruct (map_r f l) as [ys'|] eqn:E; [|discriminate].
  cbn [bind] in Hm. injection Hm as <-.
  destruct i as [|i].
  - injection Hi as <-. now exists y0.
  - apply (IH ys' i eq_refl Hi).
Qed.


End SelfCorrelation.





Section SelfCorrelationInDoubles.
Context {L : Binary64.Libm}.


End SelfCorrelationInDoubles.



(* ===================================================================== *)
(** * Further properties                                                  *)
(* ===================================================================== *)

(** The properties below are stated over the model of the data given
    with the definitions: a feature or a prediction is a JSON number or
    [None], and [float(n)] of an integer [n] is the double nearest to [n].
    An integer beyond the range of a double, on which [float] raises
    [OverflowError], is read as an infinity by the model; the statements
    on what raises and what does not are about integers within that
    range. *)

(** ** Helpers *)

Section HelperProperties.
Context {F : Type} `{PyFloat F}.

(** A wider window selects at least the same snapshots. *)
Lemma select_features_widen (st : Store F) (s s' e e' : Z)
    (mf : ModelFeatures F) :
  s' <= s -> e <= e' ->
  In mf (select_features st s e) -> In mf (select_features st s' e').
Proof.
  intros Hs He. unfold select_features. rewrite !filter_In. cbv beta.
  intros [Hin Hw]. split; [exact Hin|].
  apply andb_true_iff in Hw. destruct Hw as [H1 H2].
  apply Z.leb_le in H1, H2. apply andb_true_iff. split; apply Z.leb_le; lia.
Qed.

(** X1. Every resolved window ends at the clock reading; a token other
    than the three named ones resolves to the window that starts on
    2000-01-01; and the windows are nested: a snapshot selected for "week"
    is selected for "month", one selected for "month" is selected for
    "threemonths", and, once the clock is at least ninety days past
    2000-01-01, one selected for "threemonths" is selected for any other
    token. *)
Theorem range_windows_are_nested (st : Store F) (now : Z) :
  (forall tok, snd (get_range_bounds now tok) = now)
  /\ (forall tok, tok <> "week" -> tok <> "month" -> tok <> "threemonths" ->
        get_range_bounds now tok = (datetime_2000_1_1, now))
  /\ (forall mf : ModelFeatures F,
        In mf (select_features st (fst (get_range_bounds now "week")) now) ->
        In mf (select_features st (fst (get_range_bounds now "month")) now))
  /\ (forall mf : ModelFeatures F,
        In mf (select_features st (fst (get_range_bounds now "month")) now) ->
        In mf (select_features st (fst (get_range_bounds now "threemonths"))
                 now))
  /\ (datetime_2000_1_1 + 90 * day_us <= now ->
      forall (tok : string) (mf : ModelFeatures F),
        tok <> "week" -> tok <> "month" -> tok <> "threemonths" ->
        In mf (select_features st (fst (get_range_bounds now "threemonths"))
                 now) ->
        In mf (select_features st (fst (get_range_bounds now tok)) now)).
Proof.
  assert (forall tok, tok <> "week" -> tok <> "month" ->
                      tok <> "threemonths" ->
                      get_range_bounds now tok = (datetime_2000_1_1, now))
    as Hall.
  { intros tok H1 H2 H3. unfold get_range_bounds.
    apply String.eqb_neq in H1, H2, H3. now rewrite H1, H2, H3. }
  split; [|split; [exact Hall|split; [|split]]].
  - intros tok. unfold get_range_bounds.
    destruct (String.eqb tok "week"); [reflexivity|].
    destruct (String.eqb tok "month"); [reflexivity|].
    destruct (String.eqb tok "threemonths"); reflexivity.
  - intros mf. apply select_features_widen; [|lia].
    cbn. unfold day_us. lia.
  - intros mf. apply select_features_widen; [|lia].
    cbn. unfold day_us. lia.
  - intros Hnow tok mf H1 H2 H3. rewrite (Hall tok H1 H2 H3).
    apply select_features_widen; [|lia].
    cbn. unfold day_us in *. lia.
Qed.

(** X2. The two date normalisers of a lab test take the result date
    before the collection date and agree whenever the test has a date.  A
    test with neither date is dated 2000-01-01 by [_test_date] but [start]
    by the average-levels loop: whenever [start <= end] its rows count
    towards the maternal averages, while the concentration series skips it
    for every window that starts after 2000-01-01. *)
Theorem lab_test_date_normalisers (start end_ : Z) (t : LabTest F) :
  (forall d, result_date t = Some d -> result_or_collection t = Some d)
  /\ (result_or_collection t <> None ->
      avg_test_datetime start t = _test_date t)
  /\ (result_or_collection t = None ->
      _test_date t = datetime_2000_1_1
      /\ (start <= end_ ->
          forall a : accum F,
            avg_test_step start end_ a t
            = fold_left avg_row_step (or_nil (pcb_results t)) a)
      /\ (datetime_2000_1_1 < start ->
          forall m : odict F, series_test_step start end_ m t = Ok m)).
Proof.
  split; [|split].
  - intros d Hd. unfold result_or_collection. now rewrite Hd.
  - unfold avg_test_datetime, _test_date.
    destruct (result_or_collection t) as [[days|us]|]; congruence.
  - intros Hn. unfold avg_test_step, series_test_step, avg_test_datetime,
      _test_date. rewrite Hn.
    split; [reflexivity|]. split.
    + intros Hle a.
      assert (in_window start end_ start = true) as ->; [|reflexivity].
      apply in_window_spec. lia.
    + intros Hlt m.
      assert (in_window start end_ datetime_2000_1_1 = false) as ->;
        [|reflexivity].
      destruct (in_window start end_ datetime_2000_1_1) eqn:E;
        [|reflexivity].
      apply in_window_spec in E. lia.
Qed.

(** X3. The three-way BMI labelling used by the BMI chart is the
    five-way labelling of [_bmi_bucket] with "Obese" merged into
    "Overweight" and "Unknown" turned into no label. *)
Theorem bmi3_merges_obese_into_overweight (bmi : option F) :
  (bmi = None -> _bmi_bucket bmi = "Unknown" /\ _bmi3 bmi = None)
  /\ (forall b, bmi = Some b ->
        _bmi_bucket bmi <> "Unknown"
        /\ _bmi3 bmi
           = Some (if String.eqb (_bmi_bucket bmi) "Obese" then "Overweight"
                   else _bmi_bucket bmi)).
Proof.
  split.
  - intros ->. split; reflexivity.
  - intros b ->. unfold _bmi_bucket, _bmi3.
    destruct (fltb b (fdiv (fz 37) (fz 2))); [split; [discriminate|reflexivity]|].
    destruct (fltb b (fz 25)); [split; [discriminate|reflexivity]|].
    destruct (fltb b (fz 30)); split; (discriminate || reflexivity).
Qed.

End HelperProperties.

(** ** Latest-per-patient reduction, continued *)

Section OrderedDictMore.
Context {V : Type}.
Implicit Types (d : odict V) (k : Z) (v : V).


Lemma od_In_get d k v :
  List.NoDup (od_keys d) -> In (k, v) d -> od_get d k = Some v.
Proof.
  unfold od_keys. induction d as [|[k0 v0] d IH]; cbn [map fst od_get In];
    intros Hnd Hin; [contradiction|].
  inversion Hnd as [|? ? Hnotin Hnd']; subst.
  destruct Hin as [[= -> ->]|Hin].
  - now rewrite Z.eqb_refl.
  - destruct (k0 =? k) eqn:E; [|now apply IH].
    apply Z.eqb_eq in E. subst k0. exfalso. apply Hnotin.
    apply (in_map fst) in Hin. exact Hin.
Qed.

Lemma od_get_none_notin d k : od_get d k = None <-> ~ In k (od_keys d).
Proof.
  rewrite <- od_get_keys. destruct (od_get d k); split; try congruence.
  intros Hn. exfalso. now apply Hn.
Qed.

(** Assigning to an absent key appends the item; assigning to a present
    key keeps the keys as they are. *)
Lemma od_set_absent d k v : od_get d k = None -> od_set d k v = d ++ [(k, v)].
Proof.
  induction d as [|[k0 v0] d IH]; cbn [od_get od_set app]; [reflexivity|].
  destruct (k0 =? k); [discriminate|]. intros Hg. now rewrite IH.
Qed.

Lemma od_keys_set_present d k v :
  od_get d k <> None -> od_keys (od_set d k v) = od_keys d.
Proof.
  unfold od_keys.
  induction d as [|[k0 v0] d IH]; cbn [od_get od_set map fst]; [congruence|].
  destruct (k0 =? k) eqn:E; cbn [map fst].
  - apply Z.eqb_eq in E. now subst.
  - intros Hg. now rewrite IH.
Qed.

Lemma existsb_eqb_keys d k :
  existsb (Z.eqb k) (od_keys d) = od_mem d k.
Proof.
  unfold od_mem, od_keys.
  induction d as [|[k0 v0] d IH]; cbn [map fst existsb od_get]; [reflexivity|].
  rewrite (Z.eqb_sym k k0). destruct (k0 =? k); [reflexivity | exact IH].
Qed.

End OrderedDictMore.

Section LatestByPatientMore.
Context {F : Type}.
Implicit Types (l : list (ModelFeatures F)) (m : ModelFeatures F).

Lemma latest_keys_fold l (by_ : odict (ModelFeatures F)) :
  od_keys
    (fold_left
       (fun by_ mf =>
          match od_get by_ (mf_patient_id mf) with
          | None => od_set by_ (mf_patient_id mf) mf
          | Some cur =>
              if date cur <? date mf then od_set by_ (mf_patient_id mf) mf
              else by_
          end) l by_)
  = fold_left
      (fun seen p => if existsb (Z.eqb p) seen then seen else seen ++ [p])
      (map mf_patient_id l) (od_keys by_).
Proof.
  revert by_. induction l as [|mf l IH]; intros by_; [reflexivity|].
  cbn [fold_left map]. rewrite IH. f_equal.
  rewrite existsb_eqb_keys. unfold od_mem.
  destruct (od_get by_ (mf_patient_id mf)) as [cur|] eqn:G.
  - destruct (date cur <? date mf); [|reflexivity].
    apply od_keys_set_present. congruence.
  - rewrite od_set_absent by exact G.
    unfold od_keys. now rewrite map_app.
Qed.

Lemma latest_In l (p : Z) :
  In p (od_keys (_latest_by_patient l))
  <-> exists m, In m l /\ mf_patient_id m = p.
Proof.
  rewrite <- od_get_keys, latest_get. split.
  - intros Hn. destruct (latest_from p None l) as [m|] eqn:E; [|congruence].
    destruct (latest_from_max _ _ _ _ E) as ([Hc|[Hin Hp]] & _ & _);
      [discriminate|].
    now exists m.
  - intros (m & Hin & Hp).
    destruct (latest_from_exists l p None m Hin Hp) as [m' ->]. discriminate.
Qed.

Lemma latest_item_In l (p : Z) m :
  In (p, m) (_latest_by_patient l) -> In m l /\ mf_patient_id m = p.
Proof.
  intros Hin.
  apply (od_In_get _ _ _ (latest_keys_NoDup l)) in Hin.
  rewrite latest_get in Hin.
  destruct (latest_from_max _ _ _ _ Hin) as ([Hc|[Hi Hp]] & _ & _);
    [discriminate | auto].
Qed.

(** X4. The reduction holds one entry per patient that has a snapshot in
    the input, in the order in which the patients first occur, and each
    entry is a snapshot of the input that belongs to its key. *)
Theorem latest_by_patient_one_entry_per_patient l :
  od_keys (_latest_by_patient l) = first_seen (map mf_patient_id l)
  /\ List.NoDup (od_keys (_latest_by_patient l))
  /\ (forall p, In p (od_keys (_latest_by_patient l))
                <-> exists m, In m l /\ mf_patient_id m = p)
  /\ (forall p m, In (p, m) (_latest_by_patient l) ->
                  In m l /\ mf_patient_id m = p).
Proof.
  split; [|split; [|split]].
  - unfold _latest_by_patient, first_seen. now rewrite latest_keys_fold.
  - apply latest_keys_NoDup.
  - apply latest_In.
  - apply latest_item_In.
Qed.

Lemma latest_values_fold (d acc : odict (ModelFeatures F)) :
  List.NoDup (od_keys (acc ++ d)) ->
  (forall p m, In (p, m) d -> mf_patient_id m = p) ->
  fold_left
    (fun by_ mf =>
       match od_get by_ (mf_patient_id mf) with
       | None => od_set by_ (mf_patient_id mf) mf
       | Some cur =>
           if date cur <? date mf then od_set by_ (mf_patient_id mf) mf
           else by_
       end) (od_values d) acc
  = acc ++ d.
Proof.
  revert acc. induction d as [|[k v] d IH]; intros acc Hnd Hkey.
  - cbn [od_values map fold_left]. now rewrite app_nil_r.
  - cbn [od_values map snd fold_left]. fold (od_values d).
    assert (mf_patient_id v = k) as -> by (apply Hkey; now left).
    assert (od_get acc k = None) as G.
    { apply od_get_none_notin. intros Hin.
      unfold od_keys in Hnd, Hin. rewrite map_app in Hnd.
      cbn [map fst] in Hnd.
      apply List.NoDup_remove_2 in Hnd. apply Hnd.
      apply in_or_app. now left. }
    rewrite G, od_set_absent by exact G.
    rewrite IH.
    + now rewrite <- app_assoc.
    + now rewrite <- app_assoc.
    + intros p m Hin. apply Hkey. now right.
Qed.

(** X5. The reduction is idempotent: reducing the snapshots it retained
    gives the same dictionary, keys in the same order. *)
Theorem latest_by_patient_idempotent l :
  _latest_by_patient (od_values (_latest_by_patient l))
  = _latest_by_patient l.
Proof.
  unfold _latest_by_patient at 1.
  rewrite (latest_values_fold (_latest_by_patient l) []); [reflexivity| |].
  - apply latest_keys_NoDup.
  - intros p m Hin. now apply latest_item_In in Hin.
Qed.

(** X6. When no two snapshots of a patient carry the same timestamp, the
    snapshot retained for each patient does not depend on the order in
    which the query returns the rows. *)
Theorem latest_by_patient_ignores_order_without_ties l l' :
  Permutation l l' ->
  (forall x y, In x l -> In y l -> mf_patient_id x = mf_patient_id y ->
               date x = date y -> x = y) ->
  forall p, od_get (_latest_by_patient l') p = od_get (_latest_by_patient l) p.
Proof.
  intros Hperm Huniq p. rewrite !latest_get.
  destruct (latest_from p None l) as [m|] eqn:E.
  - destruct (latest_from_max _ _ _ _ E) as ([Hc|[Hin Hp]] & _ & Hmax);
      [discriminate|].
    assert (In m l') as Hin' by (eapply Permutation_in; eauto).
    destruct (latest_from_exists l' p None m Hin' Hp) as [m' E'].
    rewrite E'. f_equal.
    destruct (latest_from_max _ _ _ _ E') as ([Hc|[Hi' Hp']] & _ & Hmax');
      [discriminate|].
    assert (In m' l) as Hi
      by (eapply Permutation_in; [apply Permutation_sym|]; eauto).
    apply Huniq; [exact Hi | exact Hin | congruence|].
    specialize (Hmax m' Hi Hp'). specialize (Hmax' m Hin' Hp). lia.
  - destruct (latest_from p None l') as [m'|] eqn:E'; [|reflexivity].
    destruct (latest_from_max _ _ _ _ E') as ([Hc|[Hi' Hp']] & _ & _);
      [discriminate|].
    assert (In m' l) as Hi
      by (eapply Permutation_in; [apply Permutation_sym|]; eauto).
    destruct (latest_from_exists l p None m' Hi Hp') as [m0 E0]. congruence.
Qed.

End LatestByPatientMore.

(** X6, at an input: the two snapshots of patient 1, dated 5 and 7, read
    in either order. *)
Lemma latest_by_patient_ignores_order_without_ties_witness :
  Permutation [Examples.early_snapshot; Examples.late_snapshot]
              [Examples.late_snapshot; Examples.early_snapshot]
  /\ od_get (_latest_by_patient
               [Examples.late_snapshot; Examples.early_snapshot]) 1
     = od_get (_latest_by_patient
                 [Examples.early_snapshot; Examples.late_snapshot]) 1.
Proof.
  split; [apply perm_swap|].
  apply (latest_by_patient_ignores_order_without_ties
           [Examples.early_snapshot; Examples.late_snapshot]
           [Examples.late_snapshot; Examples.early_snapshot]).
  - apply perm_swap.
  - intros x y [<-|[<-|[]]] [<-|[<-|[]]] _ Hd; try reflexivity;
      vm_compute in Hd; discriminate Hd.
Defined.

(** ** Summary metrics *)

Section SummaryMore.
Context {F : Type} `{PyFloat F}.

Lemma map_r_length {X Y : Type} (f : X -> result Y) (l : list X)
    (ys : list Y) :
  map_r f l = Ok ys -> length ys = length l.
Proof.
  revert ys. induction l as [|x l IH]; intros ys; cbn [map_r].
  - now intros [= <-].
  - destruct (f x) as [y|e]; cbn [bind]; [|discriminate].
    destruct (map_r f l) as [ys'|e]; cbn [bind]; [|discriminate].
    intros [= <-]. cbn [length]. now rewrite (IH ys').
Qed.

(** What [fetch_summary] returns, field by field. *)
Lemma fetch_summary_inv (st : Store F) (start end_ : Z) (r : Summary F) :
  fetch_summary st start end_ = Ok r ->
  exists (avg_list : list F) (avg_fetal : F),
    total_patients r
    = py_len (_latest_by_patient (select_features st start end_))
    /\ (exists g : Z -> bool,
          high_risk r
          = py_len (List.filter g
                      (od_keys (_latest_by_patient
                                  (select_features st start end_)))))
    /\ map_r (accum_avg
                (fst (fold_left summary_mf_step
                        (latest_in_range st start end_) (accum_init, []))))
             PCB_KEYS = Ok avg_list
    /\ top_pcb r = match combine PCB_KEYS avg_list with
                   | [] => "-"
                   | it :: rest => fst (max_item it rest)
                   end
    /\ top_pcb_avg r
       = fround3 (items_get (combine PCB_KEYS avg_list) (top_pcb r))
    /\ mean_or_zero
         (snd (fold_left summary_mf_step
                 (latest_in_range st start end_) (accum_init, [])))
       = Ok avg_fetal
    /\ avg_fetal_pcb r = fround3 avg_fetal.
Proof.
  unfold fetch_summary, latest_in_range. intros Hr.
  destruct (fold_left summary_mf_step _ _) as [acc fetal_totals].
  cbn [fst snd].
  destruct (map_r (accum_avg acc) PCB_KEYS) as [avg_list|err];
    [|discriminate].
  cbn [bind] in Hr.
  destruct (mean_or_zero fetal_totals) as [avg_fetal|err]; [|discriminate].
  cbn [bind] in Hr.
  destruct (for_each summary_pair_step _ _) as [[xs ys]|err]; [|discriminate].
  cbn [bind] in Hr.
  match type of Hr with
  | bind ?m _ = _ => destruct m as [c|err]; [|discriminate]
  end.
  cbn [bind] in Hr. injection Hr as <-.
  exists avg_list, avg_fetal.
  cbn [total_patients high_risk top_pcb top_pcb_avg avg_fetal_pcb].
  split; [reflexivity|]. split; [eexists; reflexivity|].
  repeat split; reflexivity.
Qed.

Lemma py_len_filter_le {X : Type} (g : X -> bool) (l : list X) :
  0 <= py_len (List.filter g l) <= py_len l.
Proof.
  unfold py_len. pose proof (List.filter_length_le g l). lia.
Qed.

(** X7. The summary counts each assessed patient once: [total_patients]
    is the number of distinct patient ids among the in-range snapshots,
    and [high_risk] lies between zero and that number. *)
Theorem summary_counts_each_patient_once
    (st : Store F) (start end_ : Z) (r : Summary F) :
  fetch_summary st start end_ = Ok r ->
  total_patients r
  = py_len (first_seen (map mf_patient_id (select_features st start end_)))
  /\ List.NoDup (first_seen (map mf_patient_id
                               (select_features st start end_)))
  /\ (forall p,
        In p (first_seen (map mf_patient_id (select_features st start end_)))
        <-> exists mf, In mf (select_features st start end_)
                       /\ mf_patient_id mf = p)
  /\ 0 <= high_risk r <= total_patients r.
Proof.
  intros Hr.
  destruct (fetch_summary_inv st start end_ r Hr)
    as (avg_list & avg_fetal & Ht & [g Hh] & _).
  assert (od_keys (_latest_by_patient (select_features st start end_))
          = first_seen (map mf_patient_id (select_features st start end_)))
    as Hk.
  { unfold _latest_by_patient, first_seen. now rewrite latest_keys_fold. }
  rewrite <- Hk.
  assert (py_len (_latest_by_patient (select_features st start end_))
          = py_len (od_keys (_latest_by_patient
                               (select_features st start end_)))) as Hl.
  { unfold py_len, od_keys. now rewrite length_map. }
  split; [congruence|]. split; [apply latest_keys_NoDup|].
  split; [apply latest_In|].
  rewrite Ht, Hh, Hl. apply py_len_filter_le.
Qed.

(** The accumulators of the summary are those of the fetal averages, run
    over the snapshots the reduction retained. *)
Lemma summary_key_fold_fst (mf : ModelFeatures F) (ks : list string)
    (a : accum F) (t : F) :
  fst (fold_left (summary_key_step mf) ks (a, t))
  = fold_left
      (fun a k => match preds_of mf !! k with
                  | Some (JNum v) => accum_add a k (py_float v)
                  | Some JNull => a
                  | None => a
                  end) ks a.
Proof.
  revert a t. induction ks as [|k ks IH]; intros a t; [reflexivity|].
  cbn [fold_left]. unfold summary_key_step at 2. cbn [fst snd].
  destruct (preds_of mf !! k) as [[|v]|]; apply IH.
Qed.

Lemma summary_fold_fst (mfs : list (ModelFeatures F)) (a : accum F)
    (ts : list F) :
  fst (fold_left summary_mf_step mfs (a, ts)) = fold_left avg_mf_step mfs a.
Proof.
  revert a ts. induction mfs as [|mf mfs IH]; intros a ts; [reflexivity|].
  cbn [fold_left]. unfold summary_mf_step at 2. cbn [fst snd].
  rewrite IH. f_equal. apply summary_key_fold_fst.
Qed.

(** The item [max] keeps is an item of the list, and nothing after it
    compares greater. *)
Lemma max_item_spec (cur : string * F) (rest : list (string * F)) :
  exists i : nat,
    (cur :: rest) !! i = Some (max_item cur rest)
    /\ forall (j : nat) (it : string * F),
         (i < j)%nat -> (cur :: rest) !! j = Some it ->
         fltb (snd (max_item cur rest)) (snd it) = false.
Proof.
  revert cur. induction rest as [|it0 rest IH]; intros cur; cbn [max_item].
  - exists 0%nat. split; [reflexivity|].
    intros j it Hj Hl. destruct j as [|j]; [lia | discriminate].
  - destruct (fltb (snd cur) (snd it0)) eqn:E.
    + destruct (IH it0) as (i & Hi & Hlater).
      exists (S i). split; [exact Hi|].
      intros j it Hj Hl. destruct j as [|j]; [lia|].
      apply (Hlater j); [lia | exact Hl].
    + destruct (IH cur) as (i & Hi & Hlater).
      destruct i as [|i].
      * exists 0%nat. split; [exact Hi|].
        intros j it Hj Hl. destruct j as [|[|j]]; [lia| |].
        -- cbn in Hl. injection Hl as <-.
           cbn in Hi. injection Hi as <-. exact E.
        -- apply (Hlater (S j)); [lia | exact Hl].
      * exists (S (S i)). split; [exact Hi|].
        intros j it Hj Hl. destruct j as [|[|j]]; [lia|lia|].
        apply (Hlater (S j)); [lia | exact Hl].
Qed.

Lemma combine_lookup {X Y : Type} (xs : list X) (ys : list Y) (i : nat)
    (x : X) (y : Y) :
  combine xs ys !! i = Some (x, y) <-> xs !! i = Some x /\ ys !! i = Some y.
Proof.
  revert ys i. induction xs as [|x0 xs IH]; intros ys i.
  - cbn. split; [discriminate | intros [? _]; discriminate].
  - destruct ys as [|y0 ys].
    + cbn [combine]. split; [discriminate|].
      intros [_ Hy]. now destruct i.
    + cbn [combine]. destruct i as [|i]; cbn.
      * split; [intros [= -> ->]; auto | intros [[= ->] [= ->]]; auto].
      * apply IH.
Qed.

Lemma items_get_combine (ks : list string) (vs : list F) (i : nat)
    (k : string) (v : F) :
  List.NoDup ks -> ks !! i = Some k -> vs !! i = Some v ->
  items_get (combine ks vs) k = v.
Proof.
  unfold items_get.
  revert vs i. induction ks as [|k0 ks IH]; intros vs i Hnd Hk Hv;
    [discriminate|].
  inversion Hnd as [|? ? Hnotin Hnd']; subst.
  destruct vs as [|v0 vs]; [now destruct i|].
  cbn [combine List.find fst].
  destruct i as [|i]; cbn in Hk, Hv.
  - injection Hk as ->. injection Hv as ->. now rewrite String.eqb_refl.
  - destruct (String.eqb_spec k0 k) as [->|_].
    + exfalso. apply Hnotin. apply list_elem_of_In.
      eapply list_elem_of_lookup_2. exact Hk.
    + now apply (IH vs i).
Qed.

(** X8. The substance the summary names is one of the ten tracked ones,
    never the placeholder "-": its average is the rounding of the guarded
    mean of that substance's predictions over the latest snapshot of each
    patient, and no substance later in the list has an average that
    compares greater. *)
Theorem summary_top_pcb_is_a_tracked_substance
    (st : Store F) (start end_ : Z) (r : Summary F) :
  fetch_summary st start end_ = Ok r ->
  exists (i : nat) (avgs : list F) (v : F),
    mean_per_substance (fetal_values (latest_in_range st start end_))
    = Ok avgs
    /\ PCB_KEYS !! i = Some (top_pcb r)
    /\ avgs !! i = Some v
    /\ top_pcb_avg r = fround3 v
    /\ (forall (j : nat) (w : F),
          (i < j)%nat -> avgs !! j = Some w -> fltb v w = false).
Proof.
  intros Hr.
  destruct (fetch_summary_inv st start end_ r Hr)
    as (avgs & avg_fetal & _ & _ & Havg & Htop & Htopavg & _).
  rewrite summary_fold_fst in Havg.
  destruct (accum_avgs_holds _ _
              (fetal_accum_holds (latest_in_range st start end_)))
    as [Eavg _].
  rewrite Eavg in Havg.
  pose proof (map_r_length _ _ _ Havg) as Hlen.
  destruct avgs as [|v0 avgs]; [discriminate Hlen|].
  set (items := combine PCB_KEYS (v0 :: avgs)) in *.
  assert (exists it rest, items = it :: rest) as (it & rest & Eitems)
    by (eexists; eexists; reflexivity).
  rewrite Eitems in Htop.
  destruct (max_item_spec it rest) as (i & Hi & Hlater).
  rewrite <- Eitems in Hi, Hlater.
  destruct (max_item it rest) as [k v].
  cbn [fst snd] in Htop, Hlater. subst items.
  apply combine_lookup in Hi. destruct Hi as [Hk Hv].
  exists i, (v0 :: avgs), v.
  split; [exact Havg|]. rewrite Htop. split; [exact Hk|].
  split; [exact Hv|]. split.
  - rewrite Htopavg, Htop. f_equal.
    apply (items_get_combine PCB_KEYS (v0 :: avgs) i);
      [apply PCB_KEYS_NoDup | exact Hk | exact Hv].
  - intros j w Hj Hw.
    destruct (PCB_KEYS !! j) as [kj|] eqn:Ekj.
    + apply (Hlater j (kj, w)); [exact Hj|].
      apply combine_lookup. now split.
    + apply lookup_ge_None in Ekj. apply lookup_lt_Some in Hw.
      cbn [length] in Hlen, Hw. lia.
Qed.

Lemma summary_pairs_empty (mfs : list (ModelFeatures F)) :
  (forall mf, In mf mfs ->
              feats_of mf !! "maternal_PCB" = None
              \/ feats_of mf !! "maternal_PCB" = Some JNull) ->
  for_each summary_pair_step mfs ([], []) = Ok ([], []).
Proof.
  induction mfs as [|mf mfs IH]; intros Hno; [reflexivity|].
  cbn [for_each]. unfold summary_pair_step at 1.
  destruct (Hno mf) as [-> | ->]; [now left | |]; cbn [bind];
    apply IH; intros mf' Hin; apply Hno; now right.
Qed.

(** X9. When no retained snapshot declares a maternal value (the
    registration form stores [None] under "maternal_PCB"), the summary
    returns, and its correlation is the literal [0.0]. *)
Theorem summary_without_maternal_values (st : Store F) (start end_ : Z) :
  (forall mf, In mf (latest_in_range st start end_) ->
              feats_of mf !! "maternal_PCB" = None
              \/ feats_of mf !! "maternal_PCB" = Some JNull) ->
  exists r, fetch_summary st start end_ = Ok r /\ correlation r = fz 0.
Proof.
  intros Hno. unfold fetch_summary.
  fold (latest_in_range st start end_).
  rewrite (summary_pairs_empty _ Hno).
  destruct (fold_left summary_mf_step _ _) as [acc fetal_totals] eqn:Efold.
  assert (acc = fold_left avg_mf_step (latest_in_range st start end_)
                  accum_init) as ->.
  { rewrite <- (summary_fold_fst _ _ []). now rewrite Efold. }
  destruct (accum_avgs_holds _ _
              (fetal_accum_holds (latest_in_range st start end_)))
    as [_ [avg_list ->]].
  cbn [bind].
  destruct (mean_or_zero_ok fetal_totals) as [avg_fetal ->].
  cbn [bind]. eexists. split; reflexivity.
Qed.

End SummaryMore.

(** X7, at an input: the three patients of [Examples.thirds_store], one of
    them at high risk. *)
Lemma summary_counts_each_patient_once_witness :
  fetch_summary Examples.thirds_store 0 10 = Ok Cases.thirds_summary
  /\ total_patients Cases.thirds_summary
     = py_len (first_seen (map mf_patient_id
                             (select_features Examples.thirds_store 0 10)))
  /\ List.NoDup (first_seen (map mf_patient_id
                               (select_features Examples.thirds_store 0 10)))
  /\ (forall p,
        In p (first_seen (map mf_patient_id
                            (select_features Examples.thirds_store 0 10)))
        <-> exists mf, In mf (select_features Examples.thirds_store 0 10)
                       /\ mf_patient_id mf = p)
  /\ 0 <= high_risk Cases.thirds_summary
       <= total_patients Cases.thirds_summary.
Proof.
  split; [vm_compute; reflexivity|].
  apply (summary_counts_each_patient_once Examples.thirds_store 0 10
           Cases.thirds_summary).
  vm_compute; reflexivity.
Defined.

(** X8, at an input: the summary of [Cases.declared_store] names
    PCB_118, the only substance with predictions. *)
Lemma summary_top_pcb_is_a_tracked_substance_witness :
  fetch_summary Cases.declared_store 0 10 = Ok Cases.declared_summary
  /\ exists (i : nat) (avgs : list float) (v : float),
       mean_per_substance
         (fetal_values (latest_in_range Cases.declared_store 0 10))
       = Ok avgs
       /\ PCB_KEYS !! i = Some (top_pcb Cases.declared_summary)
       /\ avgs !! i = Some v
       /\ top_pcb_avg Cases.declared_summary = fround3 v
       /\ (forall (j : nat) (w : float),
             (i < j)%nat -> avgs !! j = Some w -> fltb v w = false).
Proof.
  split; [vm_compute; reflexivity|].
  apply (summary_top_pcb_is_a_tracked_substance Cases.declared_store 0 10
           Cases.declared_summary).
  vm_compute; reflexivity.
Defined.

(** X9, at an input: no snapshot of [Examples.thirds_store] declares a
    maternal value. *)
Lemma summary_without_maternal_values_witness :
  exists r, fetch_summary Examples.thirds_store 0 10 = Ok r
            /\ correlation r = fz 0.
Proof.
  apply (summary_without_maternal_values Examples.thirds_store 0 10).
  intros mf Hin. vm_compute in Hin.
  destruct Hin as [<-|[<-|[<-|[]]]]; left; vm_compute; reflexivity.
Defined.

(** ** Summary metrics, continued *)

Section SummaryCorrelation.
Context {F : Type} `{PyFloat F}.

Lemma summary_key_fold_snd (mf : ModelFeatures F) (ks : list string)
    (a : accum F) (t : F) :
  snd (fold_left (summary_key_step mf) ks (a, t))
  = fold_left fadd
      (flat_map (fun k => match preds_of mf !! k with
                          | Some (JNum v) => [py_float v]
                          | Some JNull => []
                          | None => []
                          end) ks) t.
Proof.
  revert a t. induction ks as [|k ks IH]; intros a t; [reflexivity|].
  cbn [fold_left flat_map]. unfold summary_key_step at 2. cbn [fst snd].
  destruct (preds_of mf !! k) as [[|v]|]; cbn [app fold_left]; apply IH.
Qed.

Lemma summary_fold_snd (mfs : list (ModelFeatures F)) (a : accum F)
    (ts : list F) :
  snd (fold_left summary_mf_step mfs (a, ts)) = ts ++ map present_load mfs.
Proof.
  revert a ts. induction mfs as [|mf mfs IH]; intros a ts.
  - cbn [fold_left map snd]. now rewrite app_nil_r.
  - cbn [fold_left map]. unfold summary_mf_step at 2. cbn [fst snd].
    rewrite IH, summary_key_fold_snd, <- app_assoc. reflexivity.
Qed.

(** X10. The summary's average fetal concentration is the rounding of
    the guarded mean, over the latest in-range snapshot of each patient,
    of the sum of the predictions the snapshot holds; with no in-range
    snapshot it is the rounding of [0.0]. *)
Theorem summary_avg_fetal_is_mean_of_latest_totals
    (st : Store F) (start end_ : Z) (r : Summary F) :
  fetch_summary st start end_ = Ok r ->
  exists m : F,
    mean_or_zero (map present_load (latest_in_range st start end_)) = Ok m
    /\ avg_fetal_pcb r = fround3 m
    /\ (latest_in_range st start end_ = [] -> m = fz 0).
Proof.
  intros Hr.
  destruct (fetch_summary_inv st start end_ r Hr)
    as (avgs & avg_fetal & _ & _ & _ & _ & _ & Hmean & Hfetal).
  rewrite summary_fold_snd in Hmean. cbn [app] in Hmean.
  exists avg_fetal. split; [exact Hmean|]. split; [exact Hfetal|].
  intros Hnil. rewrite Hnil in Hmean. cbn in Hmean. congruence.
Qed.

(** When the loop over the retained snapshots returns, no snapshot that
    declares a maternal value stores [None] under a tracked key, and the
    two series are the declared values and the loads, in order. *)
Lemma summary_pairs_fold (mfs : list (ModelFeatures F)) (xs ys : list F)
    (p : list F * list F) :
  for_each summary_pair_step mfs (xs, ys) = Ok p ->
  p = (xs ++ map fst (maternal_pairs mfs), ys ++ map snd (maternal_pairs mfs)).
Proof.
  revert xs ys. induction mfs as [|mf mfs IH]; intros xs ys Hp.
  - cbn [for_each] in Hp. injection Hp as <-.
    cbn [maternal_pairs flat_map map]. now rewrite !app_nil_r.
  - cbn [for_each] in Hp. unfold maternal_pairs. cbn [flat_map].
    fold (maternal_pairs mfs). unfold summary_pair_step at 1 in Hp.
    destruct (feats_of mf !! "maternal_PCB") as [[|v]|];
      cbn [bind fst snd app] in Hp.
    + now apply IH in Hp.
    + rewrite total_load_guard in Hp.
      destruct (has_null_prediction mf); [discriminate Hp|].
      cbn [bind fst snd] in Hp. apply IH in Hp. rewrite Hp.
      cbn [map fst snd app]. now rewrite <- !app_assoc.
    + now apply IH in Hp.
Qed.

Lemma fetch_summary_correlation (st : Store F) (start end_ : Z)
    (r : Summary F) :
  fetch_summary st start end_ = Ok r ->
  summary_correlation
    (map fst (maternal_pairs (latest_in_range st start end_)))
    (map snd (maternal_pairs (latest_in_range st start end_)))
  = Ok (correlation r).
Proof.
  unfold fetch_summary. fold (latest_in_range st start end_). intros Hr.
  destruct (fold_left summary_mf_step _ _) as [acc fetal_totals].
  destruct (map_r (accum_avg acc) PCB_KEYS) as [avg_list|err];
    [|discriminate].
  cbn [bind] in Hr.
  destruct (mean_or_zero fetal_totals) as [avg_fetal|err]; [|discriminate].
  cbn [bind] in Hr.
  destruct (for_each summary_pair_step _ _) as [p|err] eqn:Hp;
    [|discriminate].
  apply summary_pairs_fold in Hp. cbn [app] in Hp. subst p.
  cbn [bind] in Hr.
  fold (summary_correlation
          (map fst (maternal_pairs (latest_in_range st start end_)))
          (map snd (maternal_pairs (latest_in_range st start end_)))) in Hr.
  destruct (summary_correlation _ _) as [c|err]; [|discriminate].
  cbn [bind] in Hr. injection Hr as <-. reflexivity.
Qed.

(** The block is the rounding of the nested helper on two series of the
    same length. *)
Lemma summary_correlation_is_corr (xs ys : list F) :
  length xs = length ys -> xs <> [] ->
  summary_correlation xs ys = result_map fround3 (corr xs ys).
Proof.
  intros Hlen Hne. unfold summary_correlation, corr.
  destruct xs as [|x xs]; [congruence|].
  destruct ys as [|y ys]; [discriminate|].
  assert (py_len (y :: ys) = py_len (x :: xs)) as ->
    by (unfold py_len; now rewrite Hlen).
  rewrite Z.eqb_refl. cbn [negb]. rewrite orb_false_r.
  assert ((py_len (x :: xs) =? 0) = false) as E0.
  { apply Z.eqb_neq. unfold py_len. cbn [length]. lia. }
  rewrite E0.
  destruct (py_truediv_int (py_sum (x :: xs)) _) as [mx|e];
    [|reflexivity]. cbn [bind].
  destruct (py_truediv_int (py_sum (y :: ys)) _) as [my|e];
    [|reflexivity]. cbn [bind].
  destruct (map_r _ (x :: xs)) as [sqx|e]; [|reflexivity]. cbn [bind].
  destruct (map_r _ (y :: ys)) as [sqy|e]; [|reflexivity]. cbn [bind].
  cbv zeta.
  destruct (negb _ && negb _).
  - now destruct (py_truediv _ _).
  - reflexivity.
Qed.

(** X11. The correlation of the summary is the rounding of what the
    nested correlation helper returns on the declared maternal values and
    the total predicted loads of the latest in-range snapshots that
    declare a maternal value, and the literal [0.0] when none does. *)
Theorem summary_correlation_is_the_helper_on_declared_pairs
    (st : Store F) (start end_ : Z) (r : Summary F) :
  fetch_summary st start end_ = Ok r ->
  (maternal_pairs (latest_in_range st start end_) = [] ->
   correlation r = fz 0)
  /\ (maternal_pairs (latest_in_range st start end_) <> [] ->
      exists c : F,
        corr (map fst (maternal_pairs (latest_in_range st start end_)))
             (map snd (maternal_pairs (latest_in_range st start end_)))
        = Ok c
        /\ correlation r = fround3 c).
Proof.
  intros Hr. pose proof (fetch_summary_correlation st start end_ r Hr) as Hc.
  split.
  - intros Hnil. rewrite Hnil in Hc. cbn in Hc. congruence.
  - intros Hne. rewrite summary_correlation_is_corr in Hc.
    + destruct (corr _ _) as [c|e]; [|discriminate].
      cbn [result_map] in Hc. exists c. split; [reflexivity | congruence].
    + now rewrite !length_map.
    + destruct (maternal_pairs _); [congruence | discriminate].
Qed.

End SummaryCorrelation.

(** X10, at an input: the summary of [Cases.declared_store], whose three
    snapshots predict 1.0, 3.0 and 2.0. *)
Lemma summary_avg_fetal_is_mean_of_latest_totals_witness :
  fetch_summary Cases.declared_store 0 10 = Ok Cases.declared_summary
  /\ exists m : float,
       mean_or_zero (map present_load
                       (latest_in_range Cases.declared_store 0 10)) = Ok m
       /\ avg_fetal_pcb Cases.declared_summary = fround3 m
       /\ (latest_in_range Cases.declared_store 0 10 = [] -> m = fz 0).
Proof.
  split; [vm_compute; reflexivity|].
  apply (summary_avg_fetal_is_mean_of_latest_totals Cases.declared_store
           0 10 Cases.declared_summary).
  vm_compute; reflexivity.
Defined.

(** X11, at an input: the three patients of [Cases.declared_store]
    declare a maternal value; the helper returns 0.3273268353539886 on the
    three pairs and the summary holds 0.327. *)
Lemma summary_correlation_is_the_helper_on_declared_pairs_witness :
  fetch_summary Cases.declared_store 0 10 = Ok Cases.declared_summary
  /\ maternal_pairs (latest_in_range Cases.declared_store 0 10)
     = [(1%float, 1%float); (2%float, 3%float); (4%float, 2%float)]
  /\ (maternal_pairs (latest_in_range Cases.declared_store 0 10) = [] ->
      correlation Cases.declared_summary = fz 0)
  /\ (maternal_pairs (latest_in_range Cases.declared_store 0 10) <> [] ->
      exists c : float,
        corr (map fst (maternal_pairs
                         (latest_in_range Cases.declared_store 0 10)))
             (map snd (maternal_pairs
                         (latest_in_range Cases.declared_store 0 10)))
        = Ok c
        /\ correlation Cases.declared_summary = fround3 c).
Proof.
  split; [vm_compute; reflexivity|]. split; [vm_compute; reflexivity|].
  apply (summary_correlation_is_the_helper_on_declared_pairs
           Cases.declared_store 0 10 Cases.declared_summary).
  vm_compute; reflexivity.
Defined.

(** ** Grouped averages *)

Section GroupedMeans.
Context {F : Type} `{PyFloat F}.

Lemma bucket_at_append (b : gmap string (list F)) (l l' : string) (x : F) :
  bucket_at (bucket_append b l x) l'
  = bucket_at b l' ++ (if String.eqb l l' then [x] else []).
Proof.
  unfold bucket_append, bucket_at at 1.
  destruct (String.eqb_spec l l') as [->|Hne].
  - now rewrite lookup_insert_eq.
  - rewrite lookup_insert_ne by exact Hne.
    fold (bucket_at b l'). now rewrite app_nil_r.
Qed.

(** A loop that appends the value of each labelled element to the list of
    its label leaves, under each label, the values of the members of that
    group, in order. *)
Lemma bucket_fold {X : Type}
    (step : gmap string (list F) -> X -> gmap string (list F))
    (key : X -> option string) (val : X -> F) (xs : list X) :
  (forall b x, step b x = match key x with
                          | Some k => bucket_append b k (val x)
                          | None => b
                          end) ->
  forall (b : gmap string (list F)) (l : string),
    bucket_at (fold_left step xs b) l
    = bucket_at b l ++ map val (group_members key l xs).
Proof.
  intros Hstep. unfold group_members.
  induction xs as [|x xs IH]; intros b l; cbn [fold_left List.filter map].
  - now rewrite app_nil_r.
  - rewrite IH, Hstep. destruct (key x) as [k|]; [|reflexivity].
    rewrite bucket_at_append. destruct (String.eqb k l); cbn [map].
    + now rewrite <- app_assoc.
    + now rewrite app_nil_r.
Qed.

Lemma bucket_init_at (ls : list string) (l : string) :
  bucket_at (bucket_init ls) l = ([] : list F).
Proof.
  unfold bucket_at, bucket_init.
  destruct (list_to_map _ !! l) as [xs|] eqn:E; [|reflexivity].
  apply elem_of_list_to_map_2 in E. apply list_elem_of_In in E.
  apply in_map_iff in E. destruct E as (l' & [= _ <-] & _). reflexivity.
Qed.

Lemma bucket_empty_at (l : string) :
  bucket_at (empty : gmap string (list F)) l = [].
Proof. unfold bucket_at. now rewrite lookup_empty. Qed.

Lemma group_means_ok (vals : string -> list F) (ls : list string) :
  exists vs, map_r (fun l => mean_or_zero (vals l)) ls = Ok vs.
Proof. apply map_r_ok. intros l _. apply mean_or_zero_ok. Qed.

(** A loop that appends the total predicted load of each labelled element
    to the list of its label raises [TypeError] when a labelled element
    stores [None] under a tracked key, and otherwise leaves, under each
    label, the loads of the members of that group, in order. *)
Lemma bucket_loop {X : Type}
    (step : gmap string (list F) -> X -> result (gmap string (list F)))
    (key : X -> option string) (mf_of : X -> ModelFeatures F)
    (xs : list X) :
  (forall b x, step b x = match key x with
                          | Some k =>
                              do total <- total_load (mf_of x);
                              Ok (bucket_append b k total)
                          | None => Ok b
                          end) ->
  forall b : gmap string (list F),
    if existsb (null_in_group key mf_of) xs
    then for_each step xs b = Raise TypeError
    else exists b' : gmap string (list F),
           for_each step xs b = Ok b'
           /\ forall l : string,
                bucket_at b' l
                = bucket_at b l
                  ++ map (fun x => load (mf_of x)) (group_members key l xs).
Proof.
  intros Hstep b.
  rewrite (for_each_guarded step (null_in_group key mf_of) TypeError
             (fun b x => match key x with
                         | Some k => bucket_append b k (load (mf_of x))
                         | None => b
                         end)).
  - destruct (existsb (null_in_group key mf_of) xs); [reflexivity|].
    eexists. split; [reflexivity|]. intros l.
    now apply bucket_fold.
  - intros b0 x. rewrite Hstep. unfold null_in_group.
    destruct (key x) as [k|]; [|reflexivity].
    rewrite total_load_guard.
    now destruct (has_null_prediction (mf_of x)).
Qed.

(** The chart of the guarded means of the groups a loop has left. *)
Lemma group_means_of_buckets (b : gmap string (list F))
    (vals : string -> list F) (ls : list string) :
  (forall l, bucket_at b l = vals l) ->
  map_r (fun l => mean_or_zero (bucket_at b l)) ls
  = map_r (fun l => mean_or_zero (vals l)) ls.
Proof. intros Hb. apply map_r_ext_in. intros l _. now rewrite Hb. Qed.

(** X12. The BMI chart skips a snapshot without a BMI before it reads its
    predictions, and raises [TypeError] exactly when an in-range snapshot
    with a BMI stores [None] under one of the ten keys.  Otherwise it
    returns, and holds, for each of its three labels, the guarded mean of
    the total predicted load over the in-range snapshots of that BMI
    group, every snapshot counting for itself.  A snapshot without a BMI
    is in no group; one with a BMI is in exactly one of the three. *)
Theorem pcb_by_bmi_is_the_mean_per_bmi_group (st : Store F) (start end_ : Z) :
  let mfs := select_features st start end_ in
  (if existsb (null_in_group bmi_group (fun mf => mf)) mfs
   then fetch_pcb_by_bmi st start end_ = Raise TypeError
   else exists vals : list F,
          fetch_pcb_by_bmi st start end_
          = Ok {| labels := BMI_LABELS; values := map PFloat vals |}
          /\ map_r (fun l => mean_or_zero
                               (map load (group_members bmi_group l mfs)))
                   BMI_LABELS = Ok vals)
  /\ (forall mf : ModelFeatures F,
        feats_of mf !! "BMI" = None \/ feats_of mf !! "BMI" = Some JNull ->
        bmi_group mf = None)
  /\ (forall (mf : ModelFeatures F) (v : pynum F),
        feats_of mf !! "BMI" = Some (JNum v) ->
        exists l, bmi_group mf = Some l /\ In l BMI_LABELS).
Proof.
  intros mfs. split; [|split].
  - unfold fetch_pcb_by_bmi. fold mfs.
    pose proof (bucket_loop bmi_mf_step bmi_group (fun mf => mf) mfs
                  (fun b x => eq_refl) empty) as Hloop.
    destruct (existsb (null_in_group bmi_group (fun mf => mf)) mfs).
    + now rewrite Hloop.
    + destruct Hloop as (b' & -> & Hb'). cbn [bind].
      rewrite (group_means_of_buckets b'
                 (fun l => map load (group_members bmi_group l mfs)))
        by (intros l; now rewrite Hb', bucket_empty_at).
      destruct (group_means_ok
                  (fun l => map load (group_members bmi_group l mfs))
                  BMI_LABELS) as [vals Hvals].
      exists vals. now rewrite Hvals.
  - intros mf Hb. unfold bmi_group, bmi_of. now destruct Hb as [-> | ->].
  - intros mf v Hb. unfold bmi_group, bmi_of, _bmi3, BMI_LABELS. rewrite Hb.
    destruct (fltb _ _); [eexists; split; [reflexivity|]; cbn; tauto|].
    destruct (fltb _ _); eexists; (split; [reflexivity|]); cbn; tauto.
Qed.

(** X13. The dietary chart reads the predictions of every in-range
    snapshot, and raises [TypeError] exactly when one of them stores
    [None] under one of the ten keys.  Otherwise it returns, and holds,
    for each of its three labels, the rounding of the guarded mean of the
    total predicted load over the in-range snapshots of that dairy group;
    every in-range snapshot is in exactly one group, and the dairy value
    of a snapshot that has none, or whose "Daily dairy doses" is [None],
    reads 0.0. *)
Theorem dietary_patterns_are_rounded_group_means
    (st : Store F) (start end_ : Z) :
  let mfs := select_features st start end_ in
  (if existsb has_null_prediction mfs
   then fetch_dietary_patterns st start end_ = Raise TypeError
   else exists vals : list F,
          fetch_dietary_patterns st start end_
          = Ok {| labels := DAIRY_LABELS;
                  values := map (fun v => PFloat (fround3 v)) vals |}
          /\ map_r (fun l => mean_or_zero
                               (map load (group_members dairy_group l mfs)))
                   DAIRY_LABELS = Ok vals)
  /\ (forall mf : ModelFeatures F,
        exists l, dairy_group mf = Some l /\ In l DAIRY_LABELS)
  /\ (forall mf : ModelFeatures F,
        feats_of mf !! "Daily dairy doses" = Some JNull
        \/ (feats_of mf !! "Daily dairy doses" = None
            /\ feats_of mf !! "Sum of dairy products" = None) ->
        dairy_of mf = fz 0).
Proof.
  intros mfs. split; [|split].
  - unfold fetch_dietary_patterns. fold mfs.
    pose proof (bucket_loop dietary_mf_step dairy_group (fun mf => mf) mfs
                  (fun b x => eq_refl) (bucket_init DAIRY_LABELS)) as Hloop.
    change (existsb (null_in_group dairy_group (fun mf => mf)) mfs)
      with (existsb has_null_prediction mfs) in Hloop.
    destruct (existsb has_null_prediction mfs).
    + now rewrite Hloop.
    + destruct Hloop as (b' & -> & Hb'). cbn [bind].
      rewrite (group_means_of_buckets b'
                 (fun l => map load (group_members dairy_group l mfs)))
        by (intros l; now rewrite Hb', bucket_init_at).
      destruct (group_means_ok
                  (fun l => map load (group_members dairy_group l mfs))
                  DAIRY_LABELS) as [vals Hvals].
      exists vals. now rewrite Hvals.
  - intros mf. unfold dairy_group, dairy_bucket, DAIRY_LABELS.
    destruct (fltb _ _); [eexists; split; [reflexivity|]; cbn; tauto|].
    destruct (fltb _ _); eexists; (split; [reflexivity|]); cbn; tauto.
  - intros mf [Hd|[Hd Hs]]; unfold dairy_of, feat_or_zero; rewrite Hd;
      [reflexivity | now rewrite Hs].
Qed.

(** The dictionary [{p.id: p for p in rows}] maps an id to a row of the
    patients table that carries it. *)
Lemma select_patients_get (st : Store F) (pids : list Z) (pid : Z)
    (p : Patient) :
  od_get (select_patients st pids) pid = Some p ->
  In p (patients st) /\ id p = pid.
Proof.
  unfold select_patients.
  assert (forall (rows : list Patient) (d : odict Patient),
            od_get (fold_left (fun d p => od_set d (id p) p) rows d) pid
            = Some p ->
            (In p rows /\ id p = pid) \/ od_get d pid = Some p) as Hgen.
  { induction rows as [|q rows IH]; intros d Hg; [now right|].
    cbn [fold_left] in Hg. destruct (IH _ Hg) as [[Hin Hid]|Hd].
    - left. split; [now right | exact Hid].
    - destruct (Z.eq_dec (id q) pid) as [E|E].
      + rewrite E, od_get_set_eq in Hd. injection Hd as ->.
        left. split; [now left | exact E].
      + rewrite od_get_set_ne in Hd by exact E. now right. }
  intros Hg. destruct (Hgen _ _ Hg) as [[Hin Hid]|Hd]; [|discriminate].
  apply filter_In in Hin. tauto.
Qed.

Lemma age_bucket_cases (a : Z) :
  (a < 25 -> age_bucket a = "<25")
  /\ (25 <= a <= 30 -> age_bucket a = "25-30")
  /\ (31 <= a <= 35 -> age_bucket a = "31-35")
  /\ (36 <= a <= 40 -> age_bucket a = "36-40")
  /\ (41 <= a -> age_bucket a = "41+").
Proof.
  unfold age_bucket.
  destruct (Z.ltb_spec a 25); destruct (Z.leb_spec a 30);
    destruct (Z.leb_spec a 35); destruct (Z.leb_spec a 40);
    repeat split; intros; solve [reflexivity | lia].
Qed.

(** X14. With no in-range snapshot the age chart holds five integer
    zeros.  Otherwise it reads the predictions of the latest in-range
    snapshot of each patient that has an age, and raises [TypeError]
    exactly when one of these stores [None] under one of the ten keys; if
    none does it returns, and holds, for each age band, the guarded mean
    of the total predicted load of the latest in-range snapshot of each
    patient of that band.  The age is the one recorded in the patients
    table; a patient without a row there, or without an age, is in no
    band, and the bands partition the integers at 25, 30, 35 and 40. *)
Theorem age_groups_are_means_over_latest_snapshots
    (st : Store F) (start end_ : Z) :
  let latest := _latest_by_patient (select_features st start end_) in
  let pats := select_patients st (od_keys latest) in
  (if existsb (null_in_group (age_group pats) snd) latest
   then fetch_age_groups_avg st start end_ = Raise TypeError
   else exists vals : list F,
          fetch_age_groups_avg st start end_
          = Ok {| labels := AGE_LABELS;
                  values := match latest with
                            | [] => repeat (PInt 0) 5
                            | _ :: _ => map PFloat vals
                            end |}
          /\ map_r (fun l => mean_or_zero
                               (map (fun it => load (snd it))
                                  (group_members (age_group pats) l latest)))
                   AGE_LABELS = Ok vals)
  /\ (forall (pid : Z) (p : Patient),
        od_get pats pid = Some p -> In p (patients st) /\ id p = pid)
  /\ (forall a : Z,
        (a < 25 -> age_bucket a = "<25")
        /\ (25 <= a <= 30 -> age_bucket a = "25-30")
        /\ (31 <= a <= 35 -> age_bucket a = "31-35")
        /\ (36 <= a <= 40 -> age_bucket a = "36-40")
        /\ (41 <= a -> age_bucket a = "41+")).
Proof.
  intros latest pats. subst pats.
  split; [|split; [intros pid p; apply select_patients_get
                  | apply age_bucket_cases]].
  unfold fetch_age_groups_avg. cbv zeta.
  change (_latest_by_patient (select_features st start end_)) with latest.
  clearbody latest.
  destruct (group_means_ok
              (fun l => map (fun it => load (snd it))
                          (group_members
                             (age_group (select_patients st (od_keys latest)))
                             l latest))
              AGE_LABELS) as [vals Hvals].
  destruct latest as [|it its].
  { cbn [existsb]. exists vals. split; [reflexivity | exact Hvals]. }
  cbv iota.
  set (latest := it :: its) in *.
  set (pats := select_patients st (od_keys latest)) in *.
  assert (forall b x,
            age_mf_step pats b x
            = match age_group pats x with
              | Some k => do total <- total_load (snd x);
                          Ok (bucket_append b k total)
              | None => Ok b
              end) as Hstep.
  { intros b x. unfold age_mf_step, age_group, patient_age.
    destruct (od_get pats (fst x)) as [p|]; [|reflexivity].
    now destruct (age p). }
  pose proof (bucket_loop (age_mf_step pats) (age_group pats) snd latest
                Hstep (bucket_init AGE_LABELS)) as Hloop.
  destruct (existsb (null_in_group (age_group pats) snd) latest).
  - now rewrite Hloop.
  - destruct Hloop as (b' & Hb & Hb').
    rewrite Hb. cbn [bind].
    rewrite (group_means_of_buckets b'
               (fun l => map (fun it => load (snd it))
                           (group_members (age_group pats) l latest)))
      by (intros l; now rewrite Hb', bucket_init_at).
    exists vals. now rewrite Hvals.
Qed.

(** ** Smoking comparison *)

Lemma for_each_app {S X : Type} (body : S -> X -> result S) (l1 l2 : list X)
    (s : S) :
  for_each body (l1 ++ l2) s
  = (do s' <- for_each body l1 s; for_each body l2 s').
Proof.
  revert s. induction l1 as [|x l1 IH]; intros s; [reflexivity|].
  cbn [app for_each]. destruct (body s x) as [s1|e]; [|reflexivity].
  cbn [bind]. apply IH.
Qed.





Lemma for_each_raise {S X : Type} (body : S -> X -> result S) (l : list X)
    (s : S) (e : exn) :
  for_each body l s = Raise e ->
  exists (x : X) (s' : S), In x l /\ body s' x = Raise e.
Proof.
  revert s. induction l as [|x l IH]; intros s; cbn [for_each];
    [discriminate|].
  destruct (body s x) as [s1|e1] eqn:E1; cbn [bind].
  - intros Hr. destruct (IH s1 Hr) as (x' & s' & Hin & Hb).
    exists x', s'. split; [now right | exact Hb].
  - intros [= <-]. exists x, s. split; [now left | exact E1].
Qed.

(** X17. The smoking comparison fails only because of an in-range
    snapshot: [TypeError] for one that stores [None] under one of the ten
    keys or under "Smoking", [ValueError] for a flag that is a NaN and
    [OverflowError] for a flag that is an infinity.  It never raises
    [ZeroDivisionError]: a group without members reads 0.0. *)
Theorem smoking_comparison_fails_on_a_null_or_a_flag
    (st : Store F) (start end_ : Z) (e : exn) :
  fetch_smoking_comparison st start end_ = Raise e ->
  exists mf : ModelFeatures F,
    In mf (select_features st start end_)
    /\ ((e = TypeError /\ has_null_prediction mf = true)
        \/ (e = TypeError /\ feats_of mf !! "Smoking" = Some JNull)
        \/ exists x : F,
             feats_of mf !! "Smoking" = Some (JNum (PFloat x))
             /\ ((e = ValueError /\ fis_nan x = true)
                 \/ (e = OverflowError /\ fis_nan x = false
                     /\ fis_inf x = true))).
Proof.
  unfold fetch_smoking_comparison. intros Hr.
  destruct (for_each smoking_mf_step _ _) as [[smokers nons]|e'] eqn:Eloop.
  - cbn [bind] in Hr.
    destruct (mean_or_zero_ok smokers) as [avg_s Hs].
    destruct (mean_or_zero_ok nons) as [avg_n Hn].
    rewrite Hs in Hr. cbn [bind] in Hr. rewrite Hn in Hr. discriminate.
  - cbn [bind] in Hr. injection Hr as ->.
    destruct (for_each_raise _ _ _ _ Eloop) as (mf & s' & Hin & Hb).
    exists mf. split; [exact Hin|].
    unfold smoking_mf_step in Hb. rewrite total_load_guard in Hb.
    destruct (has_null_prediction mf);
      [cbn [bind] in Hb; injection Hb as <-; now left|].
    cbn [bind] in Hb. right. unfold smoking_is_one in Hb.
    destruct (feats_of mf !! "Smoking") as [[|[z|x]]|].
    + cbn [bind] in Hb. injection Hb as <-. now left.
    + cbn [py_int_num bind] in Hb. destruct (z =? 1); discriminate.
    + right. exists x. split; [reflexivity|].
      cbn [py_int_num] in Hb. unfold py_int in Hb.
      destruct (fis_nan x); [cbn [bind] in Hb; injection Hb as <-; now left|].
      destruct (fis_inf x);
        [cbn [bind] in Hb; injection Hb as <-; right; auto|].
      cbn [bind] in Hb. destruct (ftrunc x =? 1); discriminate.
    + cbn [bind] in Hb. discriminate.
Qed.

End GroupedMeans.

(** X12, X13 and X14, at an input: the only snapshot of
    [Examples.null_prediction_store] declares a BMI and belongs to a
    patient with an age, and stores [None] under PCB_118: the three
    charts raise [TypeError]. *)
Example grouped_charts_raise_on_null_prediction :
  fetch_pcb_by_bmi Examples.null_prediction_store 0 10 = Raise TypeError
  /\ fetch_dietary_patterns Examples.null_prediction_store 0 10
     = Raise TypeError
  /\ fetch_age_groups_avg Examples.null_prediction_store 0 10
     = Raise TypeError.
Proof. repeat split; vm_compute; reflexivity. Qed.



(** X17, at two inputs: [Cases.null_smoking_store] fails on a flag, and
    [Examples.null_prediction_store] on a prediction. *)
Lemma smoking_comparison_fails_on_a_null_or_a_flag_witness :
  fetch_smoking_comparison Cases.null_smoking_store 0 10 = Raise TypeError
  /\ fetch_smoking_comparison Examples.null_prediction_store 0 10
     = Raise TypeError
  /\ has_null_prediction Examples.null_prediction_snapshot = true
  /\ exists mf : ModelFeatures float,
       In mf (select_features Cases.null_smoking_store 0 10)
       /\ ((TypeError = TypeError /\ has_null_prediction mf = true)
           \/ (TypeError = TypeError
               /\ feats_of mf !! "Smoking" = Some JNull)
           \/ exists x : float,
                feats_of mf !! "Smoking" = Some (JNum (PFloat x))
                /\ ((TypeError = ValueError /\ fis_nan x = true)
                    \/ (TypeError = OverflowError /\ fis_nan x = false
                        /\ fis_inf x = true))).
Proof.
  split; [vm_compute; reflexivity|]. split; [vm_compute; reflexivity|].
  split; [vm_compute; reflexivity|].
  apply (smoking_comparison_fails_on_a_null_or_a_flag
           Cases.null_smoking_store 0 10 TypeError).
  vm_compute; reflexivity.
Defined.

(** ** Point lists *)

Section PointLists.
Context {F : Type} `{PyFloat F}.





End PointLists.

(** X18 and X19, at two inputs.  The patient of
    [Examples.null_prediction_store] has an age and their snapshot
    declares one, and it stores [None] under PCB_118: both point lists
    raise [TypeError].  The three patients of [Examples.thirds_store] are
    30: the scatter holds their three points, and the clusters none, for
    no snapshot declares an age. *)
Example point_lists_at_inputs :
  fetch_scatter_total_vs_age Examples.null_prediction_store 0 10
  = Raise TypeError
  /\ fetch_lifestyle_clusters Examples.null_prediction_store 0 10
     = Raise TypeError
  /\ fetch_scatter_total_vs_age Examples.thirds_store 0 10
     = Ok [{| pt_x := 30%float; pt_y := 1%float |};
           {| pt_x := 30%float; pt_y := 0%float |};
           {| pt_x := 30%float; pt_y := 0%float |}]
  /\ fetch_lifestyle_clusters Examples.thirds_store 0 10 = Ok [].
Proof. repeat split; vm_compute; reflexivity. Qed.

(** ** Concentration series, continued *)

Section ConcentrationSeriesMore.
Context {F : Type} `{PyFloat F}.




End ConcentrationSeriesMore.

(** ** Risk distribution, continued *)

Section RiskDistributionMore.
Context {F : Type} `{PyFloat F}.

Lemma risk_class_count_widen (cls k : string) (q q' : ModelFeatures F -> bool)
    (l : list (ModelFeatures F)) :
  (forall mf, q mf = true -> q' mf = true) ->
  risk_class_count cls k (List.filter q l)
  <= risk_class_count cls k (List.filter q' l).
Proof.
  intros Hq. induction l as [|mf l IH]; [reflexivity|].
  cbn [List.filter]. destruct (q mf) eqn:E.
  - rewrite (Hq mf E), !risk_class_count_cons. lia.
  - destruct (q' mf); [|exact IH].
    rewrite risk_class_count_cons.
    destruct (String.eqb (risk_class mf k) cls); lia.
Qed.

(** The call raises on a [None] among the predictions in range and
    otherwise returns the counts of the classes. *)
Lemma fetch_risk_guard (st : Store F) (start end_ : Z) :
  fetch_risk_distribution_by_pcb st start end_
  = if existsb has_null_prediction (select_features st start end_)
    then Raise TypeError
    else Ok (risk_counted (select_features st start end_)).
Proof.
  unfold fetch_risk_distribution_by_pcb. cbv zeta.
  rewrite risk_loop_guard.
  now destruct (existsb has_null_prediction (select_features st start end_)).
Qed.

Lemma risk_counted_lookup (mfs : list (ModelFeatures F)) (i : nat)
    (k : string) :
  PCB_KEYS !! i = Some k ->
  risk_low (risk_counted mfs) !! i = Some (risk_class_count "low" k mfs)
  /\ risk_med (risk_counted mfs) !! i
     = Some (risk_class_count "medium" k mfs)
  /\ risk_high (risk_counted mfs) !! i
     = Some (risk_class_count "high" k mfs).
Proof.
  intros Hk.
  assert (repeat 0 (length PCB_KEYS) !! i = Some 0) as Hz.
  { apply lookup_lt_Some in Hk.
    do 10 (destruct i as [|i]; [reflexivity|]).
    cbn [length PCB_KEYS] in Hk. lia. }
  destruct (risk_fold_lookup mfs
              {| lows := repeat 0 (length PCB_KEYS);
                 meds := repeat 0 (length PCB_KEYS);
                 highs := repeat 0 (length PCB_KEYS) |} i k Hk)
    as (Hl & Hm & Hh).
  cbn [lows meds highs] in Hl, Hm, Hh.
  rewrite Hz in Hl, Hm, Hh.
  cbn [fmap option_fmap option_map] in Hl, Hm, Hh.
  rewrite Z.add_0_l in Hl, Hm, Hh.
  unfold risk_counted. cbv zeta.
  cbn [risk_low risk_med risk_high]. auto.
Qed.

Lemma existsb_filter_widen {X : Type} (g q q' : X -> bool) (l : list X) :
  (forall x, q x = true -> q' x = true) ->
  existsb g (List.filter q' l) = false ->
  existsb g (List.filter q l) = false.
Proof.
  intros Hq. induction l as [|x l IH]; [reflexivity|].
  cbn [List.filter]. destruct (q x) eqn:E.
  - rewrite (Hq x E). cbn [existsb]. intros Hg.
    apply orb_false_elim in Hg. destruct Hg as [-> Hg]. now apply IH.
  - destruct (q' x); [|exact IH]. cbn [existsb]. intros Hg.
    apply orb_false_elim in Hg. now apply IH.
Qed.

(** X21. Where the risk distribution returns over a window, it returns
    over every window inside it, and widening the window never lowers a
    risk count: for windows [start' <= start] and [end <= end'], each of
    the three counts of each substance over the wider window is at least
    the count over the narrower one.  Every count is at least zero. *)
Theorem risk_counts_grow_with_the_window
    (st : Store F) (start end_ start' end_' : Z) (r' : RiskDistribution)
    (i : nat) (k : string) :
  PCB_KEYS !! i = Some k -> start' <= start -> end_ <= end_' ->
  fetch_risk_distribution_by_pcb st start' end_' = Ok r' ->
  exists (r : RiskDistribution) (lo me hi lo' me' hi' : Z),
    fetch_risk_distribution_by_pcb st start end_ = Ok r
    /\ risk_low r !! i = Some lo
    /\ risk_med r !! i = Some me
    /\ risk_high r !! i = Some hi
    /\ risk_low r' !! i = Some lo'
    /\ risk_med r' !! i = Some me'
    /\ risk_high r' !! i = Some hi'
    /\ 0 <= lo <= lo' /\ 0 <= me <= me' /\ 0 <= hi <= hi'.
Proof.
  intros Hk Hs He Hr'.
  assert (forall mf : ModelFeatures F,
            (start <=? date mf) && (date mf <=? end_) = true ->
            (start' <=? date mf) && (date mf <=? end_') = true) as Hq.
  { intros mf Hw. apply andb_true_iff in Hw. destruct Hw as [H1 H2].
    apply Z.leb_le in H1, H2. apply andb_true_iff.
    split; apply Z.leb_le; lia. }
  rewrite fetch_risk_guard in Hr'.
  destruct (existsb has_null_prediction (select_features st start' end_'))
    eqn:Hnull'; [discriminate Hr'|].
  injection Hr' as <-.
  assert (existsb has_null_prediction (select_features st start end_)
          = false) as Hnull.
  { unfold select_features in *.
    exact (existsb_filter_widen _ _ _ _ Hq Hnull'). }
  destruct (risk_counted_lookup (select_features st start end_) i k Hk)
    as (Hl & Hm & Hh).
  destruct (risk_counted_lookup (select_features st start' end_') i k Hk)
    as (Hl' & Hm' & Hh').
  exists (risk_counted (select_features st start end_)).
  do 6 eexists.
  split; [rewrite fetch_risk_guard; now rewrite Hnull|].
  split; [exact Hl|]. split; [exact Hm|]. split; [exact Hh|].
  split; [exact Hl'|]. split; [exact Hm'|]. split; [exact Hh'|].
  unfold select_features.
  repeat split;
    try (apply risk_class_count_widen; exact Hq);
    unfold risk_class_count, py_len; lia.
Qed.

End RiskDistributionMore.

(** X21, at an input: the counts of PCB_118 (index 0) over the windows
    [6, 8] and [0, 10] of [Examples.sparse_store]. *)
Lemma risk_counts_grow_with_the_window_witness :
  fetch_risk_distribution_by_pcb Examples.sparse_store 0 10
  = Ok (risk_counted (select_features Examples.sparse_store 0 10))
  /\ exists (r : RiskDistribution) (lo me hi lo' me' hi' : Z),
       fetch_risk_distribution_by_pcb Examples.sparse_store 6 8 = Ok r
       /\ risk_low r !! 0%nat = Some lo
       /\ risk_med r !! 0%nat = Some me
       /\ risk_high r !! 0%nat = Some hi
       /\ risk_low (risk_counted (select_features Examples.sparse_store 0 10))
            !! 0%nat = Some lo'
       /\ risk_med (risk_counted (select_features Examples.sparse_store 0 10))
            !! 0%nat = Some me'
       /\ risk_high (risk_counted (select_features Examples.sparse_store 0 10))
            !! 0%nat = Some hi'
       /\ 0 <= lo <= lo' /\ 0 <= me <= me' /\ 0 <= hi <= hi'.
Proof.
  assert (fetch_risk_distribution_by_pcb Examples.sparse_store 0 10
          = Ok (risk_counted (select_features Examples.sparse_store 0 10)))
    as Hr by (vm_compute; reflexivity).
  split; [exact Hr|].
  apply (risk_counts_grow_with_the_window Examples.sparse_store 6 8 0 10
           _ 0%nat "PCB_118"); [reflexivity | lia | lia | exact Hr].
Defined.

(** ** Risk distribution and the order of the rows *)

Section RiskOrder.
Context {F : Type} `{PyFloat F}.







End RiskOrder.


(** ** The dashboard endpoint *)

Section EndpointProperties.
Context {F : Type} `{PyFloat F}.





End EndpointProperties.

(** X23, at an input: with the clock at 10 and the token "week", the
    snapshot of [Examples.null_prediction_store], dated 5, is in range; the
    summary returns, for no snapshot declares a maternal value, and the
    endpoint raises the [TypeError] of the risk distribution. *)
Example dashboard_raises_on_null_prediction :
  get_dashboard_data 10 tt "week" Examples.null_prediction_store
  = Raise TypeError
  /\ select_features Examples.null_prediction_store
       (fst (get_range_bounds 10 "week")) 10
     = [Examples.null_prediction_snapshot]
  /\ fetch_summary Examples.null_prediction_store
       (fst (get_range_bounds 10 "week")) 10
     = Ok {| total_patients := 1; high_risk := 0; top_pcb := "PCB_118";
             top_pcb_avg := 0%float; avg_fetal_pcb := 0%float;
             correlation := 0%float |}.
Proof. repeat split; vm_compute; reflexivity. Qed.

(** ** Correlation, continued *)

Section CorrelationSymmetry.
Context {F : Type} `{PyFloat F}.
Hypothesis fmul_comm : forall x y : F, fmul x y = fmul y x.

Lemma products_swap (a b : list F) (mx my : F) :
  map (fun xy => fmul (fsub (fst xy) mx) (fsub (snd xy) my)) (combine a b)
  = map (fun yx => fmul (fsub (fst yx) my) (fsub (snd yx) mx)) (combine b a).
Proof.
  revert b. induction a as [|x a IH]; intros [|y b]; try reflexivity.
  cbn [combine map fst snd]. now rewrite IH, fmul_comm.
Qed.

(** Squaring is the only step of the loop over the deviations that can
    raise, and it raises [OverflowError]. *)
Lemma squares_raise_overflow (m : F) (l : list F) (e : exn) :
  map_r (fun x => py_sq (fsub x m)) l = Raise e -> e = OverflowError.
Proof.
  induction l as [|x l IH]; cbn [map_r]; [discriminate|].
  unfold py_sq at 1.
  destruct (fis_inf _ && negb (fis_inf _)); cbn [bind]; [now intros [= <-]|].
  destruct (map_r _ l) as [ys|e']; cbn [bind]; [discriminate|].
  intros [= <-]. now apply IH.
Qed.

Lemma corr_comm (a b : list F) : corr a b = corr b a.
Proof.
  unfold corr.
  destruct (py_len a =? py_len b) eqn:Eab.
  2:{ rewrite Z.eqb_sym in Eab. rewrite Eab.
      rewrite Z.eqb_sym in Eab. cbn [negb]. now rewrite !orb_true_r. }
  apply Z.eqb_eq in Eab. rewrite <- Eab, Z.eqb_refl. cbn [negb].
  rewrite orb_false_r.
  destruct (py_len a =? 0) eqn:E0; [reflexivity|].
  unfold py_truediv_int. rewrite E0. cbn [bind].
  set (mx := fdiv (py_sum a) (fz (py_len a))).
  set (my := fdiv (py_sum b) (fz (py_len a))).
  rewrite (products_swap a b mx my).
  destruct (map_r (fun x => py_sq (fsub x mx)) a) as [sqx|ex] eqn:Ex;
    destruct (map_r (fun y => py_sq (fsub y my)) b) as [sqy|ey] eqn:Ey;
    cbn [bind].
  - rewrite (fmul_comm (fsqrt (py_sum sqy)) (fsqrt (py_sum sqx))).
    now rewrite (andb_comm (negb (fis_zero (fsqrt (py_sum sqy))))).
  - reflexivity.
  - reflexivity.
  - apply squares_raise_overflow in Ex, Ey. congruence.
Qed.

End CorrelationSymmetry.

Lemma binary64_mul_comm (x y : float) : PrimFloat.mul x y = PrimFloat.mul y x.
Proof.
  apply Prim2SF_inj. rewrite !mul_spec. unfold SF64mul, SFmul.
  destruct (Prim2SF x) as [sx|sx| |sx mx ex],
           (Prim2SF y) as [sy|sy| |sy my ey];
    try reflexivity; rewrite ?(xorb_comm sx sy); try reflexivity.
  now rewrite (Pos.mul_comm mx my), (Z.add_comm ex ey).
Qed.

Section HeatmapInDoubles.
Context {L : Binary64.Libm}.

(** X24. In double precision, whatever the C library's [pow], the
    correlation helper is symmetric in its two arguments, results and
    exceptions alike, and so the heatmap the dashboard receives is a
    symmetric matrix of five rows of five entries. *)
Theorem correlation_heatmap_is_symmetric
    (st : Store float) (start end_ : Z) (hm : Heatmap float) :
  fetch_correlation_heatmap st start end_ = Ok hm ->
  (forall a b : list float, corr a b = corr b a)
  /\ length (matrix hm) = 5%nat
  /\ (forall (i : nat) (row : list float),
        matrix hm !! i = Some row -> length row = 5%nat)
  /\ (forall (i j : nat) (row : list float) (x : float),
        matrix hm !! i = Some row -> row !! j = Some x ->
        exists row', matrix hm !! j = Some row' /\ row' !! i = Some x).
Proof.
  intros Hhm.
  pose proof (@corr_comm float Binary64.binary64 binary64_mul_comm) as Hsym.
  split; [exact Hsym|].
  unfold fetch_correlation_heatmap in Hhm.
  set (mfs := select_features st start end_) in Hhm.
  destruct (map_r _ HEATMAP_VARS) as [mat|e] eqn:Hmat; [|discriminate].
  cbn [bind] in Hhm. injection Hhm as <-. cbn [matrix].
  pose proof (map_r_length _ _ _ Hmat) as Hlen.
  assert (forall (i : nat) (row : list float),
            mat !! i = Some row ->
            exists r, HEATMAP_VARS !! i = Some r
                      /\ map_r (fun c =>
                                  do x <- corr (heatmap_series mfs r)
                                               (heatmap_series mfs c);
                                  Ok (fround3 x)) HEATMAP_VARS = Ok row)
    as Hrow.
  { intros i row Hi.
    destruct (HEATMAP_VARS !! i) as [r|] eqn:Er.
    - exists r. split; [reflexivity|].
      destruct (map_r_lookup _ _ _ _ _ Hmat Er) as (row0 & Hrow0 & Hf).
      congruence.
    - apply lookup_ge_None in Er. apply lookup_lt_Some in Hi. lia. }
  split; [exact Hlen|]. split.
  - intros i row Hi. destruct (Hrow i row Hi) as (r & _ & Hr).
    exact (map_r_length _ _ _ Hr).
  - intros i j row x Hi Hj.
    destruct (Hrow i row Hi) as (r & Er & Hr).
    destruct (HEATMAP_VARS !! j) as [c|] eqn:Ec.
    2:{ apply lookup_ge_None in Ec. apply lookup_lt_Some in Hj.
        rewrite (map_r_length _ _ _ Hr) in Hj. lia. }
    destruct (map_r_lookup _ _ _ _ _ Hr Ec) as (x0 & Hx0 & Hrc).
    rewrite Hj in Hx0. injection Hx0 as <-.
    destruct (map_r_lookup _ _ _ _ _ Hmat Ec) as (row' & Hrow' & Hc).
    exists row'. split; [exact Hrow'|].
    destruct (map_r_lookup _ _ _ _ _ Hc Er) as (y & Hy & Hcr).
    rewrite Hy. f_equal.
    rewrite (Hsym (heatmap_series mfs c) (heatmap_series mfs r)) in Hcr.
    congruence.
Qed.

End HeatmapInDoubles.

(** X24, at an input: the heatmap of [Examples.two_ages_store]. *)
Lemma correlation_heatmap_is_symmetric_witness :
  fetch_correlation_heatmap Examples.two_ages_store 0 10
  = Ok Examples.two_ages_heatmap
  /\ (forall a b : list float, corr a b = corr b a)
  /\ length (matrix Examples.two_ages_heatmap) = 5%nat
  /\ (forall (i : nat) (row : list float),
        matrix Examples.two_ages_heatmap !! i = Some row -> length row = 5%nat)
  /\ (forall (i j : nat) (row : list float) (x : float),
        matrix Examples.two_ages_heatmap !! i = Some row -> row !! j = Some x ->
        exists row', matrix Examples.two_ages_heatmap !! j = Some row'
                     /\ row' !! i = Some x).
Proof.
  split; [vm_compute; reflexivity|].
  apply (correlation_heatmap_is_symmetric Examples.two_ages_store 0 10
           Examples.two_ages_heatmap).
  vm_compute; reflexivity.
Defined.

(** *** Failures *)

Section CorrelationFailures.
Context {F : Type} `{PyFloat F}.

Lemma map_r_raise {X Y : Type} (f : X -> result Y) (l : list X) (e : exn) :
  map_r f l = Raise e -> exists x, In x l /\ f x = Raise e.
Proof.
  induction l as [|x l IH]; cbn [map_r]; [discriminate|].
  destruct (f x) as [y|e1] eqn:E1; cbn [bind].
  - destruct (map_r f l) as [ys|e2]; cbn [bind]; [discriminate|].
    intros [= <-]. destruct (IH eq_refl) as (x' & Hin & Hf).
    exists x'. split; [now right | exact Hf].
  - intros [= <-]. exists x. split; [now left | exact E1].
Qed.

Lemma corr_raise (a b : list F) (e : exn) :
  corr a b = Raise e -> e = OverflowError \/ e = ZeroDivisionError.
Proof.
  unfold corr.
  destruct ((py_len a =? 0) || negb (py_len a =? py_len b)) eqn:G;
    [discriminate|].
  apply orb_false_elim in G. destruct G as [G0 _].
  unfold py_truediv_int. rewrite G0. cbn [bind].
  destruct (map_r _ a) as [sqx|ex] eqn:Ex; cbn [bind].
  2:{ intros [= <-]. left. now apply squares_raise_overflow in Ex. }
  destruct (map_r _ b) as [sqy|ey] eqn:Ey; cbn [bind].
  2:{ intros [= <-]. left. now apply squares_raise_overflow in Ey. }
  destruct (negb _ && negb _); [|discriminate].
  unfold py_truediv. destruct (fis_zero _); [|discriminate].
  intros [= <-]. now right.
Qed.

Lemma summary_correlation_raise (xs ys : list F) (e : exn) :
  summary_correlation xs ys = Raise e ->
  e = OverflowError \/ e = ZeroDivisionError.
Proof.
  unfold summary_correlation.
  destruct xs as [|x xs]; [discriminate|].
  destruct ys as [|y ys]; [discriminate|].
  unfold py_truediv_int.
  assert ((py_len (x :: xs) =? 0) = false) as ->
    by (apply Z.eqb_neq; unfold py_len; cbn [length]; lia).
  assert ((py_len (y :: ys) =? 0) = false) as ->
    by (apply Z.eqb_neq; unfold py_len; cbn [length]; lia).
  cbn [bind].
  destruct (map_r _ (x :: xs)) as [sqx|ex] eqn:Ex; cbn [bind].
  2:{ intros [= <-]. left. now apply squares_raise_overflow in Ex. }
  destruct (map_r _ (y :: ys)) as [sqy|ey] eqn:Ey; cbn [bind].
  2:{ intros [= <-]. left. now apply squares_raise_overflow in Ey. }
  cbv zeta.
  destruct (negb _ && negb _); cbn [bind]; [|discriminate].
  unfold py_truediv. destruct (fis_zero _); cbn [bind]; [|discriminate].
  intros [= <-]. now right.
Qed.

(** The loop of the summary over the retained snapshots reads the
    predictions of those that declare a maternal value. *)
Lemma summary_pairs_guard (mfs : list (ModelFeatures F)) (xs ys : list F) :
  for_each summary_pair_step mfs (xs, ys)
  = if existsb (null_in_group declared_maternal (fun mf => mf)) mfs
    then Raise TypeError
    else Ok (xs ++ map fst (maternal_pairs mfs),
             ys ++ map snd (maternal_pairs mfs)).
Proof.
  revert xs ys. induction mfs as [|mf mfs IH]; intros xs ys.
  - cbn [for_each existsb maternal_pairs flat_map map].
    now rewrite !app_nil_r.
  - cbn [for_each existsb]. unfold maternal_pairs. cbn [flat_map].
    fold (maternal_pairs mfs).
    unfold summary_pair_step at 1, null_in_group at 1, declared_maternal.
    destruct (feats_of mf !! "maternal_PCB") as [[|v]|];
      cbn [bind fst snd app orb].
    + apply IH.
    + rewrite total_load_guard.
      destruct (has_null_prediction mf); [reflexivity|].
      cbn [bind orb]. rewrite IH.
      destruct (existsb _ mfs); [reflexivity|].
      cbn [map fst snd app]. now rewrite <- !app_assoc.
    + apply IH.
Qed.

(** X25. The heatmap reads input features only and fails only in its
    correlation arithmetic: with [OverflowError], when the square of a
    deviation from the mean is out of range, or with [ZeroDivisionError],
    when the product of two roots that are not zero is zero; a missing or
    [None] feature reads 0.0, and it never raises [TypeError] or
    [ValueError].  The exposure chart forms the total load of every
    in-range snapshot first: it raises [TypeError] exactly when one of
    them stores [None] under one of the ten keys, and otherwise fails only
    in the same arithmetic.  The summary raises [TypeError] only when a
    retained snapshot that declares a maternal value stores [None] under
    one of the ten keys, and otherwise fails only in that arithmetic. *)
Theorem correlation_aggregations_fail_on_null_or_in_arithmetic
    (st : Store F) (start end_ : Z) (e : exn) :
  (fetch_correlation_heatmap st start end_ = Raise e ->
   e = OverflowError \/ e = ZeroDivisionError)
  /\ (if existsb has_null_prediction (select_features st start end_)
      then fetch_exposure_contribution st start end_ = Raise TypeError
      else fetch_exposure_contribution st start end_ = Raise e ->
           e = OverflowError \/ e = ZeroDivisionError)
  /\ (if existsb (null_in_group declared_maternal (fun mf => mf))
                 (latest_in_range st start end_)
      then fetch_summary st start end_ = Raise TypeError
      else fetch_summary st start end_ = Raise e ->
           e = OverflowError \/ e = ZeroDivisionError).
Proof.
  split; [|split].
  - intros Hh. unfold fetch_correlation_heatmap in Hh.
    destruct (map_r _ HEATMAP_VARS) as [mat|e'] eqn:Hmat; [discriminate|].
    cbn [bind] in Hh. injection Hh as ->.
    destruct (map_r_raise _ _ _ Hmat) as (r & _ & Hr).
    destruct (map_r_raise _ _ _ Hr) as (c & _ & Hc).
    destruct (corr _ _) as [x|e'] eqn:Ex; [discriminate|].
    cbn [bind] in Hc. injection Hc as ->.
    exact (corr_raise _ _ _ Ex).
  - unfold fetch_exposure_contribution. cbv zeta.
    rewrite (map_r_guarded _ _ _ _ total_load_guard).
    destruct (existsb has_null_prediction (select_features st start end_));
      [reflexivity|].
    cbn [bind]. intros He.
    destruct (map_r _ EXPOSURE_CATS) as [vals|e'] eqn:Hvals; [discriminate|].
    cbn [bind] in He. injection He as ->.
    destruct (map_r_raise _ _ _ Hvals) as (cat & _ & Hc).
    destruct (corr _ _) as [x|e'] eqn:Ex; [discriminate|].
    cbn [bind] in Hc. injection Hc as ->.
    exact (corr_raise _ _ _ Ex).
  - unfold fetch_summary.
    fold (latest_in_range st start end_).
    rewrite summary_pairs_guard. cbn [app].
    destruct (fold_left summary_mf_step _ _) as [acc fetal_totals] eqn:Efold.
    assert (acc = fold_left avg_mf_step (latest_in_range st start end_)
                    accum_init) as ->.
    { rewrite <- (summary_fold_fst _ _ []). now rewrite Efold. }
    destruct (accum_avgs_holds _ _
                (fetal_accum_holds (latest_in_range st start end_)))
      as [_ [avg_list Havg]].
    rewrite Havg. cbn [bind].
    destruct (mean_or_zero_ok fetal_totals) as [avg_fetal Hmean].
    rewrite Hmean. cbn [bind].
    destruct (existsb _ (latest_in_range st start end_)); [reflexivity|].
    cbn [bind]. intros Hs.
    fold (summary_correlation
            (map fst (maternal_pairs (latest_in_range st start end_)))
            (map snd (maternal_pairs (latest_in_range st start end_)))) in Hs.
    destruct (summary_correlation _ _) as [c|e'] eqn:Ec; [discriminate|].
    cbn [bind] in Hs. injection Hs as ->.
    exact (summary_correlation_raise _ _ _ Ec).
Qed.

End CorrelationFailures.

(** X25, at two inputs: a declared BMI of 1e200 next to one of 0 makes
    the heatmap and the exposure chart raise [OverflowError]; the [None]
    of [Examples.null_prediction_store] makes the exposure chart raise
    [TypeError] and leaves the heatmap and the summary alone. *)
Lemma correlation_aggregations_fail_on_null_or_in_arithmetic_witness :
  fetch_correlation_heatmap Examples.huge_bmi_store 0 10
  = Raise OverflowError
  /\ fetch_exposure_contribution Examples.huge_bmi_store 0 10
     = Raise OverflowError
  /\ fetch_exposure_contribution Examples.null_prediction_store 0 10
     = Raise TypeError
  /\ fetch_correlation_heatmap Examples.null_prediction_store 0 10
     = Ok {| heat_labels := HEATMAP_VARS;
             matrix := repeat (repeat 0%float 5) 5 |}
  /\ (OverflowError = OverflowError \/ OverflowError = ZeroDivisionError).
Proof.
  split; [vm_compute; reflexivity|]. split; [vm_compute; reflexivity|].
  split; [vm_compute; reflexivity|]. split; [vm_compute; reflexivity|].
  destruct (correlation_aggregations_fail_on_null_or_in_arithmetic
              Examples.huge_bmi_store 0 10 OverflowError) as (Hh & _).
  apply Hh. vm_compute; reflexivity.
Defined.

(** *** Thresholds in double precision *)

(** A double below a positive threshold is below any greater threshold
    given with the same or a greater exponent. *)
Lemma binary64_ltb_raise (v t t' : float) (m m' : positive) (e e' : Z) :
  Prim2SF t = S754_finite false m e ->
  Prim2SF t' = S754_finite false m' e' ->
  e < e' \/ (e = e' /\ (m < m')%positive) ->
  PrimFloat.ltb v t = true -> PrimFloat.ltb v t' = true.
Proof.
  intros Ht Ht' Hlt. rewrite !ltb_spec, Ht, Ht'. unfold SFltb, SFcompare.
  destruct (Prim2SF v) as [s|s| |s mv ev]; try (intros; assumption).
  destruct s; [intros; assumption|].
  destruct (Z.compare_spec ev e) as [->|Hev|Hev]; [|intros _|discriminate].
  - change (PosDef.Pos.compare_cont Eq mv m) with (Pos.compare mv m).
    change (PosDef.Pos.compare_cont Eq mv m') with (Pos.compare mv m').
    destruct (Pos.compare_spec mv m) as [|Hm|]; try discriminate.
    intros _. destruct Hlt as [Hlt|[<- Hlt]].
    + apply Z.compare_lt_iff in Hlt. now rewrite Hlt.
    + rewrite Z.compare_refl.
      assert ((mv < m')%positive) as Hm' by lia.
      apply Pos.compare_lt_iff in Hm'. now rewrite Hm'.
  - assert (ev < e') as Hev' by lia.
    apply Z.compare_lt_iff in Hev'. now rewrite Hev'.
Qed.

Section ThresholdsInDoubles.
Context {L : Binary64.Libm}.

(** X26. In double precision the dashboard's thresholds are laxer than
    those of the unused label helper: whatever [_risk_label] does not call
    high, a value below 2.0, [_risk_from_value] calls low. *)
Theorem risk_label_high_or_risk_from_value_low (v : float) :
  _risk_label v = "high" \/ _risk_from_value v = "low".
Proof.
  unfold _risk_label, _risk_from_value.
  change (@fltb float Binary64.binary64) with PrimFloat.ltb.
  replace (@fz float Binary64.binary64 1) with 1%float
    by (vm_compute; reflexivity).
  replace (@fz float Binary64.binary64 2) with 2%float
    by (vm_compute; reflexivity).
  destruct (PrimFloat.ltb v 1) eqn:E1.
  - right.
    rewrite (binary64_ltb_raise v 1 2 4503599627370496 4503599627370496
               (-52) (-51)); try reflexivity; [left; lia | exact E1].
  - destruct (PrimFloat.ltb v 2); [now right | now left].
Qed.

End ThresholdsInDoubles.
